(** * Order schema of the cdk-demo database migrations

    A shallow embedding of the PL/pgSQL functions, table constraints and
    row triggers declared by

      - [database-migrations/migrations/V1__Initial_schema.sql]
        ([update_updated_at_column], [generate_order_number]),
      - [V2__Add_orders_table.sql] (type [app.order_status], table
        [app.orders], view [app.order_summary]),
      - [V3__Add_order_items_table.sql] (table [app.order_items],
        [calculate_order_total], [update_order_total] and its three
        AFTER ROW triggers).

    [V4__Add_indexes.sql] adds indexes, reporting functions and the
    constraint [check_order_has_items], whose condition is a subquery; a
    CHECK constraint takes none, and the constraint is not part of this
    model.  Of its functions [get_order_count_by_status] and
    [get_orders_by_date_range] are modelled, and of the views of V3
    [app.order_details]; the aggregates with [AVG] are not.

    Conventions.

      - SQL NULL is [None]; a column value is an [option].
      - [NUMERIC(p, 2)] values are integers counting hundredths,
        [NUMERIC(10, 3)] values count thousandths.
      - UUIDs and timestamps are integers.
      - Text is UTF-8 (the encoding of the database): a [string] holds
        its bytes, and a character starts at every byte that is not a
        continuation byte.  [VARCHAR(n)] and [LENGTH] count characters.
      - A tuple handed to a table holds the values that result from the
        assignment casts of the statement; the tables check that every
        value lies in the domain of its column type.  The values written
        in a statement are cast when the statement is planned, before a
        DEFAULT expression is evaluated.
      - Boolean expressions follow SQL's three-valued logic; a CHECK
        constraint fails only when its expression is false. *)

From Stdlib Require Import ZArith NArith List String Ascii Bool Lia.
From Stdlib Require Import DecimalString Permutation Sorted.
Import ListNotations.
Open Scope Z_scope.

(** ** SQL values and three-valued logic *)

Definition uuid := Z.
Definition timestamptz := Z.

Module Sql.

Definition bool3 := option bool.

Definition and3 (a b : bool3) : bool3 :=
  match a, b with
  | Some false, _ | _, Some false => Some false
  | Some true, Some true => Some true
  | _, _ => None
  end.

Definition or3 (a b : bool3) : bool3 :=
  match a, b with
  | Some true, _ | _, Some true => Some true
  | Some false, Some false => Some false
  | _, _ => None
  end.

Definition lift2 {A B C} (f : A -> B -> C) (a : option A) (b : option B)
  : option C :=
  match a, b with
  | Some x, Some y => Some (f x y)
  | _, _ => None
  end.

Definition eq_z : option Z -> option Z -> bool3 := lift2 Z.eqb.
Definition gt_z : option Z -> option Z -> bool3 := lift2 Z.gtb.
Definition ge_z : option Z -> option Z -> bool3 := lift2 Z.geb.
Definition mul : option Z -> option Z -> option Z := lift2 Z.mul.
Definition sub : option Z -> option Z -> option Z := lift2 Z.sub.
Definition add : option Z -> option Z -> option Z := lift2 Z.add.

Definition is_not_null {A} (a : option A) : bool3 :=
  match a with Some _ => Some true | None => Some false end.

(** [COALESCE(a, b)]. *)
Definition coalesce {A} (a b : option A) : option A :=
  match a with Some _ => a | None => b end.

(** A continuation byte of UTF-8: [10xxxxxx]. *)
Definition continuation (c : ascii) : bool :=
  let n := nat_of_ascii c in
  ((128 <=? n) && (n <? 192))%nat.

(** The number of characters of a text. *)
Fixpoint char_length (s : string) : nat :=
  match s with
  | EmptyString => 0%nat
  | String c rest =>
      if continuation c then char_length rest else S (char_length rest)
  end.

(** [LENGTH(s)] of a text value: its number of characters. *)
Definition length (s : option string) : option Z :=
  option_map (fun x => Z.of_nat (char_length x)) s.

(** A [WHERE] clause keeps a row only when its condition is true. *)
Definition is_true (c : bool3) : bool :=
  match c with Some true => true | _ => false end.

(** A CHECK constraint rejects a row only when its condition is false. *)
Definition is_false (c : bool3) : bool :=
  match c with Some false => true | _ => false end.

(** [SUM(x)] over a column: NULL inputs are skipped, and the sum of no
    non-null input is NULL. *)
Fixpoint sum (xs : list (option Z)) : option Z :=
  match xs with
  | [] => None
  | None :: rest => sum rest
  | Some x :: rest =>
      match sum rest with
      | None => Some x
      | Some s => Some (x + s)
      end
  end.

End Sql.

(** ** Errors raised by the engine *)

Inductive sql_error : Type :=
| not_null_violation (column : string)
| check_violation (constraint : string)
| unique_violation (constraint : string)
| foreign_key_violation (constraint : string)
| numeric_value_out_of_range (column : string)
| string_data_right_truncation (column : string)
| ambiguous_column (name : string).

Inductive result (A : Type) : Type :=
| Ok (a : A)
| Raise (e : sql_error).

Arguments Ok {A} a.
Arguments Raise {A} e.

Definition bind {A B} (r : result A) (k : A -> result B) : result B :=
  match r with
  | Ok a => k a
  | Raise e => Raise e
  end.

Notation "'let?' x ':=' r 'in' k" := (bind r (fun x => k))
  (at level 10, x name, r at level 100, k at level 200).

Notation "r ';;' k" := (bind r (fun _ => k))
  (at level 100, k at level 200, right associativity).

Definition is_ok {A} (r : result A) : bool :=
  match r with Ok _ => true | Raise _ => false end.

(** ** Column types *)

(** [NOT NULL]. *)
Definition not_null {A} (column : string) (v : option A) : result unit :=
  match v with
  | Some _ => Ok tt
  | None => Raise (not_null_violation column)
  end.

(** [CHECK (cond)] under the constraint's name. *)
Definition check (constraint : string) (cond : Sql.bool3) : result unit :=
  if Sql.is_false cond then Raise (check_violation constraint) else Ok tt.

(** [NUMERIC(precision, scale)]: the scaled integer has at most
    [precision] digits. *)
Definition numeric (precision : Z) (column : string) (v : option Z)
  : result unit :=
  match v with
  | None => Ok tt
  | Some x =>
      if Z.abs x <? 10 ^ precision then Ok tt
      else Raise (numeric_value_out_of_range column)
  end.

(** [INTEGER]: four bytes, signed. *)
Definition integer (column : string) (v : option Z) : result unit :=
  match v with
  | None => Ok tt
  | Some x =>
      if (- 2 ^ 31 <=? x) && (x <? 2 ^ 31) then Ok tt
      else Raise (numeric_value_out_of_range column)
  end.

(** [VARCHAR(n)]: at most [n] characters. *)
Definition varchar (n : nat) (column : string) (v : option string)
  : result unit :=
  match v with
  | None => Ok tt
  | Some s =>
      if (Sql.char_length s <=? n)%nat then Ok tt
      else Raise (string_data_right_truncation column)
  end.


(** A column of an [INSERT]: left out of the column list (the column's
    DEFAULT applies, NULL when it has none) or given a value. *)
Inductive insert_value (A : Type) : Type :=
| DEFAULT
| VALUE (v : option A).

Arguments DEFAULT {A}.
Arguments VALUE {A} v.

Definition or_default {A} (i : insert_value A) (d : option A) : option A :=
  match i with
  | DEFAULT => d
  | VALUE v => v
  end.

(** ** V2: [app.order_status] and [app.orders] *)

Inductive order_status : Type :=
| pending
| processing
| confirmed
| shipped
| delivered
| cancelled
| failed.

Definition order_status_eqb (a b : order_status) : bool :=
  match a, b with
  | pending, pending | processing, processing | confirmed, confirmed
  | shipped, shipped | delivered, delivered | cancelled, cancelled
  | failed, failed => true
  | _, _ => false
  end.

(** The pattern of [valid_email],
    [^[A-Za-z0-9._%+-]+@[A-Za-z0-9.-]+\.[A-Za-z]{2,}$]. *)
Module EmailPattern.

Definition between (lo hi : nat) (c : ascii) : bool :=
  let n := nat_of_ascii c in ((lo <=? n) && (n <=? hi))%nat.

Definition alpha (c : ascii) : bool := between 65 90 c || between 97 122 c.
Definition digit (c : ascii) : bool := between 48 57 c.

Definition one_of (cs : string) (c : ascii) : bool :=
  existsb (Ascii.eqb c) (list_ascii_of_string cs).

(** [[A-Za-z0-9._%+-]] *)
Definition local_char (c : ascii) : bool :=
  alpha c || digit c || one_of "._%+-" c.

(** [[A-Za-z0-9.-]] *)
Definition domain_char (c : ascii) : bool :=
  alpha c || digit c || one_of ".-" c.

Fixpoint all_chars (p : ascii -> bool) (s : string) : bool :=
  match s with
  | EmptyString => true
  | String c rest => p c && all_chars p rest
  end.

(** Text before and after the first occurrence of [c]. *)
Fixpoint split_first (c : ascii) (s : string) : option (string * string) :=
  match s with
  | EmptyString => None
  | String a rest =>
      if Ascii.eqb a c then Some (EmptyString, rest)
      else match split_first c rest with
           | Some (l, r) => Some (String a l, r)
           | None => None
           end
  end.

(** Text before and after the last occurrence of [c]. *)
Fixpoint split_last (c : ascii) (s : string) : option (string * string) :=
  match s with
  | EmptyString => None
  | String a rest =>
      match split_last c rest with
      | Some (l, r) => Some (String a l, r)
      | None => if Ascii.eqb a c then Some (EmptyString, rest) else None
      end
  end.

(** No class of the pattern holds ["@"], so the local part ends at the
    first ["@"]; the last group holds no ["."], so it starts after the
    last ["."]. *)
Definition matches (s : string) : bool :=
  match split_first "@" s with
  | None => false
  | Some (local, rest) =>
      (1 <=? String.length local)%nat && all_chars local_char local &&
      match split_last "." rest with
      | None => false
      | Some (domain, tld) =>
          (1 <=? String.length domain)%nat && all_chars domain_char domain &&
          (2 <=? String.length tld)%nat && all_chars alpha tld
      end
  end.

End EmailPattern.

Module Orders.

Record row : Type := {
  id : option uuid;
  order_number : option string;
  customer_id : option uuid;
  customer_email : option string;
  customer_name : option string;
  status : option order_status;
  total_amount : option Z;
  currency : option string;
  shipping_address : option string;
  billing_address : option string;
  payment_method : option string;
  payment_reference : option string;
  notes : option string;
  processed_at : option timestamptz;
  confirmed_at : option timestamptz;
  shipped_at : option timestamptz;
  delivered_at : option timestamptz;
  cancelled_at : option timestamptz;
  cancellation_reason : option string;
  metadata : option string;
  created_at : option timestamptz;
  updated_at : option timestamptz
}.

Definition status_is (r : row) (s : order_status) : Sql.bool3 :=
  option_map (fun x => order_status_eqb x s) (status r).

(** [CONSTRAINT valid_status_transitions CHECK (...)]. *)
Definition valid_status_transitions (r : row) : Sql.bool3 :=
  Sql.or3 (status_is r pending)
  (Sql.or3 (Sql.and3 (status_is r processing) (Sql.is_not_null (processed_at r)))
  (Sql.or3 (Sql.and3 (status_is r confirmed) (Sql.is_not_null (confirmed_at r)))
  (Sql.or3 (Sql.and3 (status_is r shipped) (Sql.is_not_null (shipped_at r)))
  (Sql.or3 (Sql.and3 (status_is r delivered) (Sql.is_not_null (delivered_at r)))
  (Sql.or3 (Sql.and3 (status_is r cancelled) (Sql.is_not_null (cancelled_at r)))
           (status_is r failed)))))).

(** Column types of the tuple. *)
Definition column_types (r : row) : result unit :=
  varchar 50 "order_number" (order_number r) ;;
  varchar 255 "customer_email" (customer_email r) ;;
  varchar 255 "customer_name" (customer_name r) ;;
  numeric 12 "total_amount" (total_amount r) ;;
  varchar 3 "currency" (currency r) ;;
  varchar 50 "payment_method" (payment_method r) ;;
  varchar 255 "payment_reference" (payment_reference r).

(** [NOT NULL] columns, in column order. *)
Definition not_nulls (r : row) : result unit :=
  not_null "id" (id r) ;;
  not_null "order_number" (order_number r) ;;
  not_null "customer_id" (customer_id r) ;;
  not_null "customer_email" (customer_email r) ;;
  not_null "customer_name" (customer_name r) ;;
  not_null "status" (status r) ;;
  not_null "total_amount" (total_amount r) ;;
  not_null "currency" (currency r) ;;
  not_null "shipping_address" (shipping_address r) ;;
  not_null "billing_address" (billing_address r) ;;
  not_null "created_at" (created_at r) ;;
  not_null "updated_at" (updated_at r).

(** CHECK constraints, in the order of their names. *)
Definition checks (r : row) : result unit :=
  check "orders_total_amount_check" (Sql.ge_z (total_amount r) (Some 0)) ;;
  check "valid_currency" (Sql.eq_z (Sql.length (currency r)) (Some 3)) ;;
  check "valid_email" (option_map EmailPattern.matches (customer_email r)) ;;
  check "valid_status_transitions" (valid_status_transitions r).

(** What every tuple written to [app.orders] goes through. *)
Definition constraints (r : row) : result unit :=
  column_types r ;; not_nulls r ;; checks r.

(** [status_changed_at] of the view [app.order_summary]. *)
Definition status_changed_at (r : row) : option timestamptz :=
  if Sql.is_true (status_is r delivered) then delivered_at r
  else if Sql.is_true (status_is r shipped) then shipped_at r
  else if Sql.is_true (status_is r confirmed) then confirmed_at r
  else if Sql.is_true (status_is r processing) then processed_at r
  else if Sql.is_true (status_is r cancelled) then cancelled_at r
  else None.

End Orders.

(** ** V3: [app.order_items] *)

Module OrderItems.

Record row : Type := {
  id : option uuid;
  order_id : option uuid;
  item_number : option Z;
  product_id : option uuid;
  product_sku : option string;
  product_name : option string;
  product_description : option string;
  quantity : option Z;
  unit_price : option Z;
  discount_amount : option Z;
  tax_amount : option Z;
  total_price : option Z;
  currency : option string;
  weight_kg : option Z;
  dimensions : option string;
  metadata : option string;
  created_at : option timestamptz;
  updated_at : option timestamptz
}.

(** [CONSTRAINT valid_total_price CHECK
      (total_price = (quantity * unit_price - discount_amount + tax_amount))]. *)
Definition valid_total_price (r : row) : Sql.bool3 :=
  Sql.eq_z (total_price r)
    (Sql.add (Sql.sub (Sql.mul (quantity r) (unit_price r))
                      (discount_amount r))
             (tax_amount r)).

Definition column_types (r : row) : result unit :=
  integer "item_number" (item_number r) ;;
  varchar 100 "product_sku" (product_sku r) ;;
  varchar 255 "product_name" (product_name r) ;;
  integer "quantity" (quantity r) ;;
  numeric 12 "unit_price" (unit_price r) ;;
  numeric 12 "discount_amount" (discount_amount r) ;;
  numeric 12 "tax_amount" (tax_amount r) ;;
  numeric 12 "total_price" (total_price r) ;;
  varchar 3 "currency" (currency r) ;;
  numeric 10 "weight_kg" (weight_kg r).

(** [NOT NULL] columns, in column order. *)
Definition not_nulls (r : row) : result unit :=
  not_null "id" (id r) ;;
  not_null "order_id" (order_id r) ;;
  not_null "item_number" (item_number r) ;;
  not_null "product_id" (product_id r) ;;
  not_null "product_sku" (product_sku r) ;;
  not_null "product_name" (product_name r) ;;
  not_null "quantity" (quantity r) ;;
  not_null "unit_price" (unit_price r) ;;
  not_null "total_price" (total_price r) ;;
  not_null "currency" (currency r) ;;
  not_null "created_at" (created_at r) ;;
  not_null "updated_at" (updated_at r).

(** CHECK constraints, in the order of their names. *)
Definition checks (r : row) : result unit :=
  check "order_items_discount_amount_check"
        (Sql.ge_z (discount_amount r) (Some 0)) ;;
  check "order_items_quantity_check" (Sql.gt_z (quantity r) (Some 0)) ;;
  check "order_items_tax_amount_check" (Sql.ge_z (tax_amount r) (Some 0)) ;;
  check "order_items_total_price_check" (Sql.ge_z (total_price r) (Some 0)) ;;
  check "order_items_unit_price_check" (Sql.ge_z (unit_price r) (Some 0)) ;;
  check "order_items_weight_kg_check" (Sql.ge_z (weight_kg r) (Some 0)) ;;
  check "valid_currency" (Sql.eq_z (Sql.length (currency r)) (Some 3)) ;;
  check "valid_total_price" (valid_total_price r).

(** What every tuple written to [app.order_items] goes through. *)
Definition constraints (r : row) : result unit :=
  column_types r ;; not_nulls r ;; checks r.

End OrderItems.

(** ** The database and the session *)

Record database : Type := {
  orders : list Orders.row;
  order_items : list OrderItems.row
}.

Record date : Type := { year : N; month : N; day : N }.

(** [plpgsql.variable_conflict]: what a name means that is both a
    PL/pgSQL variable and a column of the query. *)
Inductive plpgsql_variable_conflict : Type :=
| error
| use_variable
| use_column.

(** What a statement reads from its session: the transaction's clock, the
    value the next [uuid_generate_v4()] returns, the successive values of
    [FLOOR(RANDOM() * 999999)], each in [0, 999998], and the PL/pgSQL
    configuration. *)
Record session : Type := {
  CURRENT_TIMESTAMP : timestamptz;
  CURRENT_DATE : date;
  uuid_generate_v4 : uuid;
  random_floor : list N;
  variable_conflict : plpgsql_variable_conflict
}.

(** A unique index: no two non-null keys are equal. *)
Fixpoint distinct {K} (eqb : K -> K -> bool) (keys : list (option K)) : bool :=
  match keys with
  | [] => true
  | None :: rest => distinct eqb rest
  | Some k :: rest =>
      negb (existsb (fun k' => match k' with
                               | Some x => eqb k x
                               | None => false
                               end) rest)
      && distinct eqb rest
  end.

Definition unique {K} (constraint : string) (eqb : K -> K -> bool)
  (keys : list (option K)) : result unit :=
  if distinct eqb keys then Ok tt else Raise (unique_violation constraint).

(** ** V1: trigger and helper functions *)

(** Tables with an [updated_at] column. *)
Class Timestamped (R : Type) : Type :=
  set_updated_at : R -> option timestamptz -> R.

#[export] Instance orders_timestamped : Timestamped Orders.row :=
  fun r t =>
    {| Orders.id := Orders.id r;
       Orders.order_number := Orders.order_number r;
       Orders.customer_id := Orders.customer_id r;
       Orders.customer_email := Orders.customer_email r;
       Orders.customer_name := Orders.customer_name r;
       Orders.status := Orders.status r;
       Orders.total_amount := Orders.total_amount r;
       Orders.currency := Orders.currency r;
       Orders.shipping_address := Orders.shipping_address r;
       Orders.billing_address := Orders.billing_address r;
       Orders.payment_method := Orders.payment_method r;
       Orders.payment_reference := Orders.payment_reference r;
       Orders.notes := Orders.notes r;
       Orders.processed_at := Orders.processed_at r;
       Orders.confirmed_at := Orders.confirmed_at r;
       Orders.shipped_at := Orders.shipped_at r;
       Orders.delivered_at := Orders.delivered_at r;
       Orders.cancelled_at := Orders.cancelled_at r;
       Orders.cancellation_reason := Orders.cancellation_reason r;
       Orders.metadata := Orders.metadata r;
       Orders.created_at := Orders.created_at r;
       Orders.updated_at := t |}.

#[export] Instance order_items_timestamped : Timestamped OrderItems.row :=
  fun r t =>
    {| OrderItems.id := OrderItems.id r;
       OrderItems.order_id := OrderItems.order_id r;
       OrderItems.item_number := OrderItems.item_number r;
       OrderItems.product_id := OrderItems.product_id r;
       OrderItems.product_sku := OrderItems.product_sku r;
       OrderItems.product_name := OrderItems.product_name r;
       OrderItems.product_description := OrderItems.product_description r;
       OrderItems.quantity := OrderItems.quantity r;
       OrderItems.unit_price := OrderItems.unit_price r;
       OrderItems.discount_amount := OrderItems.discount_amount r;
       OrderItems.tax_amount := OrderItems.tax_amount r;
       OrderItems.total_price := OrderItems.total_price r;
       OrderItems.currency := OrderItems.currency r;
       OrderItems.weight_kg := OrderItems.weight_kg r;
       OrderItems.dimensions := OrderItems.dimensions r;
       OrderItems.metadata := OrderItems.metadata r;
       OrderItems.created_at := OrderItems.created_at r;
       OrderItems.updated_at := t |}.

(** [app.update_updated_at_column()]:
    [NEW.updated_at = CURRENT_TIMESTAMP; RETURN NEW;]. *)
Definition update_updated_at_column {R} `{Timestamped R}
  (ses : session) (NEW : R) : R :=
  set_updated_at NEW (Some (CURRENT_TIMESTAMP ses)).

(** Text functions used by [generate_order_number]. *)
Module Text.

(** Decimal text of a non-negative whole number. *)
Definition of_number (n : N) : string :=
  DecimalString.NilZero.string_of_uint (N.to_uint n).

(** The first [n] characters of [fill] repeated. *)
Fixpoint padding (n : nat) (fill cur : string) : string :=
  match n with
  | O => EmptyString
  | S n' =>
      match cur with
      | String c cur' => String c (padding n' fill cur')
      | EmptyString =>
          match fill with
          | String c fill' => String c (padding n' fill fill')
          | EmptyString => EmptyString
          end
      end
  end.

(** [LPAD(s, n, fill)]: [s] filled on the left up to [n] characters, or cut
    to its first [n] characters when longer. *)
Definition lpad (s : string) (n : nat) (fill : string) : string :=
  if (n <=? String.length s)%nat then substring 0 n s
  else append (padding (n - String.length s) fill fill) s.

(** A number in at least [width] digits, as [TO_CHAR] prints [YYYY], [MM]
    and [DD]. *)
Definition digits (width : nat) (n : N) : string :=
  let s := of_number n in
  append (padding (width - String.length s) "0" "0") s.

(** [TO_CHAR(d, 'YYYYMMDD')]. *)
Definition to_char_YYYYMMDD (d : date) : string :=
  append (digits 4 (year d)) (append (digits 2 (month d)) (digits 2 (day d))).

Definition eq (a b : option string) : Sql.bool3 := Sql.lift2 String.eqb a b.

End Text.

(** The candidate of one pass of the loop:
    ['ORD-' || TO_CHAR(CURRENT_DATE, 'YYYYMMDD') || '-' ||
     LPAD(FLOOR(RANDOM() * 999999)::TEXT, 6, '0')]. *)
Definition order_number_candidate (today : date) (random : N) : string :=
  append "ORD-"
    (append (Text.to_char_YYYYMMDD today)
       (append "-" (Text.lpad (Text.of_number random) 6 "0"))).

(** [SELECT EXISTS(SELECT 1 FROM app.orders
                   WHERE order_number = order_number) INTO exists].
    The function declares a variable [order_number], and [app.orders] has
    a column [order_number]: both sides of the comparison are the same
    name, resolved by [plpgsql.variable_conflict]. *)
Definition order_number_exists (conflict : plpgsql_variable_conflict)
  (rows : list Orders.row) (order_number : option string) : result bool :=
  match conflict with
  | error => Raise (ambiguous_column "order_number")
  | use_variable =>
      Ok (existsb (fun _ => Sql.is_true (Text.eq order_number order_number))
                  rows)
  | use_column =>
      Ok (existsb (fun r => Sql.is_true (Text.eq (Orders.order_number r)
                                                 (Orders.order_number r)))
                  rows)
  end.

(** [app.generate_order_number()].  The [LOOP] takes one value of
    [random] per pass; [None] when the loop has not left after all of
    them. *)
Fixpoint generate_order_number (conflict : plpgsql_variable_conflict)
  (today : date) (rows : list Orders.row) (random : list N)
  : option (result string) :=
  match random with
  | [] => None
  | x :: random' =>
      let order_number := order_number_candidate today x in
      match order_number_exists conflict rows (Some order_number) with
      | Raise e => Some (Raise e)
      | Ok true => generate_order_number conflict today rows random'
      | Ok false => Some (Ok order_number)
      end
  end.

(** ** V3: the order total *)

(** A column of [NEW] or [OLD]; NULL when the record is not assigned. *)
Definition field {R A} (f : R -> option A) (r : option R) : option A :=
  match r with
  | Some x => f x
  | None => None
  end.

(** The rows [WHERE order_id = p_order_id]. *)
Definition items_of (items : list OrderItems.row) (p_order_id : option uuid)
  : list OrderItems.row :=
  filter (fun r => Sql.is_true (Sql.eq_z (OrderItems.order_id r) p_order_id))
         items.

(** [app.calculate_order_total(p_order_id)]:
    [SELECT COALESCE(SUM(total_price), 0) INTO v_total
       FROM app.order_items WHERE order_id = p_order_id; RETURN v_total;]
    with [v_total NUMERIC(12, 2)]. *)
Definition calculate_order_total (items : list OrderItems.row)
  (p_order_id : option uuid) : result (option Z) :=
  let v_total :=
    Sql.coalesce
      (Sql.sum (map OrderItems.total_price (items_of items p_order_id)))
      (Some 0) in
  numeric 12 "v_total" v_total ;;
  Ok v_total.

Definition set_total_amount (r : Orders.row) (v : option Z) : Orders.row :=
  {| Orders.id := Orders.id r;
     Orders.order_number := Orders.order_number r;
     Orders.customer_id := Orders.customer_id r;
     Orders.customer_email := Orders.customer_email r;
     Orders.customer_name := Orders.customer_name r;
     Orders.status := Orders.status r;
     Orders.total_amount := v;
     Orders.currency := Orders.currency r;
     Orders.shipping_address := Orders.shipping_address r;
     Orders.billing_address := Orders.billing_address r;
     Orders.payment_method := Orders.payment_method r;
     Orders.payment_reference := Orders.payment_reference r;
     Orders.notes := Orders.notes r;
     Orders.processed_at := Orders.processed_at r;
     Orders.confirmed_at := Orders.confirmed_at r;
     Orders.shipped_at := Orders.shipped_at r;
     Orders.delivered_at := Orders.delivered_at r;
     Orders.cancelled_at := Orders.cancelled_at r;
     Orders.cancellation_reason := Orders.cancellation_reason r;
     Orders.metadata := Orders.metadata r;
     Orders.created_at := Orders.created_at r;
     Orders.updated_at := Orders.updated_at r |}.

(** [UPDATE app.orders SET total_amount = total,
                           updated_at = CURRENT_TIMESTAMP
     WHERE id = target].
    [total] is evaluated for a row that matches.  The new tuple passes
    through the BEFORE UPDATE trigger [update_orders_updated_at] and the
    table's constraints.  The statement assigns no column of a unique
    index. *)
Fixpoint update_orders_total (ses : session) (target : option uuid)
  (total : result (option Z)) (rows : list Orders.row)
  : result (list Orders.row) :=
  match rows with
  | [] => Ok []
  | r :: rest =>
      let? r' :=
        if Sql.is_true (Sql.eq_z (Orders.id r) target) then
          let? v := total in
          let NEW := set_updated_at (set_total_amount r v)
                                    (Some (CURRENT_TIMESTAMP ses)) in
          let NEW := update_updated_at_column ses NEW in
          Orders.constraints NEW ;;
          Ok NEW
        else Ok r in
      let? rest' := update_orders_total ses target total rest in
      Ok (r' :: rest')
  end.

(** [app.update_order_total()], the function of the triggers
    [update_order_total_on_insert], [_on_update] and [_on_delete]. *)
Definition update_order_total (ses : session)
  (NEW OLD : option OrderItems.row) (db : database) : result database :=
  let target :=
    Sql.coalesce (field OrderItems.order_id NEW)
                 (field OrderItems.order_id OLD) in
  let? orders' :=
    update_orders_total ses target
      (calculate_order_total (order_items db) target) (orders db) in
  Ok {| orders := orders'; order_items := order_items db |}.

(** AFTER ... FOR EACH ROW: once the statement has written its rows, the
    trigger function runs for each of them. *)
Fixpoint after_each_row (ses : session)
  (events : list (option OrderItems.row * option OrderItems.row))
  (db : database) : result database :=
  match events with
  | [] => Ok db
  | (NEW, OLD) :: rest =>
      let? db' := update_order_total ses NEW OLD db in
      after_each_row ses rest db'
  end.

(** ** Statements on [app.order_items] *)

Module OrderItemsValues.

Record t : Type := {
  id : insert_value uuid;
  order_id : insert_value uuid;
  item_number : insert_value Z;
  product_id : insert_value uuid;
  product_sku : insert_value string;
  product_name : insert_value string;
  product_description : insert_value string;
  quantity : insert_value Z;
  unit_price : insert_value Z;
  discount_amount : insert_value Z;
  tax_amount : insert_value Z;
  total_price : insert_value Z;
  currency : insert_value string;
  weight_kg : insert_value Z;
  dimensions : insert_value string;
  metadata : insert_value string;
  created_at : insert_value timestamptz;
  updated_at : insert_value timestamptz
}.

(** The tuple of an [INSERT], with the column defaults of the table. *)
Definition tuple (ses : session) (v : t) : OrderItems.row :=
  {| OrderItems.id := or_default (id v) (Some (uuid_generate_v4 ses));
     OrderItems.order_id := or_default (order_id v) None;
     OrderItems.item_number := or_default (item_number v) None;
     OrderItems.product_id := or_default (product_id v) None;
     OrderItems.product_sku := or_default (product_sku v) None;
     OrderItems.product_name := or_default (product_name v) None;
     OrderItems.product_description := or_default (product_description v) None;
     OrderItems.quantity := or_default (quantity v) None;
     OrderItems.unit_price := or_default (unit_price v) None;
     OrderItems.discount_amount := or_default (discount_amount v) (Some 0);
     OrderItems.tax_amount := or_default (tax_amount v) (Some 0);
     OrderItems.total_price := or_default (total_price v) None;
     OrderItems.currency := or_default (currency v) (Some "USD"%string);
     OrderItems.weight_kg := or_default (weight_kg v) None;
     OrderItems.dimensions := or_default (dimensions v) None;
     OrderItems.metadata := or_default (metadata v) (Some "{}"%string);
     OrderItems.created_at :=
       or_default (created_at v) (Some (CURRENT_TIMESTAMP ses));
     OrderItems.updated_at :=
       or_default (updated_at v) (Some (CURRENT_TIMESTAMP ses)) |}.

End OrderItemsValues.

Definition pair_eqb (a b : Z * Z) : bool :=
  (fst a =? fst b) && (snd a =? snd b).

Definition order_item_number (r : OrderItems.row) : option (Z * Z) :=
  Sql.lift2 pair (OrderItems.order_id r) (OrderItems.item_number r).

(** [PRIMARY KEY (id)] and [UNIQUE (order_id, item_number)]. *)
Definition order_items_unique (items : list OrderItems.row) : result unit :=
  unique "order_items_pkey" Z.eqb (map OrderItems.id items) ;;
  unique "unique_order_item_number" pair_eqb (map order_item_number items).

(** [order_id ... REFERENCES app.orders(id)]. *)
Definition references_orders (rows : list Orders.row) (r : OrderItems.row)
  : result unit :=
  match OrderItems.order_id r with
  | None => Ok tt
  | Some _ =>
      if existsb (fun o => Sql.is_true (Sql.eq_z (Orders.id o)
                                                 (OrderItems.order_id r)))
                 rows
      then Ok tt
      else Raise (foreign_key_violation "order_items_order_id_fkey")
  end.

(** [INSERT INTO app.order_items (...) VALUES (...)]. *)
Definition insert_order_items (ses : session) (v : OrderItemsValues.t)
  (db : database) : result database :=
  let NEW := OrderItemsValues.tuple ses v in
  OrderItems.constraints NEW ;;
  let items' := order_items db ++ [NEW] in
  order_items_unique items' ;;
  references_orders (orders db) NEW ;;
  after_each_row ses [(Some NEW, None)]
    {| orders := orders db; order_items := items' |}.

Definition has_id (target : option uuid) (r : OrderItems.row) : bool :=
  Sql.is_true (Sql.eq_z (OrderItems.id r) target).

(** The rows of [UPDATE app.order_items SET ... WHERE id = target]: a row
    that matches is replaced by [set] of it, passed through the BEFORE
    UPDATE trigger [update_order_items_updated_at] and the table's
    constraints.  Returns the new rows and, for each row written, [NEW]
    and [OLD]. *)
Fixpoint update_order_items_rows (ses : session) (target : option uuid)
  (set : OrderItems.row -> OrderItems.row) (rows : list OrderItems.row)
  : result (list OrderItems.row * list (OrderItems.row * OrderItems.row)) :=
  match rows with
  | [] => Ok ([], [])
  | OLD :: rest =>
      if has_id target OLD then
        let NEW := update_updated_at_column ses (set OLD) in
        OrderItems.constraints NEW ;;
        let? out := update_order_items_rows ses target set rest in
        Ok (NEW :: fst out, (NEW, OLD) :: snd out)
      else
        let? out := update_order_items_rows ses target set rest in
        Ok (OLD :: fst out, snd out)
  end.

Definition option_z_eqb (a b : option Z) : bool :=
  match a, b with
  | Some x, Some y => x =? y
  | None, None => true
  | _, _ => false
  end.

(** The foreign key is looked up again when [order_id] was changed. *)
Fixpoint references_orders_changed (rows : list Orders.row)
  (written : list (OrderItems.row * OrderItems.row)) : result unit :=
  match written with
  | [] => Ok tt
  | (NEW, OLD) :: rest =>
      (if option_z_eqb (OrderItems.order_id NEW) (OrderItems.order_id OLD)
       then Ok tt else references_orders rows NEW) ;;
      references_orders_changed rows rest
  end.

(** [UPDATE app.order_items SET ... WHERE id = target]. *)
Definition update_order_items (ses : session) (target : option uuid)
  (set : OrderItems.row -> OrderItems.row) (db : database)
  : result database :=
  let? out := update_order_items_rows ses target set (order_items db) in
  order_items_unique (fst out) ;;
  references_orders_changed (orders db) (snd out) ;;
  after_each_row ses
    (map (fun w => (Some (fst w), Some (snd w))) (snd out))
    {| orders := orders db; order_items := fst out |}.

(** [DELETE FROM app.order_items WHERE id = target]. *)
Definition delete_order_items (ses : session) (target : option uuid)
  (db : database) : result database :=
  let deleted := filter (has_id target) (order_items db) in
  let kept := filter (fun r => negb (has_id target r)) (order_items db) in
  after_each_row ses
    (map (fun OLD => (None, Some OLD)) deleted)
    {| orders := orders db; order_items := kept |}.

(** ** Statements on [app.orders] *)

Module OrdersValues.

Record t : Type := {
  id : insert_value uuid;
  order_number : insert_value string;
  customer_id : insert_value uuid;
  customer_email : insert_value string;
  customer_name : insert_value string;
  status : insert_value order_status;
  total_amount : insert_value Z;
  currency : insert_value string;
  shipping_address : insert_value string;
  billing_address : insert_value string;
  payment_method : insert_value string;
  payment_reference : insert_value string;
  notes : insert_value string;
  processed_at : insert_value timestamptz;
  confirmed_at : insert_value timestamptz;
  shipped_at : insert_value timestamptz;
  delivered_at : insert_value timestamptz;
  cancelled_at : insert_value timestamptz;
  cancellation_reason : insert_value string;
  metadata : insert_value string;
  created_at : insert_value timestamptz;
  updated_at : insert_value timestamptz
}.

(** The tuple of an [INSERT], given the value of [order_number]. *)
Definition tuple (ses : session) (v : t) (number : option string)
  : Orders.row :=
  {| Orders.id := or_default (id v) (Some (uuid_generate_v4 ses));
     Orders.order_number := number;
     Orders.customer_id := or_default (customer_id v) None;
     Orders.customer_email := or_default (customer_email v) None;
     Orders.customer_name := or_default (customer_name v) None;
     Orders.status := or_default (status v) (Some pending);
     Orders.total_amount := or_default (total_amount v) None;
     Orders.currency := or_default (currency v) (Some "USD"%string);
     Orders.shipping_address := or_default (shipping_address v) None;
     Orders.billing_address := or_default (billing_address v) None;
     Orders.payment_method := or_default (payment_method v) None;
     Orders.payment_reference := or_default (payment_reference v) None;
     Orders.notes := or_default (notes v) None;
     Orders.processed_at := or_default (processed_at v) None;
     Orders.confirmed_at := or_default (confirmed_at v) None;
     Orders.shipped_at := or_default (shipped_at v) None;
     Orders.delivered_at := or_default (delivered_at v) None;
     Orders.cancelled_at := or_default (cancelled_at v) None;
     Orders.cancellation_reason := or_default (cancellation_reason v) None;
     Orders.metadata := or_default (metadata v) (Some "{}"%string);
     Orders.created_at :=
       or_default (created_at v) (Some (CURRENT_TIMESTAMP ses));
     Orders.updated_at :=
       or_default (updated_at v) (Some (CURRENT_TIMESTAMP ses)) |}.

End OrdersValues.

(** [PRIMARY KEY (id)] and [order_number ... UNIQUE]. *)
Definition orders_unique (rows : list Orders.row) : result unit :=
  unique "orders_pkey" Z.eqb (map Orders.id rows) ;;
  unique "orders_order_number_key" String.eqb (map Orders.order_number rows).

(** The value of [order_number]:
    [DEFAULT app.generate_order_number()] when the column is left out. *)
Definition order_number_value (ses : session) (v : OrdersValues.t)
  (db : database) : option (result (option string)) :=
  match OrdersValues.order_number v with
  | VALUE x => Some (Ok x)
  | DEFAULT =>
      match generate_order_number (variable_conflict ses) (CURRENT_DATE ses)
                                  (orders db) (random_floor ses) with
      | None => None
      | Some r => Some (let? s := r in Ok (Some s))
      end
  end.

(** The values written in the statement, [order_number] left NULL when
    its default applies. *)
Definition given_values (ses : session) (v : OrdersValues.t) : Orders.row :=
  OrdersValues.tuple ses v (or_default (OrdersValues.order_number v) None).

(** [INSERT INTO app.orders (...) VALUES (...)]; [None] when the default
    of [order_number] does not return.  The values of the statement are
    cast to their column types first; the default of [order_number] is
    evaluated when the row is formed, before the constraints of the table
    are checked. *)
Definition insert_orders (ses : session) (v : OrdersValues.t) (db : database)
  : option (result database) :=
  match Orders.column_types (given_values ses v) with
  | Raise e => Some (Raise e)
  | Ok _ =>
      match order_number_value ses v db with
      | None => None
      | Some number =>
          Some (let? n := number in
                let NEW := OrdersValues.tuple ses v n in
                Orders.constraints NEW ;;
                let rows' := orders db ++ [NEW] in
                orders_unique rows' ;;
                Ok {| orders := rows'; order_items := order_items db |})
      end
  end.

(** ** Transactions over [app.order_items] *)

Inductive statement : Type :=
| INSERT_INTO_order_items (v : OrderItemsValues.t)
| UPDATE_order_items (target : option uuid)
                     (set : OrderItems.row -> OrderItems.row)
| DELETE_FROM_order_items (target : option uuid).

Definition execute (ses : session) (s : statement) (db : database)
  : result database :=
  match s with
  | INSERT_INTO_order_items v => insert_order_items ses v db
  | UPDATE_order_items target set => update_order_items ses target set db
  | DELETE_FROM_order_items target => delete_order_items ses target db
  end.

(** The statements of a transaction, each with the session as it sees it,
    run on the state left by the one before; the first error ends the
    run. *)
Fixpoint execute_all (ss : list (session * statement)) (db : database)
  : result database :=
  match ss with
  | [] => Ok db
  | (ses, s) :: rest =>
      let? db' := execute ses s db in
      execute_all rest db'
  end.

Inductive outcome : Type :=
| COMMIT
| ROLLBACK (e : sql_error).

(** [BEGIN; ...; COMMIT;]: the state the statements leave when none of
    them raises, the state before the transaction when one does.  No
    function of the migrations has an [EXCEPTION] block. *)
Definition transaction (ss : list (session * statement)) (db : database)
  : database * outcome :=
  match execute_all ss db with
  | Ok db' => (db', COMMIT)
  | Raise e => (db, ROLLBACK e)
  end.

(** ** Specification vocabulary *)

(** The sum of [total_price] over rows. *)
Definition total_price_sum (items : list OrderItems.row) : Z :=
  fold_right (fun r acc => match OrderItems.total_price r with
                           | Some x => x + acc
                           | None => acc
                           end) 0 items.

(** The sum of [total_price] over the current items of an order. *)
Definition items_total (db : database) (order : option uuid) : Z :=
  total_price_sum (items_of (order_items db) order).

(** The order's [total_amount] is the sum over its items. *)
Definition total_matches (db : database) (o : Orders.row) : Prop :=
  Orders.total_amount o = Some (items_total db (Orders.id o)).

(** The rows of [app.orders] that a write [WHERE id = target] reaches. *)
Definition targets (target : option uuid) (o : Orders.row) : bool :=
  Sql.is_true (Sql.eq_z (Orders.id o) target).

(** [o'] is [o] in every column but [total_amount] and [updated_at]. *)
Definition same_but_total_and_updated_at (o o' : Orders.row) : Prop :=
  o' = set_updated_at (set_total_amount o (Orders.total_amount o'))
                      (Orders.updated_at o').

(** Every stored order satisfies the constraints of its table. *)
Definition orders_valid (db : database) : Prop :=
  Forall (fun o => Orders.constraints o = Ok tt) (orders db).

(** The equation of [valid_total_price] on a row whose discount and tax
    are not NULL. *)
Definition price_equation (r : OrderItems.row) : Prop :=
  forall d t,
    OrderItems.discount_amount r = Some d ->
    OrderItems.tax_amount r = Some t ->
    exists q p,
      OrderItems.quantity r = Some q /\
      OrderItems.unit_price r = Some p /\
      OrderItems.total_price r = Some (q * p - d + t).

(** The tuple that [update_order_total] writes over [o]. *)
Definition written (ses : session) (v : option Z) (o : Orders.row)
  : Orders.row :=
  update_updated_at_column ses
    (set_updated_at (set_total_amount o v) (Some (CURRENT_TIMESTAMP ses))).

(** The target of the trigger function,
    [COALESCE(NEW.order_id, OLD.order_id)]. *)
Definition trigger_target (NEW OLD : option OrderItems.row) : option uuid :=
  Sql.coalesce (field OrderItems.order_id NEW) (field OrderItems.order_id OLD).

(** [NEW] and [OLD] of a row written by a statement. *)
Definition event : Type := (option OrderItems.row * option OrderItems.row)%type.

(** Some event of the statement has the order [o] as its target. *)
Definition reached (events : list event) (o : Orders.row) : bool :=
  existsb (fun ev => targets (trigger_target (fst ev) (snd ev)) o) events.

(** The rows for which the AFTER ROW triggers of a statement fire, with
    their [NEW] and [OLD]. *)
Definition events_of (ses : session) (s : statement) (db : database)
  : list event :=
  match s with
  | INSERT_INTO_order_items v =>
      [(Some (OrderItemsValues.tuple ses v), None)]
  | UPDATE_order_items target set =>
      map (fun OLD => (Some (update_updated_at_column ses (set OLD)), Some OLD))
          (filter (has_id target) (order_items db))
  | DELETE_FROM_order_items target =>
      map (fun OLD => (None, Some OLD))
          (filter (has_id target) (order_items db))
  end.

(** Every order's [total_amount] is the sum over its items. *)
Definition totals_consistent (db : database) : Prop :=
  Forall (total_matches db) (orders db).

(** The statement leaves [order_id] as it is in the rows it writes. *)
Definition keeps_order_id (s : statement) (db : database) : Prop :=
  match s with
  | UPDATE_order_items target set =>
      forall r, In r (order_items db) -> has_id target r = true ->
                OrderItems.order_id (set r) = OrderItems.order_id r
  | _ => True
  end.

(** ** Sample data *)

Module Sample.

Definition ses : session :=
  {| CURRENT_TIMESTAMP := 1000;
     CURRENT_DATE := {| year := 2026; month := 11; day := 2 |};
     uuid_generate_v4 := 77;
     random_floor := [123%N];
     variable_conflict := error |}.

(** A later moment of the same configuration. *)
Definition later : session :=
  {| CURRENT_TIMESTAMP := 2000;
     CURRENT_DATE := {| year := 2026; month := 11; day := 2 |};
     uuid_generate_v4 := 78;
     random_floor := [456%N];
     variable_conflict := error |}.

Definition order_values_at (i : uuid) (number : string)
  (st : insert_value order_status) (shipped_at : insert_value timestamptz)
  (total : Z) : OrdersValues.t :=
  {| OrdersValues.id := VALUE (Some i);
     OrdersValues.order_number := VALUE (Some number);
     OrdersValues.customer_id := VALUE (Some 9);
     OrdersValues.customer_email := VALUE (Some "ann@example.com"%string);
     OrdersValues.customer_name := VALUE (Some "Ann"%string);
     OrdersValues.status := st;
     OrdersValues.total_amount := VALUE (Some total);
     OrdersValues.currency := DEFAULT;
     OrdersValues.shipping_address := VALUE (Some "{}"%string);
     OrdersValues.billing_address := VALUE (Some "{}"%string);
     OrdersValues.payment_method := DEFAULT;
     OrdersValues.payment_reference := DEFAULT;
     OrdersValues.notes := DEFAULT;
     OrdersValues.processed_at := DEFAULT;
     OrdersValues.confirmed_at := DEFAULT;
     OrdersValues.shipped_at := shipped_at;
     OrdersValues.delivered_at := DEFAULT;
     OrdersValues.cancelled_at := DEFAULT;
     OrdersValues.cancellation_reason := DEFAULT;
     OrdersValues.metadata := DEFAULT;
     OrdersValues.created_at := DEFAULT;
     OrdersValues.updated_at := DEFAULT |}.

Definition order_values (i : uuid) (number : string)
  (st : insert_value order_status) (total : Z) : OrdersValues.t :=
  order_values_at i number st DEFAULT total.

Definition item_values (i order : uuid) (number : Z)
  (qty price : insert_value Z) (discount tax : insert_value Z) (total : Z)
  : OrderItemsValues.t :=
  {| OrderItemsValues.id := VALUE (Some i);
     OrderItemsValues.order_id := VALUE (Some order);
     OrderItemsValues.item_number := VALUE (Some number);
     OrderItemsValues.product_id := VALUE (Some 5);
     OrderItemsValues.product_sku := VALUE (Some "SKU-1"%string);
     OrderItemsValues.product_name := VALUE (Some "Widget"%string);
     OrderItemsValues.product_description := DEFAULT;
     OrderItemsValues.quantity := qty;
     OrderItemsValues.unit_price := price;
     OrderItemsValues.discount_amount := discount;
     OrderItemsValues.tax_amount := tax;
     OrderItemsValues.total_price := VALUE (Some total);
     OrderItemsValues.currency := DEFAULT;
     OrderItemsValues.weight_kg := DEFAULT;
     OrderItemsValues.dimensions := DEFAULT;
     OrderItemsValues.metadata := DEFAULT;
     OrderItemsValues.created_at := DEFAULT;
     OrderItemsValues.updated_at := DEFAULT |}.

Definition order (i : uuid) (number : string) (st : order_status)
  (total : Z) : Orders.row :=
  OrdersValues.tuple ses (order_values i number (VALUE (Some st)) total)
                     (Some number).

(** An order shipped at [shipped_at]. *)
Definition shipped_order (i : uuid) (number : string)
  (shipped_at : timestamptz) : Orders.row :=
  OrdersValues.tuple ses
    (order_values_at i number (VALUE (Some shipped))
                     (VALUE (Some shipped_at)) 0)
    (Some number).

Definition item (i order : uuid) (number qty price total : Z)
  : OrderItems.row :=
  OrderItemsValues.tuple ses
    (item_values i order number (VALUE (Some qty)) (VALUE (Some price))
                 DEFAULT DEFAULT total).

(** [SET order_id = order]. *)
Definition set_order_id (order : option uuid) (r : OrderItems.row)
  : OrderItems.row :=
  {| OrderItems.id := OrderItems.id r;
     OrderItems.order_id := order;
     OrderItems.item_number := OrderItems.item_number r;
     OrderItems.product_id := OrderItems.product_id r;
     OrderItems.product_sku := OrderItems.product_sku r;
     OrderItems.product_name := OrderItems.product_name r;
     OrderItems.product_description := OrderItems.product_description r;
     OrderItems.quantity := OrderItems.quantity r;
     OrderItems.unit_price := OrderItems.unit_price r;
     OrderItems.discount_amount := OrderItems.discount_amount r;
     OrderItems.tax_amount := OrderItems.tax_amount r;
     OrderItems.total_price := OrderItems.total_price r;
     OrderItems.currency := OrderItems.currency r;
     OrderItems.weight_kg := OrderItems.weight_kg r;
     OrderItems.dimensions := OrderItems.dimensions r;
     OrderItems.metadata := OrderItems.metadata r;
     OrderItems.created_at := OrderItems.created_at r;
     OrderItems.updated_at := OrderItems.updated_at r |}.

(** Order 1 with one item of 20.00, order 2 without items. *)
Definition two_orders : database :=
  {| orders := [order 1 "ORD-20261102-000001" pending 2000;
                order 2 "ORD-20261102-000002" pending 0];
     order_items := [item 10 1 1 2 1000 2000] |}.

(** Order 1 alone, without items. *)
Definition one_order : database :=
  {| orders := [order 1 "ORD-20261102-000001" pending 0];
     order_items := [] |}.

End Sample.

(** ** Integrity of the stored rows *)

(** Every stored item satisfies the constraints of its table. *)
Definition items_valid (db : database) : Prop :=
  Forall (fun r => OrderItems.constraints r = Ok tt) (order_items db).

(** Every stored item references a stored order. *)
Definition references_valid (db : database) : Prop :=
  Forall (fun r => references_orders (orders db) r = Ok tt) (order_items db).

(** What [UPDATE app.order_items] stores for a row it matches. *)
Definition stamped (ses : session) (set : OrderItems.row -> OrderItems.row)
  (r : OrderItems.row) : OrderItems.row :=
  update_updated_at_column ses (set r).

(** ** V4: [get_order_count_by_status] *)

(** [app.get_order_count_by_status(p_status)]:
    [SELECT COUNT( * ) FROM app.orders WHERE status = p_status]. *)
Definition get_order_count_by_status (rows : list Orders.row)
  (p_status : option order_status) : Z :=
  Z.of_nat
    (List.length
       (filter (fun r => Sql.is_true
                           (Sql.lift2 order_status_eqb (Orders.status r)
                                      p_status)) rows)).

(** The seven values of [app.order_status]. *)
Definition all_statuses : list order_status :=
  [pending; processing; confirmed; shipped; delivered; cancelled; failed].

(** The characters other than [c]. *)
Definition is_not (c a : ascii) : bool := negb (Ascii.eqb a c).

(** ** [ORDER BY] *)

(** A row put before the first row that may follow it. *)
Fixpoint order_insert {A} (before : A -> A -> bool) (x : A) (l : list A)
  : list A :=
  match l with
  | [] => [x]
  | y :: l' => if before x y then x :: l else y :: order_insert before x l'
  end.

(** [ORDER BY]: the rows arranged so that each may come before the next;
    rows with equal keys, whose order the statement leaves open, keep
    the order of their source. *)
Definition order_by {A} (before : A -> A -> bool) (l : list A) : list A :=
  fold_right (order_insert before) [] l.

(** [a] may come before [b] under [DESC]: larger values first, NULL
    before every value. *)
Definition desc (a b : option Z) : bool :=
  match a, b with
  | None, _ => true
  | Some _, None => false
  | Some x, Some y => y <=? x
  end.

(** [a] may come before [b] under [ASC]: smaller values first, NULL
    after every value. *)
Definition asc (a b : option Z) : bool :=
  match a, b with
  | _, None => true
  | None, Some _ => false
  | Some x, Some y => x <=? y
  end.

(** ** V4: [get_orders_by_date_range] *)

Module OrdersByDateRange.

Record row : Type := {
  order_id : option uuid;
  order_number : option string;
  customer_email : option string;
  status : option order_status;
  total_amount : option Z;
  created_at : option timestamptz
}.

(** The select list [o.id, o.order_number, o.customer_email, o.status,
    o.total_amount, o.created_at]. *)
Definition select (o : Orders.row) : row :=
  {| order_id := Orders.id o;
     order_number := Orders.order_number o;
     customer_email := Orders.customer_email o;
     status := Orders.status o;
     total_amount := Orders.total_amount o;
     created_at := Orders.created_at o |}.

End OrdersByDateRange.

(** [x BETWEEN lo AND hi], that is [x >= lo AND x <= hi]. *)
Definition between (x lo hi : option Z) : Sql.bool3 :=
  Sql.and3 (Sql.ge_z x lo) (Sql.lift2 Z.leb x hi).

(** [app.get_orders_by_date_range(p_start_date, p_end_date)]:
    [RETURN QUERY SELECT ... FROM app.orders o
       WHERE o.created_at BETWEEN p_start_date AND p_end_date
       ORDER BY o.created_at DESC]. *)
Definition get_orders_by_date_range (rows : list Orders.row)
  (p_start_date p_end_date : option timestamptz)
  : list OrdersByDateRange.row :=
  map OrdersByDateRange.select
    (order_by (fun a b => desc (Orders.created_at a) (Orders.created_at b))
       (filter (fun o => Sql.is_true
                           (between (Orders.created_at o)
                                    p_start_date p_end_date)) rows)).

(** ** V3: the view [app.order_details] *)

Module OrderDetails.

Record row : Type := {
  order_id : option uuid;
  order_number : option string;
  customer_email : option string;
  customer_name : option string;
  status : option order_status;
  order_total : option Z;
  currency : option string;
  order_created_at : option timestamptz;
  item_id : option uuid;
  item_number : option Z;
  product_sku : option string;
  product_name : option string;
  quantity : option Z;
  unit_price : option Z;
  discount_amount : option Z;
  tax_amount : option Z;
  item_total : option Z;
  weight_kg : option Z
}.

(** The select list over an order [o] and the item [oi] joined to it, or
    no item. *)
Definition select (o : Orders.row) (oi : option OrderItems.row) : row :=
  {| order_id := Orders.id o;
     order_number := Orders.order_number o;
     customer_email := Orders.customer_email o;
     customer_name := Orders.customer_name o;
     status := Orders.status o;
     order_total := Orders.total_amount o;
     currency := Orders.currency o;
     order_created_at := Orders.created_at o;
     item_id := field OrderItems.id oi;
     item_number := field OrderItems.item_number oi;
     product_sku := field OrderItems.product_sku oi;
     product_name := field OrderItems.product_name oi;
     quantity := field OrderItems.quantity oi;
     unit_price := field OrderItems.unit_price oi;
     discount_amount := field OrderItems.discount_amount oi;
     tax_amount := field OrderItems.tax_amount oi;
     item_total := field OrderItems.total_price oi;
     weight_kg := field OrderItems.weight_kg oi |}.

(** The rows of [o] in [app.orders o LEFT JOIN app.order_items oi
    ON o.id = oi.order_id]: one for each item joined to [o], and one
    without item when there is none. *)
Definition joined (items : list OrderItems.row) (o : Orders.row)
  : list (Orders.row * option OrderItems.row) :=
  match filter (fun oi => Sql.is_true (Sql.eq_z (Orders.id o)
                                                (OrderItems.order_id oi)))
               items with
  | [] => [(o, None)]
  | matched => map (fun oi => (o, Some oi)) matched
  end.

(** [ORDER BY o.created_at DESC, oi.item_number]. *)
Definition before (a b : Orders.row * option OrderItems.row) : bool :=
  desc (Orders.created_at (fst a)) (Orders.created_at (fst b)) &&
  (negb (desc (Orders.created_at (fst b)) (Orders.created_at (fst a))) ||
   asc (field OrderItems.item_number (snd a))
       (field OrderItems.item_number (snd b))).

End OrderDetails.

(** The row of the view for a row of the join. *)
Definition detail (j : Orders.row * option OrderItems.row) : OrderDetails.row :=
  OrderDetails.select (fst j) (snd j).

(** The view [app.order_details]. *)
Definition order_details (db : database) : list OrderDetails.row :=
  map detail
    (order_by OrderDetails.before
       (flat_map (OrderDetails.joined (order_items db)) (orders db))).

(** [WHERE order_id = order] on the view. *)
Definition of_order (order : option uuid) (d : OrderDetails.row) : bool :=
  Sql.is_true (Sql.eq_z (OrderDetails.order_id d) order).

(** The rows of the view for the order [order]. *)
Definition details_of (db : database) (order : option uuid)
  : list OrderDetails.row :=
  filter (of_order order) (order_details db).

(** [a] may come before [b] in the view. *)
Definition details_ordered (a b : OrderDetails.row) : bool :=
  desc (OrderDetails.order_created_at a) (OrderDetails.order_created_at b) &&
  (negb (desc (OrderDetails.order_created_at b)
              (OrderDetails.order_created_at a)) ||
   asc (OrderDetails.item_number a) (OrderDetails.item_number b)).

(** The sum of the values of a column that are not NULL. *)
Definition sum_values (xs : list (option Z)) : Z :=
  fold_right (fun x acc => match x with Some v => v + acc | None => acc end)
             0 xs.

(** ** [DELETE FROM app.orders] *)

(** [order_id ... REFERENCES app.orders(id) ON DELETE CASCADE] for one
    deleted order [o]: [DELETE FROM app.order_items WHERE order_id = o.id],
    with the AFTER DELETE trigger of [app.order_items] for each row. *)
Definition cascade (ses : session) (o : Orders.row) (db : database)
  : result database :=
  let referencing r :=
    Sql.is_true (Sql.eq_z (OrderItems.order_id r) (Orders.id o)) in
  after_each_row ses
    (map (fun OLD => (None, Some OLD)) (filter referencing (order_items db)))
    {| orders := orders db;
       order_items := filter (fun r => negb (referencing r))
                             (order_items db) |}.

Fixpoint cascade_all (ses : session) (deleted : list Orders.row)
  (db : database) : result database :=
  match deleted with
  | [] => Ok db
  | o :: rest =>
      let? db' := cascade ses o db in
      cascade_all ses rest db'
  end.

(** [DELETE FROM app.orders WHERE id = target]: the rows are deleted,
    then the foreign key of [app.order_items] cascades for each of
    them. *)
Definition delete_orders (ses : session) (target : option uuid)
  (db : database) : result database :=
  cascade_all ses (filter (targets target) (orders db))
    {| orders := filter (fun o => negb (targets target o)) (orders db);
       order_items := order_items db |}.

(** [WHERE order_id = order] on [app.order_items]. *)
Definition belongs (order : option uuid) (r : OrderItems.row) : bool :=
  Sql.is_true (Sql.eq_z (OrderItems.order_id r) order).

(** ** More sample data *)

Module Samples.

(** The second item of order 1: one unit at 5.00. *)
Definition second_item : OrderItemsValues.t :=
  Sample.item_values 11 1 2 (VALUE (Some 1)) (VALUE (Some 500))
                     DEFAULT DEFAULT 500.



(** Order 1 with an item of 9999999999.99 and an item of 0.01. *)
Definition full_order : database :=
  {| orders := [Sample.order 1 "ORD-20261102-000001" pending 999999999999];
     order_items := [Sample.item 10 1 1 1 999999999999 999999999999;
                     Sample.item 11 1 2 1 1 1] |}.

End Samples.

(** * Properties *)

(** ** The error monad *)

Lemma bind_ok {A B} (r : result A) (k : A -> result B) (b : B) :
  bind r k = Ok b -> exists a, r = Ok a /\ k a = Ok b.
Proof.
  destruct r as [a | e]; simpl; intros H; [eauto | discriminate].
Qed.

Lemma bind_unit_ok {B} (r : result unit) (k : unit -> result B) (b : B) :
  bind r k = Ok b -> r = Ok tt /\ k tt = Ok b.
Proof.
  intros H. apply bind_ok in H. destruct H as ([] & H1 & H2). auto.
Qed.

Ltac ok_inv_all :=
  repeat match goal with
         | H : bind _ _ = Ok _ |- _ =>
             apply bind_unit_ok in H; destruct H as [? ?]
         end.

(** ** Sums of prices *)

Lemma sum_total_price (items : list OrderItems.row) :
  Sql.coalesce (Sql.sum (map OrderItems.total_price items)) (Some 0)
  = Some (total_price_sum items).
Proof.
  assert (H : match Sql.sum (map OrderItems.total_price items) with
              | Some s => s = total_price_sum items
              | None => total_price_sum items = 0
              end).
  { induction items as [| r items IH]; simpl; [reflexivity |].
    destruct (OrderItems.total_price r) as [x |]; [| exact IH].
    destruct (Sql.sum (map OrderItems.total_price items)); lia. }
  destruct (Sql.sum (map OrderItems.total_price items)); simpl; congruence.
Qed.

(** [calculate_order_total] returns the sum over the order's items, unless
    the sum does not fit [NUMERIC(12, 2)]. *)
Lemma calculate_order_total_ok items order v :
  calculate_order_total items order = Ok v ->
  v = Some (total_price_sum (items_of items order)).
Proof.
  unfold calculate_order_total. rewrite sum_total_price.
  intros H. apply bind_unit_ok in H. destruct H as [_ H]. congruence.
Qed.

Lemma calculate_order_total_fits items order :
  Z.abs (total_price_sum (items_of items order)) < 10 ^ 12 ->
  calculate_order_total items order
  = Ok (Some (total_price_sum (items_of items order))).
Proof.
  intros H. unfold calculate_order_total. rewrite sum_total_price.
  unfold numeric. apply Z.ltb_lt in H. rewrite H. reflexivity.
Qed.

(** ** The write of the trigger function *)

Lemma written_columns ses v o :
  Orders.total_amount (written ses v o) = v /\
  Orders.updated_at (written ses v o) = Some (CURRENT_TIMESTAMP ses) /\
  Orders.id (written ses v o) = Orders.id o /\
  same_but_total_and_updated_at o (written ses v o).
Proof. repeat split. Qed.

Lemma update_orders_total_rows ses target total rows rows' :
  update_orders_total ses target total rows = Ok rows' ->
  Forall2 (fun o o' =>
             if targets target o
             then exists v, total = Ok v /\ o' = written ses v o
             else o' = o) rows rows'.
Proof.
  revert rows'. induction rows as [| o rows IH]; simpl; intros rows' H.
  - injection H as <-. constructor.
  - apply bind_ok in H. destruct H as (o' & Ho & H).
    apply bind_ok in H. destruct H as (rest' & Hrest & H).
    injection H as <-. constructor; [| auto].
    unfold targets. destruct (Sql.is_true _).
    + apply bind_ok in Ho. destruct Ho as (v & Hv & Ho).
      apply bind_unit_ok in Ho. destruct Ho as [_ Ho].
      injection Ho as <-. exists v. auto.
    + congruence.
Qed.

Lemma update_order_total_inv ses NEW OLD db db' :
  update_order_total ses NEW OLD db = Ok db' ->
  order_items db' = order_items db /\
  Forall2 (fun o o' =>
             if targets (trigger_target NEW OLD) o
             then o' = written ses
                         (Some (items_total db (trigger_target NEW OLD))) o
             else o' = o) (orders db) (orders db').
Proof.
  unfold update_order_total. fold (trigger_target NEW OLD).
  intros H. apply bind_ok in H. destruct H as (rows' & Hrows & H).
  injection H as <-. simpl. split; [reflexivity |].
  apply update_orders_total_rows in Hrows.
  eapply Forall2_impl; [| exact Hrows]. intros o o'; simpl.
  destruct (targets _ o); [| auto].
  intros (v & Hv & ->). apply calculate_order_total_ok in Hv. subst v.
  reflexivity.
Qed.

Lemma targets_true target o :
  targets target o = true <->
  exists x, Orders.id o = Some x /\ target = Some x.
Proof.
  unfold targets, Sql.eq_z, Sql.lift2.
  destruct (Orders.id o) as [x |], target as [y |]; simpl;
    try (split; [discriminate | intros (z & H1 & H2); discriminate]).
  destruct (Z.eqb_spec x y).
  - subst. split; eauto.
  - split; [discriminate |]. intros (z & H1 & H2). congruence.
Qed.

(** Under the primary key, [WHERE id = target] reaches at most one row. *)
Lemma primary_key_single target rows :
  distinct Z.eqb (map Orders.id rows) = true ->
  (List.length (filter (targets target) rows) <= 1)%nat.
Proof.
  induction rows as [| o rows IH]; simpl; [lia |].
  destruct (targets target o) eqn:Ht.
  - apply targets_true in Ht. destruct Ht as (x & Hx & ->).
    rewrite Hx. intros H. apply andb_prop in H. destruct H as [Hnot _].
    apply negb_true_iff in Hnot.
    assert (Hnone : filter (targets (Some x)) rows = []).
    { clear -Hnot. induction rows as [| o' rows IH]; simpl in *; [reflexivity |].
      apply orb_false_elim in Hnot. destruct Hnot as [Ho' Hrest].
      destruct (targets (Some x) o') eqn:Ht; [| auto].
      apply targets_true in Ht. destruct Ht as (y & Hy & Hxy).
      injection Hxy as <-. rewrite Hy in Ho'. rewrite Z.eqb_refl in Ho'.
      discriminate. }
    simpl. rewrite Hnone. simpl. lia.
  - destruct (Orders.id o); [| exact IH].
    intros H. apply andb_prop in H. destruct H as [_ H]. auto.
Qed.


(** ** Statements and their triggers *)

Lemma Forall2_compose {A} (R1 R2 R3 : A -> A -> Prop) l1 l2 l3 :
  (forall a b c, R1 a b -> R2 b c -> R3 a c) ->
  Forall2 R1 l1 l2 -> Forall2 R2 l2 l3 -> Forall2 R3 l1 l3.
Proof.
  intros Hc H12. revert l3. induction H12; intros l3 H23; inversion H23; subst.
  - constructor.
  - constructor; eauto.
Qed.

Lemma reached_written events ses v o :
  reached events (written ses v o) = reached events o.
Proof. reflexivity. Qed.

Lemma targets_items_total db target o :
  targets target o = true -> items_total db target = items_total db (Orders.id o).
Proof.
  intros H. apply targets_true in H. destruct H as (x & -> & ->). reflexivity.
Qed.

Lemma after_each_row_inv ses events db db' :
  after_each_row ses events db = Ok db' ->
  order_items db' = order_items db /\
  Forall2 (fun o o' =>
             if reached events o
             then o' = written ses (Some (items_total db (Orders.id o))) o
             else o' = o) (orders db) (orders db').
Proof.
  revert db. induction events as [| [NEW OLD] events IH]; simpl; intros db H.
  - injection H as <-. split; [reflexivity |].
    induction (orders db); constructor; auto.
  - apply bind_ok in H. destruct H as (db1 & H1 & H).
    apply update_order_total_inv in H1. destruct H1 as [Hitems1 Hrows1].
    apply IH in H. destruct H as [Hitems Hrows].
    split; [congruence |].
    eapply Forall2_compose; [| exact Hrows1 | exact Hrows].
    intros a b c; simpl. intros Hab Hbc.
    assert (Htot : forall x, items_total db1 x = items_total db x)
      by (intro x; unfold items_total; rewrite Hitems1; reflexivity).
    destruct (targets (trigger_target NEW OLD) a) eqn:Ht; simpl.
    + subst b. rewrite reached_written in Hbc.
      destruct (reached events a).
      * subst c. rewrite Htot. reflexivity.
      * subst c. erewrite targets_items_total by eassumption. reflexivity.
    + subst b. rewrite Htot in Hbc. exact Hbc.
Qed.

Lemma update_order_items_rows_inv ses target set rows out :
  update_order_items_rows ses target set rows = Ok out ->
  fst out = map (fun r => if has_id target r
                          then update_updated_at_column ses (set r)
                          else r) rows /\
  snd out = map (fun OLD => (update_updated_at_column ses (set OLD), OLD))
                (filter (has_id target) rows) /\
  Forall (fun r => OrderItems.constraints r = Ok tt)
         (map fst (snd out)).
Proof.
  revert out. induction rows as [| r rows IH]; simpl; intros out H.
  - injection H as <-. simpl. auto.
  - destruct (has_id target r).
    + apply bind_unit_ok in H. destruct H as [Hc H].
      apply bind_ok in H. destruct H as (out' & Hout & H).
      injection H as <-. apply IH in Hout. destruct Hout as (-> & -> & HF).
      simpl. auto.
    + apply bind_ok in H. destruct H as (out' & Hout & H).
      injection H as <-. apply IH in Hout. destruct Hout as (-> & -> & HF).
      simpl. auto.
Qed.

(** The orders after a statement: an order that some trigger of the
    statement reaches holds the sum over its items, the others are as
    before. *)
Lemma execute_orders ses s db db' :
  execute ses s db = Ok db' ->
  Forall2 (fun o o' =>
             if reached (events_of ses s db) o
             then o' = written ses (Some (items_total db' (Orders.id o))) o
             else o' = o) (orders db) (orders db').
Proof.
  assert (Hinv : forall events db1,
             orders db1 = orders db ->
             after_each_row ses events db1 = Ok db' ->
             Forall2 (fun o o' =>
                        if reached events o
                        then o' = written ses
                                    (Some (items_total db' (Orders.id o))) o
                        else o' = o) (orders db) (orders db')).
  { intros events db1 Horders H. apply after_each_row_inv in H.
    destruct H as [Hitems Hrows]. rewrite Horders in Hrows.
    eapply Forall2_impl; [| exact Hrows]. intros o o'; simpl.
    unfold items_total. rewrite Hitems. auto. }
  destruct s as [v | target set | target]; cbn [execute events_of].
  - unfold insert_order_items. intros H.
    apply bind_unit_ok in H. destruct H as [_ H].
    apply bind_unit_ok in H. destruct H as [_ H].
    apply bind_unit_ok in H. destruct H as [_ H].
    eapply Hinv; [| exact H]; reflexivity.
  - unfold update_order_items. intros H.
    apply bind_ok in H. destruct H as (out & Hout & H).
    apply bind_unit_ok in H. destruct H as [_ H].
    apply bind_unit_ok in H. destruct H as [_ H].
    apply update_order_items_rows_inv in Hout.
    destruct Hout as (_ & Hsnd & _). rewrite Hsnd, map_map in H.
    eapply Hinv; [| exact H]; reflexivity.
  - unfold delete_order_items. intros H.
    eapply Hinv; [| exact H]; reflexivity.
Qed.

(** C10: the write of the trigger function reaches only the rows of
    [app.orders] with [id = COALESCE(NEW.order_id, OLD.order_id)], one
    row at most under the primary key; such a row is changed in
    [total_amount] and [updated_at] only; every other row of
    [app.orders], and [app.order_items], is left as it was.  So for every
    [INSERT], [UPDATE] and [DELETE] on [app.order_items]: each order is
    as before in all columns but these two, and in these two as well
    unless it is the target of the trigger for a row of the statement. *)
Theorem update_order_total_frame :
  (forall ses NEW OLD db db',
      update_order_total ses NEW OLD db = Ok db' ->
      order_items db' = order_items db /\
      Forall2 (fun o o' =>
                 same_but_total_and_updated_at o o' /\
                 (targets (trigger_target NEW OLD) o = false -> o' = o))
              (orders db) (orders db') /\
      (distinct Z.eqb (map Orders.id (orders db)) = true ->
       (List.length (filter (targets (trigger_target NEW OLD)) (orders db))
        <= 1)%nat)) /\
  (forall ses s db db',
      execute ses s db = Ok db' ->
      Forall2 (fun o o' =>
                 same_but_total_and_updated_at o o' /\
                 (reached (events_of ses s db) o = false -> o' = o))
              (orders db) (orders db')).
Proof.
  assert (Hsame : forall o, same_but_total_and_updated_at o o)
    by (intros o; destruct o; reflexivity).
  split.
  - intros ses NEW OLD db db' H.
    apply update_order_total_inv in H. destruct H as [Hitems Hrows].
    split; [exact Hitems |]. split; [| apply primary_key_single].
    eapply Forall2_impl; [| exact Hrows]. intros o o'; simpl.
    destruct (targets _ o).
    + intros ->. split; [apply written_columns | discriminate].
    + intros ->. split; [apply Hsame | reflexivity].
  - intros ses s db db' H. apply execute_orders in H.
    eapply Forall2_impl; [| exact H]. intros o o'; simpl.
    destruct (reached _ o).
    + intros ->. split; [apply written_columns | discriminate].
    + intros ->. split; [apply Hsame | reflexivity].
Qed.

(** The sum over the items of order [B] after rows of order [A] were
    moved to it: what [B] had, and what the rows written bring. *)
Lemma moved_items_total ses target set rows A B :
  (forall OLD, In OLD rows -> has_id target OLD = true ->
               OrderItems.order_id OLD = Some A /\
               OrderItems.order_id (set OLD) = Some B) ->
  A <> B ->
  total_price_sum
    (items_of (map (fun r => if has_id target r
                             then update_updated_at_column ses (set r)
                             else r) rows) (Some B))
  = total_price_sum
      (filter (fun r => option_z_eqb (OrderItems.order_id r) (Some B)) rows)
    + total_price_sum (map set (filter (has_id target) rows)).
Proof.
  intros Hmove HAB. unfold items_of.
  induction rows as [| r rows IH]; [reflexivity |].
  assert (IH' := IH (fun OLD H => Hmove OLD (or_intror H))). clear IH.
  cbn [map filter]. destruct (has_id target r) eqn:Hid.
  - destruct (Hmove r (or_introl eq_refl) Hid) as [Ha Hb].
    rewrite Ha. cbn [option_z_eqb].
    replace (A =? B) with false by (symmetry; apply Z.eqb_neq; exact HAB).
    cbn [update_updated_at_column set_updated_at order_items_timestamped
         OrderItems.order_id].
    rewrite Hb. cbn [Sql.eq_z Sql.lift2 Sql.is_true]. rewrite Z.eqb_refl.
    cbn [map total_price_sum fold_right OrderItems.total_price].
    fold (total_price_sum
            (filter (fun r0 => Sql.is_true (Sql.eq_z (OrderItems.order_id r0) (Some B)))
               (map (fun r0 => if has_id target r0
                               then update_updated_at_column ses (set r0)
                               else r0) rows))).
    fold (total_price_sum (map set (filter (has_id target) rows))).
    rewrite IH'.
    change (OrderItems.total_price (update_updated_at_column ses (set r)))
      with (OrderItems.total_price (set r)).
    destruct (OrderItems.total_price (set r)); lia.
  - assert (Hsame : Sql.is_true (Sql.eq_z (OrderItems.order_id r) (Some B))
                    = option_z_eqb (OrderItems.order_id r) (Some B))
      by (destruct (OrderItems.order_id r) as [u |]; cbn;
          [destruct (u =? B) |]; reflexivity).
    rewrite Hsame.
    destruct (option_z_eqb (OrderItems.order_id r) (Some B)); [| exact IH'].
    cbn [total_price_sum fold_right].
    fold (total_price_sum
            (filter (fun r0 => Sql.is_true (Sql.eq_z (OrderItems.order_id r0) (Some B)))
               (map (fun r0 => if has_id target r0
                               then update_updated_at_column ses (set r0)
                               else r0) rows))).
    fold (total_price_sum
            (filter (fun r0 => option_z_eqb (OrderItems.order_id r0) (Some B)) rows)).
    rewrite IH'. destruct (OrderItems.total_price r); lia.
Qed.

(** C9: an [UPDATE] that moves its row from order [A] to order [B] has the
    trigger write order [B] only: [B]'s [total_amount] becomes the sum of
    [total_price] over the items it had and the rows moved to it, and its
    [updated_at] the time of the statement, the other columns staying;
    the rows of order [A], with their [total_amount] and [updated_at],
    are as before. *)
Theorem update_order_id_writes_new_order_only ses target set db db' A B :
  update_order_items ses target set db = Ok db' ->
  filter (has_id target) (order_items db) <> [] ->
  (forall OLD, In OLD (order_items db) -> has_id target OLD = true ->
               OrderItems.order_id OLD = Some A /\
               OrderItems.order_id (set OLD) = Some B) ->
  A <> B ->
  Forall2 (fun o o' =>
             (Orders.id o = Some A -> o' = o) /\
             (Orders.id o = Some B ->
              o' = written ses (Some (items_total db' (Some B))) o /\
              Orders.total_amount o'
              = Some (total_price_sum
                        (filter (fun r => option_z_eqb (OrderItems.order_id r)
                                                       (Some B))
                                (order_items db))
                      + total_price_sum
                          (map set (filter (has_id target) (order_items db)))) /\
              Orders.updated_at o' = Some (CURRENT_TIMESTAMP ses) /\
              same_but_total_and_updated_at o o') /\
             (Orders.id o <> Some B -> o' = o))
          (orders db) (orders db').
Proof.
  unfold update_order_items. intros H Hsome Hmove HAB.
  apply bind_ok in H. destruct H as (out & Hout & H).
  apply bind_unit_ok in H. destruct H as [_ H].
  apply bind_unit_ok in H. destruct H as [_ H].
  apply update_order_items_rows_inv in Hout. destruct Hout as (Hfst & Hsnd & _).
  apply after_each_row_inv in H. simpl in H. destruct H as [Hitems Hrows].
  assert (Hreach : forall o,
             reached (map (fun w => (Some (fst w), Some (snd w))) (snd out)) o
             = targets (Some B) o).
  { intros o. rewrite Hsnd. unfold reached.
    assert (Hin : forall r, In r (filter (has_id target) (order_items db)) ->
                            OrderItems.order_id (set r) = Some B).
    { intros r Hr. apply filter_In in Hr. destruct Hr as [Hr1 Hr2].
      apply (Hmove r Hr1 Hr2). }
    revert Hsome Hin. generalize (filter (has_id target) (order_items db)).
    intros l Hl Hin. destruct l as [| r l]; [congruence |]. clear Hl.
    revert r Hin. induction l as [| r' l IH]; intros r Hin; simpl.
    - unfold trigger_target; simpl. rewrite (Hin r) by (left; reflexivity).
      simpl. apply orb_false_r.
    - simpl in IH. rewrite (IH r') by (intros x Hx; apply Hin; right; exact Hx).
      unfold trigger_target; simpl. rewrite (Hin r) by (left; reflexivity).
      simpl. apply orb_diag. }
  assert (Hsum : items_total db' (Some B)
                 = total_price_sum
                     (filter (fun r => option_z_eqb (OrderItems.order_id r)
                                                    (Some B))
                             (order_items db))
                   + total_price_sum
                       (map set (filter (has_id target) (order_items db)))).
  { unfold items_total. rewrite Hitems, Hfst.
    apply (moved_items_total ses target set (order_items db) A B Hmove HAB). }
  eapply Forall2_impl; [| exact Hrows]. intros o o'; simpl.
  rewrite Hreach. destruct (targets (Some B) o) eqn:Ht.
  - apply targets_true in Ht. destruct Ht as (x & Hx & Hb). injection Hb as <-.
    intros ->. rewrite Hx.
    assert (Heq : items_total {| orders := orders db; order_items := fst out |}
                              (Some B) = items_total db' (Some B))
      by (unfold items_total; rewrite Hitems; reflexivity).
    rewrite Heq.
    split; [congruence |]. split; [| congruence].
    intros _.
    destruct (written_columns ses (Some (items_total db' (Some B))) o)
      as (Htotal & Hupd & _ & Hsame).
    rewrite <- Hsum. auto.
  - intros ->. split; [reflexivity |]. split; [| reflexivity].
    intros Hb. exfalso.
    assert (targets (Some B) o = true) by (apply targets_true; eauto).
    congruence.
Qed.

(** ** Constraints of [app.orders] under the trigger's write *)

#[local] Arguments varchar : simpl never.
#[local] Arguments numeric : simpl never.
#[local] Arguments integer : simpl never.
#[local] Arguments not_null : simpl never.
#[local] Arguments check : simpl never.
#[local] Arguments Orders.valid_status_transitions : simpl never.
#[local] Arguments EmailPattern.matches : simpl never.

Ltac rewrite_ok :=
  repeat match goal with
         | H : ?r = Ok tt |- context [bind ?r _] =>
             rewrite H; cbn [bind]
         end.

Lemma numeric_fits p column v :
  Z.abs v < 10 ^ p -> numeric p column (Some v) = Ok tt.
Proof.
  intros H. unfold numeric. apply Z.ltb_lt in H. rewrite H. reflexivity.
Qed.

(** A valid order is still valid with a total in range and a timestamp. *)
Lemma written_constraints ses v o :
  Orders.constraints o = Ok tt ->
  0 <= v < 10 ^ 12 ->
  Orders.constraints (written ses (Some v) o) = Ok tt.
Proof.
  intros H Hv. destruct o.
  unfold Orders.constraints, Orders.column_types, Orders.not_nulls,
    Orders.checks in *.
  unfold written, update_updated_at_column, set_updated_at,
    orders_timestamped, set_total_amount.
  cbn [Orders.id Orders.order_number Orders.customer_id Orders.customer_email
       Orders.customer_name Orders.status Orders.total_amount Orders.currency
       Orders.shipping_address Orders.billing_address Orders.payment_method
       Orders.payment_reference Orders.notes Orders.processed_at
       Orders.confirmed_at Orders.shipped_at Orders.delivered_at
       Orders.cancelled_at Orders.cancellation_reason Orders.metadata
       Orders.created_at Orders.updated_at] in *.
  ok_inv_all.
  rewrite_ok.
  rewrite (numeric_fits 12) by (apply Z.abs_lt; lia). cbn [bind].
  rewrite_ok.
  change (not_null "total_amount" (Some v)) with (Ok tt). cbn [bind].
  rewrite_ok.
  change (not_null "updated_at" (Some (CURRENT_TIMESTAMP ses))) with (Ok tt).
  cbn [bind].
  assert (Hge : check "orders_total_amount_check"
                      (Sql.ge_z (Some v) (Some 0)) = Ok tt).
  { unfold check, Sql.ge_z, Sql.lift2, Sql.is_false.
    destruct (Z.geb_spec v 0); [reflexivity | lia]. }
  rewrite Hge. cbn [bind].
  rewrite_ok.
  unfold Orders.valid_status_transitions, Orders.status_is in *.
  cbn [Orders.status Orders.processed_at Orders.confirmed_at
       Orders.shipped_at Orders.delivered_at Orders.cancelled_at] in *.
  assumption.
Qed.

Lemma update_orders_total_succeeds ses target v rows :
  Forall (fun o => Orders.constraints o = Ok tt) rows ->
  0 <= v < 10 ^ 12 ->
  update_orders_total ses target (Ok (Some v)) rows
  = Ok (map (fun o => if targets target o then written ses (Some v) o else o)
            rows).
Proof.
  intros Hvalid Hv. induction Hvalid as [| o rows Ho _ IH]; simpl.
  - reflexivity.
  - rewrite IH. unfold targets. destruct (Sql.is_true _); simpl.
    + fold (written ses (Some v) o).
      rewrite (written_constraints ses v o Ho Hv). reflexivity.
    + reflexivity.
Qed.

Lemma update_order_total_succeeds ses NEW OLD db :
  orders_valid db ->
  0 <= items_total db (trigger_target NEW OLD) < 10 ^ 12 ->
  update_order_total ses NEW OLD db
  = Ok {| orders :=
            map (fun o =>
                   if targets (trigger_target NEW OLD) o
                   then written ses
                          (Some (items_total db (trigger_target NEW OLD))) o
                   else o) (orders db);
          order_items := order_items db |}.
Proof.
  intros Hvalid Hv. unfold update_order_total.
  fold (trigger_target NEW OLD).
  rewrite calculate_order_total_fits
    by (apply Z.abs_lt; unfold items_total in Hv; lia).
  fold (items_total db (trigger_target NEW OLD)).
  rewrite update_orders_total_succeeds by assumption.
  reflexivity.
Qed.

Lemma items_of_filter p items order :
  items_of (filter p items) order = filter p (items_of items order).
Proof.
  unfold items_of. induction items as [| r items IH]; simpl; [reflexivity |].
  destruct (p r) eqn:Hp; simpl;
    destruct (Sql.is_true (Sql.eq_z (OrderItems.order_id r) order));
    simpl; rewrite ?Hp, IH; reflexivity.
Qed.

(** C4: [calculate_order_total] of an order without items is 0 and not
    NULL; and the [DELETE] of the one item an order still has succeeds
    and leaves that order with [total_amount] 0. *)
Theorem empty_order_total_is_zero :
  (forall items order,
      items_of items order = [] ->
      calculate_order_total items order = Ok (Some 0)) /\
  (forall ses target db OLD,
      orders_valid db ->
      filter (has_id target) (order_items db) = [OLD] ->
      items_of (order_items db) (OrderItems.order_id OLD) = [OLD] ->
      exists db',
        delete_order_items ses target db = Ok db' /\
        items_of (order_items db') (OrderItems.order_id OLD) = [] /\
        Forall2 (fun o o' =>
                   if targets (OrderItems.order_id OLD) o
                   then o' = written ses (Some 0) o /\
                        Orders.total_amount o' = Some 0
                   else o' = o) (orders db) (orders db')).
Proof.
  split.
  - intros items order H. unfold calculate_order_total. rewrite H. reflexivity.
  - intros ses target db OLD Hvalid Hdel Hlast.
    assert (Hid : has_id target OLD = true).
    { assert (Hin : In OLD (filter (has_id target) (order_items db)))
        by (rewrite Hdel; left; reflexivity).
      apply filter_In in Hin. tauto. }
    assert (Hkept : items_of (filter (fun r => negb (has_id target r))
                                     (order_items db))
                             (OrderItems.order_id OLD) = []).
    { rewrite items_of_filter, Hlast. simpl. rewrite Hid. reflexivity. }
    unfold delete_order_items. rewrite Hdel. simpl.
    rewrite update_order_total_succeeds.
    + simpl. eexists. split; [reflexivity |]. simpl. split; [exact Hkept |].
      unfold trigger_target, items_total; simpl. rewrite Hkept. simpl.
      induction (orders db) as [| o rows IH]; simpl; constructor; auto.
      destruct (targets (OrderItems.order_id OLD) o); auto.
    + exact Hvalid.
    + unfold trigger_target, items_total; simpl. rewrite Hkept. simpl. lia.
Qed.

(** ** Constraints of [app.order_items] *)

Lemma check_ok constraint cond :
  check constraint cond = Ok tt -> cond <> Some false.
Proof.
  unfold check. destruct cond as [[|] |]; simpl; congruence.
Qed.

Lemma check_raises constraint cond e :
  check constraint cond = Raise e -> e = check_violation constraint.
Proof.
  unfold check. destruct (Sql.is_false cond); congruence.
Qed.

Lemma not_null_ok {A} column (v : option A) :
  not_null column v = Ok tt -> exists x, v = Some x.
Proof.
  destruct v; simpl; [eauto | discriminate].
Qed.

Lemma order_items_checks_raise r e :
  OrderItems.checks r = Raise e -> exists c, e = check_violation c.
Proof.
  unfold OrderItems.checks.
  repeat match goal with
         | |- bind (check ?c ?cond) _ = Raise _ -> _ =>
             let H := fresh in
             destruct (check c cond) as [[] |] eqn:H; cbn [bind];
             [| intros [= <-]; apply check_raises in H; eauto]
         end.
  intros Hlast. apply check_raises in Hlast. eauto.
Qed.

Lemma order_items_constraints_price r :
  OrderItems.constraints r = Ok tt -> price_equation r.
Proof.
  unfold OrderItems.constraints, OrderItems.not_nulls, OrderItems.checks.
  intros H. ok_inv_all.
  repeat match goal with
         | H : not_null _ _ = Ok tt |- _ =>
             apply not_null_ok in H; destruct H as [? H]
         end.
  match goal with
  | H : check "valid_total_price" _ = Ok tt |- _ => apply check_ok in H
  end.
  intros d t Hd Ht.
  unfold OrderItems.valid_total_price in *.
  repeat match goal with
         | H : _ r = Some _ |- _ => rewrite H in *
         end.
  simpl in *. do 2 eexists. split; [reflexivity |]. split; [reflexivity |].
  f_equal.
  match goal with
  | H : Some (?a =? ?b) <> Some false |- _ =>
      destruct (Z.eqb_spec a b); [assumption | congruence]
  end.
Qed.

Lemma raises_or_ok {A} (r : result A) :
  (forall a, r <> Ok a) -> exists e, r = Raise e.
Proof.
  destruct r as [a | e]; [intros H; destruct (H a eq_refl) | eauto].
Qed.

Lemma execute_rows_constrained ses s db db' :
  execute ses s db = Ok db' ->
  forall r, In r (order_items db') ->
            In r (order_items db) \/ OrderItems.constraints r = Ok tt.
Proof.
  destruct s as [v | target set | target]; simpl.
  - unfold insert_order_items. intros H.
    apply bind_unit_ok in H. destruct H as [Hc H].
    apply bind_unit_ok in H. destruct H as [_ H].
    apply bind_unit_ok in H. destruct H as [_ H].
    apply after_each_row_inv in H. destruct H as [-> _]. simpl.
    intros r Hr. apply in_app_or in Hr. destruct Hr as [Hr | [<- | []]]; auto.
  - unfold update_order_items. intros H.
    apply bind_ok in H. destruct H as (out & Hout & H).
    apply bind_unit_ok in H. destruct H as [_ H].
    apply bind_unit_ok in H. destruct H as [_ H].
    apply after_each_row_inv in H. destruct H as [-> _]. simpl.
    apply update_order_items_rows_inv in Hout.
    destruct Hout as (-> & Hsnd & Hall). rewrite Hsnd in Hall.
    rewrite map_map in Hall. simpl in Hall. rewrite Forall_forall in Hall.
    intros r Hr. apply in_map_iff in Hr. destruct Hr as (r0 & <- & Hr0).
    destruct (has_id target r0) eqn:Hid; [right | left; assumption].
    apply Hall. apply in_map_iff. exists r0. split; [reflexivity |].
    apply filter_In. auto.
  - unfold delete_order_items. intros H.
    apply after_each_row_inv in H. destruct H as [-> _]. simpl.
    intros r Hr. apply filter_In in Hr. tauto.
Qed.

(** C2, amended: a row that [app.order_items] accepts, by [INSERT] or by
    [UPDATE], and whose [discount_amount] and [tax_amount] are not NULL
    has [total_price = quantity * unit_price - discount_amount +
    tax_amount], hence [quantity * unit_price] when both are 0; a row
    with all five values that breaks the equation is rejected.  When
    [discount_amount] or [tax_amount] is NULL the condition of
    [valid_total_price] is NULL, which rejects no row. *)
Theorem accepted_item_total_price :
  (forall ses s db db',
      execute ses s db = Ok db' ->
      forall r, In r (order_items db') ->
                In r (order_items db) \/ price_equation r) /\
  (forall r,
      OrderItems.constraints r = Ok tt ->
      OrderItems.discount_amount r = Some 0 ->
      OrderItems.tax_amount r = Some 0 ->
      exists q p,
        OrderItems.quantity r = Some q /\
        OrderItems.unit_price r = Some p /\
        OrderItems.total_price r = Some (q * p)) /\
  (forall r q p d t total,
      OrderItems.quantity r = Some q ->
      OrderItems.unit_price r = Some p ->
      OrderItems.discount_amount r = Some d ->
      OrderItems.tax_amount r = Some t ->
      OrderItems.total_price r = Some total ->
      total <> q * p - d + t ->
      exists e, OrderItems.constraints r = Raise e) /\
  (forall r,
      OrderItems.discount_amount r = None \/ OrderItems.tax_amount r = None ->
      OrderItems.valid_total_price r = None).
Proof.
  split; [| split; [| split]].
  - intros ses s db db' H r Hr.
    destruct (execute_rows_constrained ses s db db' H r Hr) as [Hold | Hc];
      [left; assumption | right; apply order_items_constraints_price, Hc].
  - intros r Hc Hd Ht.
    destruct (order_items_constraints_price r Hc 0 0 Hd Ht)
      as (q & p & Hq & Hp & Htot).
    exists q, p. repeat split; try assumption.
    rewrite Htot. f_equal. lia.
  - intros r q p d t total Hq Hp Hd Ht Htot Hne.
    apply raises_or_ok. intros [] Hc.
    destruct (order_items_constraints_price r Hc d t Hd Ht)
      as (q' & p' & Hq' & Hp' & Htot').
    congruence.
  - intros r Hnull. unfold OrderItems.valid_total_price.
    destruct Hnull as [-> | ->];
      destruct (OrderItems.total_price r), (OrderItems.quantity r),
        (OrderItems.unit_price r);
      try destruct (OrderItems.discount_amount r);
      try destruct (OrderItems.tax_amount r); reflexivity.
Qed.

(** C6: an [INSERT] into [app.order_items] with [quantity <= 0] or with
    [unit_price < 0] raises, and its transaction leaves the database as
    it was; with values of the column types in every NOT NULL column the
    error is a check violation. *)
Theorem insert_rejects_quantity_and_unit_price ses v db :
  (exists q, OrderItems.quantity (OrderItemsValues.tuple ses v) = Some q /\
             q <= 0) \/
  (exists p, OrderItems.unit_price (OrderItemsValues.tuple ses v) = Some p /\
             p < 0) ->
  exists e,
    insert_order_items ses v db = Raise e /\
    transaction [(ses, INSERT_INTO_order_items v)] db = (db, ROLLBACK e) /\
    (OrderItems.column_types (OrderItemsValues.tuple ses v) = Ok tt ->
     OrderItems.not_nulls (OrderItemsValues.tuple ses v) = Ok tt ->
     exists c, e = check_violation c).
Proof.
  intros Hbad.
  assert (Hc : exists e,
             OrderItems.constraints (OrderItemsValues.tuple ses v) = Raise e).
  { apply raises_or_ok. intros [] Hc.
    unfold OrderItems.constraints, OrderItems.checks in Hc. ok_inv_all.
    repeat match goal with
           | H : check _ _ = Ok tt |- _ => apply check_ok in H
           end.
    destruct Hbad as [(q & Hq & Hle) | (p & Hp & Hlt)].
    - rewrite Hq in *. simpl in *.
      match goal with
      | H : Some (q >? 0) <> Some false |- _ =>
          destruct (Z.gtb_spec q 0); [lia | congruence]
      end.
    - rewrite Hp in *. simpl in *.
      match goal with
      | H : Some (p >=? 0) <> Some false |- _ =>
          destruct (Z.geb_spec p 0); [lia | congruence]
      end. }
  destruct Hc as (e & He). exists e.
  assert (Hins : insert_order_items ses v db = Raise e)
    by (unfold insert_order_items; rewrite He; reflexivity).
  split; [exact Hins |]. split.
  - unfold transaction. simpl. rewrite Hins. reflexivity.
  - intros Htypes Hnn. unfold OrderItems.constraints in He.
    rewrite Htypes, Hnn in He. simpl in He.
    apply order_items_checks_raise in He. exact He.
Qed.

(** ** Constraints of [app.orders] *)

Lemma valid_status_transitions_timestamp r :
  Orders.valid_status_transitions r <> Some false ->
  match Orders.status r with
  | Some processing => Orders.processed_at r <> None
  | Some confirmed => Orders.confirmed_at r <> None
  | Some shipped => Orders.shipped_at r <> None
  | Some delivered => Orders.delivered_at r <> None
  | Some cancelled => Orders.cancelled_at r <> None
  | _ => True
  end.
Proof.
  unfold Orders.valid_status_transitions, Orders.status_is.
  destruct (Orders.status r) as [[] |]; simpl; trivial;
    destruct (Orders.processed_at r), (Orders.confirmed_at r),
      (Orders.shipped_at r), (Orders.delivered_at r),
      (Orders.cancelled_at r); simpl; congruence.
Qed.

Lemma orders_constraints_status r :
  Orders.constraints r = Ok tt ->
  Orders.valid_status_transitions r <> Some false.
Proof.
  unfold Orders.constraints, Orders.checks. intros H. ok_inv_all.
  eapply check_ok. eassumption.
Qed.

(** C3, amended: an order that [app.orders] accepts with status
    processing, confirmed, shipped, delivered or cancelled has
    [processed_at], [confirmed_at], [shipped_at], [delivered_at] or
    [cancelled_at] set, in that order, and an order with one of these
    statuses and its timestamp NULL is rejected; with status pending or
    failed the check holds whatever the timestamps. *)
Theorem status_timestamp_required :
  (forall r,
      Orders.constraints r = Ok tt ->
      (Orders.status r = Some processing -> Orders.processed_at r <> None) /\
      (Orders.status r = Some confirmed -> Orders.confirmed_at r <> None) /\
      (Orders.status r = Some shipped -> Orders.shipped_at r <> None) /\
      (Orders.status r = Some delivered -> Orders.delivered_at r <> None) /\
      (Orders.status r = Some cancelled -> Orders.cancelled_at r <> None) /\
      (forall s, Orders.status r = Some s -> s <> pending -> s <> failed ->
                 Orders.status_changed_at r <> None)) /\
  (forall r,
      (Orders.status r = Some processing /\ Orders.processed_at r = None) \/
      (Orders.status r = Some confirmed /\ Orders.confirmed_at r = None) \/
      (Orders.status r = Some shipped /\ Orders.shipped_at r = None) \/
      (Orders.status r = Some delivered /\ Orders.delivered_at r = None) \/
      (Orders.status r = Some cancelled /\ Orders.cancelled_at r = None) ->
      exists e, Orders.constraints r = Raise e) /\
  (forall r,
      Orders.status r = Some pending \/ Orders.status r = Some failed ->
      Orders.valid_status_transitions r = Some true).
Proof.
  split; [| split].
  - intros r Hc. apply orders_constraints_status in Hc.
    apply valid_status_transitions_timestamp in Hc.
    repeat split;
      try (intros Hs; rewrite Hs in Hc; exact Hc).
    intros s Hs Hp Hf. unfold Orders.status_changed_at, Orders.status_is.
    rewrite Hs in *. destruct s; simpl; congruence.
  - intros r Hbad. apply raises_or_ok. intros [] Hc.
    apply orders_constraints_status in Hc.
    apply valid_status_transitions_timestamp in Hc.
    destruct Hbad as [[Hs Ht] | [[Hs Ht] | [[Hs Ht] | [[Hs Ht] | [Hs Ht]]]]];
      rewrite Hs in Hc; congruence.
  - intros r Hs.
    unfold Orders.valid_status_transitions, Orders.status_is.
    destruct Hs as [-> | ->];
      destruct (Orders.processed_at r), (Orders.confirmed_at r),
        (Orders.shipped_at r), (Orders.delivered_at r),
        (Orders.cancelled_at r); reflexivity.
Qed.

(** ** Transactions *)

Lemma execute_all_app before after db :
  execute_all (before ++ after) db
  = bind (execute_all before db) (execute_all after).
Proof.
  revert db. induction before as [| [ses s] before IH]; simpl; intros db.
  - reflexivity.
  - destruct (execute ses s db) as [db1 | e]; simpl; [apply IH | reflexivity].
Qed.

Lemma execute_all_raises ss db e :
  execute_all ss db = Raise e ->
  exists before ses s after db1,
    ss = before ++ (ses, s) :: after /\
    execute_all before db = Ok db1 /\
    execute ses s db1 = Raise e.
Proof.
  revert db. induction ss as [| [ses s] ss IH]; simpl; intros db H.
  - discriminate.
  - destruct (execute ses s db) as [db1 | e1] eqn:Hs; simpl in H.
    + destruct (IH db1 H) as (before & ses' & s' & after & db2 & -> & Hb & Hr).
      exists ((ses, s) :: before), ses', s', after, db2.
      split; [reflexivity |]. split; [| exact Hr].
      simpl. rewrite Hs. exact Hb.
    + injection H as <-. exists [], ses, s, ss, db.
      split; [reflexivity |]. split; [reflexivity | exact Hs].
Qed.

(** ** [generate_order_number] *)

Example order_number_candidate_low :
  order_number_candidate {| year := 2026; month := 11; day := 2 |} 5
  = "ORD-20261102-000005"%string.
Proof. reflexivity. Qed.

Example order_number_candidate_high :
  order_number_candidate {| year := 2026; month := 1; day := 9 |} 999998
  = "ORD-20260109-999998"%string.
Proof. reflexivity. Qed.

(** With [use_variable] and no stored order the first candidate is
    returned. *)
Example generate_order_number_empty_table :
  generate_order_number use_variable {| year := 2026; month := 11; day := 2 |}
                        [] [5%N; 6%N]
  = Some (Ok "ORD-20261102-000005"%string).
Proof. reflexivity. Qed.

(** C8: [generate_order_number] does not compare its candidate with the
    stored order numbers.  The name [order_number] on both sides of its
    lookup is ambiguous: with the default [plpgsql.variable_conflict]
    every call raises; with [use_variable] or [use_column] the lookup is
    true whenever [app.orders] has a row, whatever the candidate, and the
    loop never ends. *)
Theorem generate_order_number_lookup_fails :
  (forall today rows x random,
      generate_order_number error today rows (x :: random)
      = Some (Raise (ambiguous_column "order_number"))) /\
  (forall conflict today o rows random,
      conflict <> error ->
      Orders.order_number o <> None ->
      generate_order_number conflict today (o :: rows) random = None).
Proof.
  split.
  - reflexivity.
  - intros conflict today o rows random Hconflict Hnumber.
    induction random as [| x random IH]; [reflexivity |].
    cbn [generate_order_number].
    destruct conflict; [congruence | |];
      cbn [order_number_exists existsb].
    + unfold Text.eq, Sql.lift2, Sql.is_true. rewrite String.eqb_refl.
      simpl. exact IH.
    + destruct (Orders.order_number o) as [n |]; [| congruence].
      unfold Text.eq at 1, Sql.lift2, Sql.is_true. rewrite String.eqb_refl.
      simpl. exact IH.
Qed.

(** ** The total of an order and the sum over its items *)

Lemma eq_z_sym a b : Sql.eq_z a b = Sql.eq_z b a.
Proof.
  destruct a, b; simpl; try reflexivity. rewrite Z.eqb_sym. reflexivity.
Qed.

Lemma coalesce_null NEW :
  trigger_target (Some NEW) None = field OrderItems.order_id (Some NEW).
Proof.
  unfold trigger_target. destruct (field OrderItems.order_id (Some NEW));
    reflexivity.
Qed.

Lemma Forall2_Forall {A} (R : A -> A -> Prop) (P Q : A -> Prop) l l' :
  (forall a b, In a l -> R a b -> P a -> Q b) ->
  Forall2 R l l' -> Forall P l -> Forall Q l'.
Proof.
  intros HR H2. induction H2 as [| a b l l' Hab _ IH]; intros HP.
  - constructor.
  - inversion HP; subst. constructor.
    + apply (HR a b); simpl; auto.
    + apply IH; [| assumption]. intros x y Hx. apply HR. right. exact Hx.
Qed.

(** The triggers of a statement restore the totals, when the orders they
    do not reach kept their items. *)
Lemma after_each_row_totals ses events db0 db1 db' :
  orders db1 = orders db0 ->
  totals_consistent db0 ->
  (forall o, In o (orders db0) -> reached events o = false ->
             items_total db1 (Orders.id o) = items_total db0 (Orders.id o)) ->
  after_each_row ses events db1 = Ok db' ->
  totals_consistent db'.
Proof.
  intros Horders Hcons Hkept H.
  apply after_each_row_inv in H. destruct H as [Hitems Hrows].
  rewrite Horders in Hrows. unfold totals_consistent in *.
  assert (Htot : forall x, items_total db' x = items_total db1 x)
    by (intro x; unfold items_total; rewrite Hitems; reflexivity).
  eapply Forall2_Forall; [| exact Hrows | exact Hcons].
  intros o o' Hin Hoo' Hmatch. simpl in Hoo'. unfold total_matches in *.
  destruct (reached events o) eqn:Hr.
  - subst o'. rewrite Htot. reflexivity.
  - subst o'. rewrite Htot, Hkept by assumption. exact Hmatch.
Qed.

Lemma existsb_over_map {A B} (p : B -> bool) (f : A -> B) l :
  existsb p (map f l) = existsb (fun x => p (f x)) l.
Proof.
  induction l as [| a l IH]; simpl; [reflexivity | rewrite IH; reflexivity].
Qed.

Lemma reached_order_ids (f : OrderItems.row -> event)
  (key : OrderItems.row -> option uuid) rows o :
  (forall r, In r rows -> trigger_target (fst (f r)) (snd (f r)) = key r) ->
  reached (map f rows) o = false ->
  forall r, In r rows ->
            Sql.is_true (Sql.eq_z (key r) (Orders.id o)) = false.
Proof.
  unfold reached. intros Hkey H r Hr.
  rewrite existsb_over_map in H.
  destruct (Sql.is_true (Sql.eq_z (key r) (Orders.id o))) eqn:Hk;
    [| reflexivity].
  assert (Hex : existsb (fun x => targets (trigger_target (fst (f x))
                                                           (snd (f x))) o)
                        rows = true).
  { apply existsb_exists. exists r. split; [exact Hr |].
    rewrite Hkey by exact Hr. unfold targets. rewrite eq_z_sym. exact Hk. }
  congruence.
Qed.

Lemma filter_all {A} (p : A -> bool) l :
  (forall x, In x l -> p x = true) -> filter p l = l.
Proof.
  induction l as [| a l IH]; simpl; intros H; [reflexivity |].
  rewrite (H a) by auto. rewrite IH by auto. reflexivity.
Qed.

Lemma items_of_updated ses target set order rows :
  (forall r, In r rows -> has_id target r = true ->
             OrderItems.order_id (set r) = OrderItems.order_id r) ->
  (forall r, In r rows -> has_id target r = true ->
             Sql.is_true (Sql.eq_z (OrderItems.order_id r) order) = false) ->
  items_of (map (fun r => if has_id target r
                          then update_updated_at_column ses (set r)
                          else r) rows) order
  = items_of rows order.
Proof.
  unfold items_of.
  induction rows as [| r rows IH]; intros Hkeep Hnot; [reflexivity |].
  cbn [map filter].
  rewrite IH;
    [| intros x Hx; apply Hkeep; right; exact Hx
     | intros x Hx; apply Hnot; right; exact Hx].
  destruct (has_id target r) eqn:Hid; [| reflexivity].
  change (OrderItems.order_id (update_updated_at_column ses (set r)))
    with (OrderItems.order_id (set r)).
  rewrite (Hkeep r (or_introl eq_refl) Hid).
  rewrite (Hnot r (or_introl eq_refl) Hid).
  reflexivity.
Qed.

(** The invariant of the totals is kept by every [INSERT] and [DELETE] on
    [app.order_items] and by every [UPDATE] that keeps [order_id]. *)
Lemma totals_preserved ses s db db' :
  totals_consistent db ->
  keeps_order_id s db ->
  execute ses s db = Ok db' ->
  totals_consistent db'.
Proof.
  intros Hcons Hkeep. destruct s as [v | target set | target]; simpl.
  - unfold insert_order_items.
    generalize (OrderItemsValues.tuple ses v). intros NEW H.
    apply bind_unit_ok in H. destruct H as [_ H].
    apply bind_unit_ok in H. destruct H as [_ H].
    apply bind_unit_ok in H. destruct H as [_ H].
    eapply after_each_row_totals; [| exact Hcons | | exact H]; [reflexivity |].
    intros o _ Hr. unfold reached in Hr. cbn [existsb fst snd] in Hr.
    apply orb_false_elim in Hr. destruct Hr as [Hr _].
    rewrite coalesce_null in Hr. unfold targets in Hr. rewrite eq_z_sym in Hr.
    unfold items_total, items_of. cbn [order_items].
    rewrite filter_app. cbn [filter]. cbn [field] in Hr. rewrite Hr.
    rewrite app_nil_r. reflexivity.
  - unfold update_order_items. intros H.
    apply bind_ok in H. destruct H as (out & Hout & H).
    apply bind_unit_ok in H. destruct H as [_ H].
    apply bind_unit_ok in H. destruct H as [_ H].
    apply update_order_items_rows_inv in Hout.
    destruct Hout as (Hfst & Hsnd & _).
    eapply after_each_row_totals; [| exact Hcons | | exact H]; [reflexivity |].
    intros o _ Hr. rewrite Hsnd, map_map in Hr. simpl in Hr.
    assert (Hnot : forall r, In r (filter (has_id target) (order_items db)) ->
               Sql.is_true (Sql.eq_z (OrderItems.order_id r) (Orders.id o))
               = false).
    { eapply reached_order_ids; [| exact Hr].
      intros r Hr'. apply filter_In in Hr'. destruct Hr' as [Hin Hid].
      unfold trigger_target. simpl. rewrite (Hkeep r Hin Hid).
      destruct (OrderItems.order_id r); reflexivity. }
    unfold items_total. cbn [order_items]. rewrite Hfst.
    rewrite items_of_updated; [reflexivity | exact Hkeep |].
    intros r Hin Hid. apply Hnot. apply filter_In. auto.
  - unfold delete_order_items. intros H.
    eapply after_each_row_totals; [| exact Hcons | | exact H]; [reflexivity |].
    intros o _ Hr.
    assert (Hnot : forall r, In r (filter (has_id target) (order_items db)) ->
               Sql.is_true (Sql.eq_z (OrderItems.order_id r) (Orders.id o))
               = false).
    { eapply reached_order_ids; [| exact Hr]. reflexivity. }
    unfold items_total. simpl. rewrite items_of_filter. unfold items_of.
    f_equal. apply filter_all.
    intros r Hr'. apply filter_In in Hr'. destruct Hr' as [Hin Hb].
    destruct (has_id target r) eqn:Hid; [| reflexivity].
    rewrite Hnot in Hb; [discriminate |]. apply filter_In. auto.
Qed.

(** ** The statements on sample data *)

(** C1: the trigger of an [UPDATE] recomputes the order of [NEW] only.
    Moving the one item of order 1 to order 2 leaves order 1 with
    [total_amount] 20.00 and no item: the totals matched the sums before
    the statement and do not after it. *)
Theorem moved_item_leaves_stale_total :
  totals_consistent Sample.two_orders /\
  exists db',
    update_order_items Sample.later (Some 10) (Sample.set_order_id (Some 2))
                       Sample.two_orders = Ok db' /\
    map Orders.id (orders db') = [Some 1; Some 2] /\
    map Orders.total_amount (orders db') = [Some 2000; Some 2000] /\
    items_total db' (Some 1) = 0 /\
    items_total db' (Some 2) = 2000 /\
    ~ totals_consistent db'.
Proof.
  split.
  - repeat constructor.
  - eexists. split; [vm_compute; reflexivity |].
    repeat split.
    intros H. inversion H as [| o rows Ho _]. discriminate Ho.
Qed.

(** C7: the scenario of the specification.  Order O is created without
    items and with total 0; an item of 2 at 10.00 with total price 20.00
    brings the total to 20.00; an item of 1 at 5.00 brings it to 25.00;
    deleting the first item brings it to 5.00. *)
Theorem scenario_totals :
  exists db1 db2 db3 db4,
    insert_orders Sample.ses
      (Sample.order_values 1 "ORD-20261102-000001" DEFAULT 0)
      {| orders := []; order_items := [] |} = Some (Ok db1) /\
    order_items db1 = [] /\
    map Orders.total_amount (orders db1) = [Some 0] /\
    insert_order_items Sample.ses
      (Sample.item_values 10 1 1 (VALUE (Some 2)) (VALUE (Some 1000))
                          (VALUE (Some 0)) (VALUE (Some 0)) 2000)
      db1 = Ok db2 /\
    map OrderItems.total_price (order_items db2) = [Some 2000] /\
    map Orders.total_amount (orders db2) = [Some 2000] /\
    insert_order_items Sample.later
      (Sample.item_values 11 1 2 (VALUE (Some 1)) (VALUE (Some 500))
                          DEFAULT DEFAULT 500)
      db2 = Ok db3 /\
    map Orders.total_amount (orders db3) = [Some 2500] /\
    delete_order_items Sample.later (Some 10) db3 = Ok db4 /\
    map OrderItems.id (order_items db4) = [Some 11] /\
    map Orders.total_amount (orders db4) = [Some 500].
Proof.
  do 4 eexists.
  split; [vm_compute; reflexivity |].
  split; [reflexivity |]. split; [reflexivity |].
  split; [vm_compute; reflexivity |].
  split; [reflexivity |]. split; [reflexivity |].
  split; [vm_compute; reflexivity |].
  split; [reflexivity |].
  split; [vm_compute; reflexivity |].
  split; reflexivity.
Qed.

(** C2 as stated fails: with [discount_amount] NULL the check
    [valid_total_price] is not false, and an item of 2 at 10.00 is
    accepted with [total_price] 999.00. *)
Lemma null_discount_accepts_any_total_price :
  exists db' r,
    insert_order_items Sample.ses
      (Sample.item_values 10 1 1 (VALUE (Some 2)) (VALUE (Some 1000))
                          (VALUE None) DEFAULT 99900)
      Sample.one_order = Ok db' /\
    In r (order_items db') /\
    OrderItems.quantity r = Some 2 /\
    OrderItems.unit_price r = Some 1000 /\
    OrderItems.discount_amount r = None /\
    OrderItems.tax_amount r = Some 0 /\
    OrderItems.total_price r = Some 99900 /\
    OrderItems.valid_total_price r <> Some true.
Proof.
  do 2 eexists. split; [vm_compute; reflexivity |].
  split; [left; reflexivity |].
  repeat split. discriminate.
Qed.

(** C3 as stated fails: an order with status failed and none of the five
    status timestamps is accepted. *)
Lemma failed_order_needs_no_timestamp :
  exists db' r,
    insert_orders Sample.ses
      (Sample.order_values 2 "ORD-20261102-000002" (VALUE (Some failed)) 0)
      Sample.one_order = Some (Ok db') /\
    In r (orders db') /\
    Orders.status r = Some failed /\
    Orders.status r <> Some pending /\
    Orders.processed_at r = None /\
    Orders.confirmed_at r = None /\
    Orders.shipped_at r = None /\
    Orders.delivered_at r = None /\
    Orders.cancelled_at r = None /\
    Orders.status_changed_at r = None.
Proof.
  do 2 eexists. split; [vm_compute; reflexivity |].
  split; [right; left; reflexivity |].
  repeat split. discriminate.
Qed.

(** ** Instances on sample data *)

(** The trigger of the insert of a second item into order 1. *)
Lemma update_order_total_frame_witness :
  exists db',
    update_order_total Sample.later
      (Some (Sample.item 11 1 2 1 500 500)) None
      {| orders := orders Sample.two_orders;
         order_items := order_items Sample.two_orders
                        ++ [Sample.item 11 1 2 1 500 500] |} = Ok db' /\
    map Orders.total_amount (orders db') = [Some 2500; Some 0] /\
    map Orders.updated_at (orders db') = [Some 2000; Some 1000] /\
    Forall2 (fun o o' =>
               same_but_total_and_updated_at o o' /\
               (targets (Some 1) o = false -> o' = o))
            (orders Sample.two_orders) (orders db').
Proof.
  eexists. split; [vm_compute; reflexivity |].
  split; [reflexivity |]. split; [reflexivity |].
  apply (proj1 update_order_total_frame Sample.later
           (Some (Sample.item 11 1 2 1 500 500)) None
           {| orders := orders Sample.two_orders;
              order_items := order_items Sample.two_orders
                             ++ [Sample.item 11 1 2 1 500 500] |}).
  vm_compute; reflexivity.
Defined.

(** The item of order 1 moved to order 2. *)
Lemma update_order_id_writes_new_order_only_witness :
  exists db',
    update_order_items Sample.later (Some 10) (Sample.set_order_id (Some 2))
                       Sample.two_orders = Ok db' /\
    Forall2 (fun o o' =>
               (Orders.id o = Some 1 -> o' = o) /\
               (Orders.id o = Some 2 ->
                o' = written Sample.later (Some (items_total db' (Some 2))) o /\
                Orders.total_amount o'
                = Some (total_price_sum
                          (filter (fun r =>
                                     option_z_eqb (OrderItems.order_id r)
                                                  (Some 2))
                                  (order_items Sample.two_orders))
                        + total_price_sum
                            (map (Sample.set_order_id (Some 2))
                                 (filter (has_id (Some 10))
                                         (order_items Sample.two_orders)))) /\
                Orders.updated_at o' = Some (CURRENT_TIMESTAMP Sample.later) /\
                same_but_total_and_updated_at o o') /\
               (Orders.id o <> Some 2 -> o' = o))
            (orders Sample.two_orders) (orders db') /\
    map Orders.total_amount (orders db') = [Some 2000; Some 2000] /\
    map Orders.updated_at (orders db') = [Some 1000; Some 2000].
Proof.
  eexists. split; [vm_compute; reflexivity |].
  split; [| split; vm_compute; reflexivity].
  apply (update_order_id_writes_new_order_only Sample.later (Some 10)
           (Sample.set_order_id (Some 2)) Sample.two_orders).
  - vm_compute; reflexivity.
  - discriminate.
  - intros OLD [<- | []] _. split; reflexivity.
  - discriminate.
Defined.

Lemma sample_orders_valid : orders_valid Sample.two_orders.
Proof. repeat constructor. Defined.

(** The one item of order 1 deleted. *)
Lemma empty_order_total_is_zero_witness :
  calculate_order_total (order_items Sample.two_orders) (Some 2)
  = Ok (Some 0) /\
  exists db',
    delete_order_items Sample.later (Some 10) Sample.two_orders = Ok db' /\
    items_of (order_items db') (Some 1) = [] /\
    Forall2 (fun o o' =>
               if targets (Some 1) o
               then o' = written Sample.later (Some 0) o /\
                    Orders.total_amount o' = Some 0
               else o' = o) (orders Sample.two_orders) (orders db').
Proof.
  split.
  - apply (proj1 empty_order_total_is_zero). reflexivity.
  - apply (proj2 empty_order_total_is_zero Sample.later (Some 10)
             Sample.two_orders (Sample.item 10 1 1 2 1000 2000)).
    + exact sample_orders_valid.
    + reflexivity.
    + reflexivity.
Defined.

(** An accepted item; an item of 2 at 10.00 offered at 20.01. *)
Lemma accepted_item_total_price_witness :
  price_equation (Sample.item 10 1 1 2 1000 2000) /\
  (exists q p,
      OrderItems.quantity (Sample.item 10 1 1 2 1000 2000) = Some q /\
      OrderItems.unit_price (Sample.item 10 1 1 2 1000 2000) = Some p /\
      OrderItems.total_price (Sample.item 10 1 1 2 1000 2000)
      = Some (q * p)) /\
  exists e, OrderItems.constraints (Sample.item 10 1 1 2 1000 2001) = Raise e.
Proof.
  destruct accepted_item_total_price as (Hexec & Hzero & Hreject & _).
  split; [| split].
  - destruct (Hexec Sample.ses
                (INSERT_INTO_order_items
                   (Sample.item_values 10 1 1 (VALUE (Some 2))
                      (VALUE (Some 1000)) DEFAULT DEFAULT 2000))
                Sample.one_order
                {| orders := [Sample.order 1 "ORD-20261102-000001" pending 2000];
                   order_items := [Sample.item 10 1 1 2 1000 2000] |}
                eq_refl (Sample.item 10 1 1 2 1000 2000)
                (or_introl eq_refl)) as [[] | H].
    exact H.
  - apply Hzero; reflexivity.
  - apply (Hreject _ 2 1000 0 0 2001); try reflexivity. discriminate.
Defined.

(** Orders in status shipped, with and without [shipped_at]. *)
Lemma status_timestamp_required_witness :
  Orders.shipped_at (Sample.shipped_order 3 "ORD-20261102-000003" 900)
  <> None /\
  exists e,
    Orders.constraints (Sample.order 3 "ORD-20261102-000003" shipped 0)
    = Raise e.
Proof.
  destruct status_timestamp_required as (Hset & Hreject & _).
  split.
  - apply (Hset (Sample.shipped_order 3 "ORD-20261102-000003" 900));
      reflexivity.
  - apply Hreject. right. right. left. split; reflexivity.
Defined.

(** An [INSERT] with quantity 0. *)
Lemma insert_rejects_quantity_and_unit_price_witness :
  exists e,
    insert_order_items Sample.ses
      (Sample.item_values 10 1 1 (VALUE (Some 0)) (VALUE (Some 1000))
         DEFAULT DEFAULT 0) Sample.one_order = Raise e /\
    transaction
      [(Sample.ses,
        INSERT_INTO_order_items
          (Sample.item_values 10 1 1 (VALUE (Some 0)) (VALUE (Some 1000))
             DEFAULT DEFAULT 0))] Sample.one_order
    = (Sample.one_order, ROLLBACK e) /\
    exists c, e = check_violation c.
Proof.
  destruct (insert_rejects_quantity_and_unit_price Sample.ses
              (Sample.item_values 10 1 1 (VALUE (Some 0)) (VALUE (Some 1000))
                 DEFAULT DEFAULT 0) Sample.one_order)
    as (e & Hinsert & Htx & Hcheck).
  - left. exists 0. split; [reflexivity | lia].
  - exists e. split; [exact Hinsert |]. split; [exact Htx |].
    apply Hcheck; reflexivity.
Defined.

(** A call with one stored order, whose number differs from every
    candidate of the day. *)
Lemma generate_order_number_lookup_fails_witness :
  generate_order_number error (CURRENT_DATE Sample.ses)
    (orders Sample.one_order) [5%N; 6%N]
  = Some (Raise (ambiguous_column "order_number")) /\
  generate_order_number use_variable (CURRENT_DATE Sample.ses)
    (orders Sample.one_order) [5%N; 6%N] = None /\
  generate_order_number use_column (CURRENT_DATE Sample.ses)
    (orders Sample.one_order) [5%N; 6%N] = None.
Proof.
  destruct generate_order_number_lookup_fails as [Herror Hloop].
  split; [apply Herror |].
  split; apply Hloop; discriminate.
Defined.

(** * Further properties *)

(** ** What the statements do to [app.order_items] *)

Lemma statement_items ses s db db' :
  execute ses s db = Ok db' ->
  order_items db' =
  match s with
  | INSERT_INTO_order_items v =>
      order_items db ++ [OrderItemsValues.tuple ses v]
  | UPDATE_order_items target set =>
      map (fun r => if has_id target r then stamped ses set r else r)
          (order_items db)
  | DELETE_FROM_order_items target =>
      filter (fun r => negb (has_id target r)) (order_items db)
  end.
Proof.
  destruct s as [v | target set | target]; cbn [execute].
  - unfold insert_order_items. intros H.
    apply bind_unit_ok in H. destruct H as [_ H].
    apply bind_unit_ok in H. destruct H as [_ H].
    apply bind_unit_ok in H. destruct H as [_ H].
    apply after_each_row_inv in H. destruct H as [-> _]. reflexivity.
  - unfold update_order_items. intros H.
    apply bind_ok in H. destruct H as (out & Hout & H).
    apply bind_unit_ok in H. destruct H as [_ H].
    apply bind_unit_ok in H. destruct H as [_ H].
    apply after_each_row_inv in H. destruct H as [-> _].
    apply update_order_items_rows_inv in Hout. destruct Hout as (-> & _).
    reflexivity.
  - unfold delete_order_items. intros H.
    apply after_each_row_inv in H. destruct H as [-> _]. reflexivity.
Qed.

Lemma update_order_items_rows_each ses target set rows out :
  update_order_items_rows ses target set rows = Ok out ->
  Forall2 (fun r r' =>
             if has_id target r
             then r' = stamped ses set r /\ OrderItems.constraints r' = Ok tt
             else r' = r) rows (fst out).
Proof.
  revert out. induction rows as [| r rows IH]; cbn [update_order_items_rows];
    intros out H.
  - injection H as <-. constructor.
  - destruct (has_id target r) eqn:Hid.
    + apply bind_unit_ok in H. destruct H as [Hc H].
      apply bind_ok in H. destruct H as (out' & Hout & H).
      injection H as <-. cbn [fst]. constructor; [| apply IH, Hout].
      rewrite Hid. split; [reflexivity | exact Hc].
    + apply bind_ok in H. destruct H as (out' & Hout & H).
      injection H as <-. cbn [fst]. constructor; [| apply IH, Hout].
      rewrite Hid. reflexivity.
Qed.

(** X1: an [UPDATE] on [app.order_items] keeps the number and the order
    of the rows; a row that [WHERE id = target] does not match is as
    before; a matched row is what the SET clause makes of it, except
    that [updated_at] is the timestamp of the statement whatever the SET
    clause assigns to it. *)
Theorem update_stamps_matched_rows ses target set db db' :
  update_order_items ses target set db = Ok db' ->
  Forall2 (fun r r' =>
             if has_id target r
             then r' = set_updated_at (set r) (Some (CURRENT_TIMESTAMP ses)) /\
                  OrderItems.updated_at r' = Some (CURRENT_TIMESTAMP ses) /\
                  OrderItems.constraints r' = Ok tt
             else r' = r)
          (order_items db) (order_items db').
Proof.
  unfold update_order_items. intros H.
  apply bind_ok in H. destruct H as (out & Hout & H).
  apply bind_unit_ok in H. destruct H as [_ H].
  apply bind_unit_ok in H. destruct H as [_ H].
  apply after_each_row_inv in H. destruct H as [-> _]. cbn [order_items].
  apply update_order_items_rows_each in Hout.
  eapply Forall2_impl; [| exact Hout]. intros r r'; cbn beta.
  destruct (has_id target r); [| auto].
  intros [-> Hc]. split; [reflexivity |]. split; [reflexivity | exact Hc].
Qed.

Lemma update_order_items_rows_no_match ses target set rows :
  (forall r, In r rows -> has_id target r = false) ->
  update_order_items_rows ses target set rows = Ok (rows, []).
Proof.
  induction rows as [| r rows IH]; cbn [update_order_items_rows]; intros H.
  - reflexivity.
  - rewrite (H r (or_introl eq_refl)).
    rewrite IH by (intros x Hx; apply H; right; exact Hx). reflexivity.
Qed.

Lemma filter_none {A} (p : A -> bool) l :
  (forall x, In x l -> p x = false) -> filter p l = [].
Proof.
  induction l as [| a l IH]; cbn [filter]; intros H; [reflexivity |].
  rewrite (H a (or_introl eq_refl)). apply IH.
  intros x Hx. apply H. right. exact Hx.
Qed.

(** X2: an [UPDATE] or a [DELETE] on [app.order_items] whose [id] no row
    has succeeds, fires no trigger and leaves both tables as they are. *)
Theorem missing_id_changes_nothing ses target db :
  (forall r, In r (order_items db) -> has_id target r = false) ->
  order_items_unique (order_items db) = Ok tt ->
  (forall set, update_order_items ses target set db = Ok db) /\
  delete_order_items ses target db = Ok db.
Proof.
  intros Hnone Hunique. split.
  - intros set. unfold update_order_items.
    rewrite update_order_items_rows_no_match by exact Hnone.
    cbn [bind fst snd]. rewrite Hunique. cbn [bind].
    destruct db; reflexivity.
  - unfold delete_order_items. rewrite (filter_none _ _ Hnone).
    rewrite filter_all
      by (intros r Hr; rewrite (Hnone r Hr); reflexivity).
    destruct db; reflexivity.
Qed.

(** ** Orders written by the trigger function *)

Lemma update_orders_total_valid ses target total rows rows' :
  Forall (fun o => Orders.constraints o = Ok tt) rows ->
  update_orders_total ses target total rows = Ok rows' ->
  Forall (fun o => Orders.constraints o = Ok tt) rows'.
Proof.
  intros Hvalid. revert rows'.
  induction Hvalid as [| o rows Ho _ IH]; cbn [update_orders_total];
    intros rows' H.
  - injection H as <-. constructor.
  - apply bind_ok in H. destruct H as (o' & Ho' & H).
    apply bind_ok in H. destruct H as (rest' & Hrest & H).
    injection H as <-. constructor; [| apply IH, Hrest].
    destruct (Sql.is_true _).
    + apply bind_ok in Ho'. destruct Ho' as (v & _ & Ho').
      apply bind_unit_ok in Ho'. destruct Ho' as [Hc Ho'].
      injection Ho' as <-. exact Hc.
    + injection Ho' as <-. exact Ho.
Qed.

Lemma after_each_row_valid ses events db db' :
  orders_valid db ->
  after_each_row ses events db = Ok db' ->
  orders_valid db'.
Proof.
  revert db. induction events as [| [NEW OLD] events IH];
    cbn [after_each_row]; intros db Hvalid H.
  - injection H as <-. exact Hvalid.
  - apply bind_ok in H. destruct H as (db1 & H1 & H).
    apply (IH db1); [| exact H].
    unfold update_order_total in H1.
    apply bind_ok in H1. destruct H1 as (rows' & Hrows & H1).
    injection H1 as <-. unfold orders_valid. cbn [orders].
    eapply update_orders_total_valid; eassumption.
Qed.

Lemma unique_ok {K} constraint (eqb : K -> K -> bool) keys :
  unique constraint eqb keys = Ok tt <-> distinct eqb keys = true.
Proof.
  unfold unique. destruct (distinct eqb keys); split; congruence.
Qed.

(** ** When the trigger function raises *)

Lemma item_total_price_nonneg r :
  OrderItems.constraints r = Ok tt ->
  exists x, OrderItems.total_price r = Some x /\ 0 <= x.
Proof.
  unfold OrderItems.constraints, OrderItems.not_nulls, OrderItems.checks.
  intros H. ok_inv_all.
  match goal with
  | H : not_null "total_price" _ = Ok tt |- _ =>
      apply not_null_ok in H; destruct H as [x Hx]
  end.
  match goal with
  | H : check "order_items_total_price_check" _ = Ok tt |- _ =>
      apply check_ok in H; rewrite Hx in H; cbn in H
  end.
  exists x. split; [exact Hx |].
  destruct (Z.geb_spec x 0); [lia | congruence].
Qed.

Lemma total_price_sum_nonneg rows :
  Forall (fun r => OrderItems.constraints r = Ok tt) rows ->
  0 <= total_price_sum rows.
Proof.
  induction 1 as [| r rows Hr _ IH]; cbn [total_price_sum fold_right]; [lia |].
  fold (total_price_sum rows).
  destruct (item_total_price_nonneg r Hr) as (x & -> & Hx). lia.
Qed.

Lemma Forall_filter {A} (P : A -> Prop) (p : A -> bool) l :
  Forall P l -> Forall P (filter p l).
Proof.
  induction 1 as [| a l Ha _ IH]; cbn [filter]; [constructor |].
  destruct (p a); [constructor |]; auto.
Qed.

Lemma items_total_nonneg db order :
  items_valid db -> 0 <= items_total db order.
Proof.
  intros H. apply total_price_sum_nonneg. apply Forall_filter. exact H.
Qed.

Lemma calculate_order_total_overflow items order :
  10 ^ 12 <= total_price_sum (items_of items order) ->
  calculate_order_total items order
  = Raise (numeric_value_out_of_range "v_total").
Proof.
  intros H. unfold calculate_order_total. rewrite sum_total_price.
  unfold numeric.
  destruct (Z.ltb_spec (Z.abs (total_price_sum (items_of items order)))
                       (10 ^ 12)); [lia | reflexivity].
Qed.

Lemma update_orders_total_raises ses target e rows :
  update_orders_total ses target (Raise e) rows
  = if existsb (targets target) rows then Raise e else Ok rows.
Proof.
  induction rows as [| o rows IH]; cbn [update_orders_total existsb];
    [reflexivity |].
  unfold targets at 1. destruct (Sql.is_true _); cbn [bind orb];
    [reflexivity |].
  rewrite IH. destruct (existsb _ rows); reflexivity.
Qed.

Lemma update_order_total_outcome ses NEW OLD db :
  orders_valid db ->
  items_valid db ->
  (items_total db (trigger_target NEW OLD) < 10 ^ 12 /\
   exists db', update_order_total ses NEW OLD db = Ok db') \/
  (10 ^ 12 <= items_total db (trigger_target NEW OLD) /\
   update_order_total ses NEW OLD db
   = if existsb (targets (trigger_target NEW OLD)) (orders db)
     then Raise (numeric_value_out_of_range "v_total")
     else Ok db).
Proof.
  intros Horders Hitems.
  assert (Hnonneg := items_total_nonneg db (trigger_target NEW OLD) Hitems).
  destruct (Z.lt_ge_cases (items_total db (trigger_target NEW OLD)) (10 ^ 12))
    as [Hfits | Hover]; [left | right]; (split; [assumption |]).
  - rewrite update_order_total_succeeds by (auto; lia). eauto.
  - unfold update_order_total. fold (trigger_target NEW OLD).
    rewrite calculate_order_total_overflow by exact Hover.
    rewrite update_orders_total_raises.
    destruct (existsb _ (orders db)); cbn [bind]; [reflexivity |].
    destruct db; reflexivity.
Qed.

(** X6: on valid rows the trigger function raises in one case only: an
    order is its target and the sum over that order's items has more than
    twelve digits, so that it does not fit [v_total NUMERIC(12, 2)]; and
    in that case it does raise. *)
Theorem trigger_raises_on_overflow_only ses NEW OLD db e :
  orders_valid db ->
  items_valid db ->
  update_order_total ses NEW OLD db = Raise e <->
  e = numeric_value_out_of_range "v_total" /\
  10 ^ 12 <= items_total db (trigger_target NEW OLD) /\
  existsb (targets (trigger_target NEW OLD)) (orders db) = true.
Proof.
  intros Horders Hitems.
  destruct (update_order_total_outcome ses NEW OLD db Horders Hitems)
    as [[Hfits (db' & ->)] | [Hover ->]].
  - split; [discriminate | intros (_ & Hge & _); lia].
  - destruct (existsb _ (orders db)).
    + split; [intros [= <-]; auto | intros (-> & _); reflexivity].
    + split; [discriminate | intros (_ & _ & Hf); discriminate].
Qed.

Lemma update_order_total_ids ses NEW OLD db db' :
  update_order_total ses NEW OLD db = Ok db' ->
  map Orders.id (orders db') = map Orders.id (orders db).
Proof.
  intros H. apply update_order_total_inv in H. destruct H as [_ H].
  induction H as [| o o' rows rows' Ho _ IH]; [reflexivity |].
  cbn [map]. rewrite IH. destruct (targets _ o); subst o'; reflexivity.
Qed.

Lemma trigger_target_reaches db target :
  existsb (targets target) (orders db) = true ->
  In target (map Orders.id (orders db)).
Proof.
  intros H. apply existsb_exists in H. destruct H as (o & Ho & Ht).
  apply targets_true in Ht. destruct Ht as (x & Hx & ->).
  rewrite <- Hx. apply in_map. exact Ho.
Qed.

(** The triggers of a statement succeed when the sum over the items of
    every stored order fits. *)
Lemma after_each_row_succeeds ses events db :
  orders_valid db ->
  items_valid db ->
  (forall i, In i (map Orders.id (orders db)) -> items_total db i < 10 ^ 12) ->
  exists db', after_each_row ses events db = Ok db'.
Proof.
  revert db. induction events as [| [NEW OLD] events IH];
    cbn [after_each_row]; intros db Horders Hitems Hfits; [eauto |].
  destruct (update_order_total ses NEW OLD db) as [db1 | e] eqn:H1.
  - cbn [bind]. apply IH.
    + apply (after_each_row_valid ses [(NEW, OLD)] db db1 Horders).
      cbn [after_each_row]. rewrite H1. reflexivity.
    + apply update_order_total_inv in H1. destruct H1 as [H1 _].
      unfold items_valid. rewrite H1. exact Hitems.
    + intros i Hi. rewrite (update_order_total_ids _ _ _ _ _ H1) in Hi.
      apply update_order_total_inv in H1. destruct H1 as [H1 _].
      unfold items_total. rewrite H1. apply Hfits. exact Hi.
  - exfalso.
    destruct (update_order_total_outcome ses NEW OLD db Horders Hitems)
      as [[_ (db1 & Hok)] | [Hover Hr]]; [congruence |].
    rewrite Hr in H1.
    destruct (existsb _ (orders db)) eqn:Hreach; [| discriminate].
    apply trigger_target_reaches in Hreach. apply Hfits in Hreach. lia.
Qed.

Lemma order_total_amount_range o :
  Orders.constraints o = Ok tt ->
  exists t, Orders.total_amount o = Some t /\ 0 <= t < 10 ^ 12.
Proof.
  unfold Orders.constraints, Orders.column_types, Orders.not_nulls,
    Orders.checks.
  intros H. ok_inv_all.
  match goal with
  | H : not_null "total_amount" _ = Ok tt |- _ =>
      apply not_null_ok in H; destruct H as [t Ht]
  end.
  match goal with
  | H : check "orders_total_amount_check" _ = Ok tt |- _ =>
      apply check_ok in H; rewrite Ht in H; cbn in H
  end.
  match goal with
  | H : numeric 12 "total_amount" _ = Ok tt |- _ =>
      rewrite Ht in H; unfold numeric in H
  end.
  exists t. split; [exact Ht |].
  destruct (Z.geb_spec t 0); [| congruence].
  destruct (Z.ltb_spec (Z.abs t) (10 ^ 12)); [lia | discriminate].
Qed.

Lemma total_price_sum_filter_le (p : OrderItems.row -> bool) rows :
  Forall (fun r => OrderItems.constraints r = Ok tt) rows ->
  total_price_sum (filter p rows) <= total_price_sum rows.
Proof.
  induction 1 as [| r rows Hr _ IH]; cbn [filter]; [lia |].
  destruct (item_total_price_nonneg r Hr) as (x & Hx & Hge).
  destruct (p r); cbn [total_price_sum fold_right];
    fold (total_price_sum rows); fold (total_price_sum (filter p rows));
    rewrite Hx; lia.
Qed.

(** X7: on a database whose rows are valid and whose totals match the
    sums, a [DELETE] on [app.order_items] never fails: the sums it leaves
    are not above the stored totals, which fit the column. *)
Theorem delete_never_fails ses target db :
  orders_valid db ->
  items_valid db ->
  totals_consistent db ->
  exists db', delete_order_items ses target db = Ok db'.
Proof.
  intros Horders Hitems Htotals. unfold delete_order_items.
  apply after_each_row_succeeds.
  - exact Horders.
  - apply Forall_filter. exact Hitems.
  - cbn [orders]. intros i Hi.
    apply in_map_iff in Hi. destruct Hi as (o & <- & Ho).
    unfold orders_valid, totals_consistent in *.
    rewrite Forall_forall in Horders, Htotals.
    destruct (order_total_amount_range o (Horders o Ho)) as (t & Ht & Hrange).
    specialize (Htotals o Ho). unfold total_matches in Htotals.
    rewrite Ht in Htotals. injection Htotals as Htotals.
    unfold items_total in *. cbn [order_items]. rewrite items_of_filter.
    assert (Hle := total_price_sum_filter_le
                     (fun r => negb (has_id target r))
                     (items_of (order_items db) (Orders.id o))
                     (Forall_filter _ _ _ Hitems)).
    lia.
Qed.

Lemma references_orders_reaches rows r x :
  OrderItems.order_id r = Some x ->
  references_orders rows r = Ok tt <->
  existsb (targets (Some x)) rows = true.
Proof.
  intros Hx. unfold references_orders. rewrite Hx.
  change (existsb (fun o => Sql.is_true (Sql.eq_z (Orders.id o) (Some x))) rows)
    with (existsb (targets (Some x)) rows).
  destruct (existsb _ rows); split; congruence.
Qed.

(** ** How a statement moves the total *)

Lemma Forall2_with_Forall {A} (P : A -> Prop) (R : A -> A -> Prop) l l' :
  Forall P l -> Forall2 R l l' -> Forall2 (fun a b => P a /\ R a b) l l'.
Proof.
  intros HP H. induction H; inversion HP; subst; constructor; auto.
Qed.

Lemma total_price_sum_cons r rows :
  total_price_sum (r :: rows)
  = match OrderItems.total_price r with
    | Some x => x + total_price_sum rows
    | None => total_price_sum rows
    end.
Proof. reflexivity. Qed.

Lemma total_price_sum_app l1 l2 :
  total_price_sum (l1 ++ l2) = total_price_sum l1 + total_price_sum l2.
Proof.
  induction l1 as [| r l1 IH]; [reflexivity |].
  cbn [app]. rewrite !total_price_sum_cons, IH.
  destruct (OrderItems.total_price r); lia.
Qed.

Lemma total_price_sum_split (p : OrderItems.row -> bool) rows :
  total_price_sum rows
  = total_price_sum (filter p rows)
    + total_price_sum (filter (fun r => negb (p r)) rows).
Proof.
  induction rows as [| r rows IH]; [reflexivity |].
  cbn [filter]. destruct (p r); cbn [negb];
    rewrite !total_price_sum_cons, IH;
    destruct (OrderItems.total_price r); lia.
Qed.

(** X9: on a database whose totals match the sums, an accepted [INSERT]
    raises the [total_amount] of the order of the new item by the item's
    [total_price], and a [DELETE] lowers the [total_amount] of every
    order by the [total_price] of the rows it loses; both set the order's
    [updated_at] to the time of the statement.  Orders that are not
    concerned are as before. *)
Theorem statements_move_total_by_price :
  (forall ses v db db',
      totals_consistent db ->
      insert_order_items ses v db = Ok db' ->
      exists p,
        OrderItems.total_price (OrderItemsValues.tuple ses v) = Some p /\
        Forall2 (fun o o' =>
                   if targets (OrderItems.order_id
                                 (OrderItemsValues.tuple ses v)) o
                   then exists t,
                       Orders.total_amount o = Some t /\
                       o' = written ses (Some (t + p)) o /\
                       Orders.total_amount o' = Some (t + p) /\
                       Orders.updated_at o' = Some (CURRENT_TIMESTAMP ses)
                   else o' = o) (orders db) (orders db')) /\
  (forall ses target db db',
      totals_consistent db ->
      delete_order_items ses target db = Ok db' ->
      Forall2 (fun o o' =>
                 if reached (events_of ses (DELETE_FROM_order_items target) db) o
                 then exists t,
                     Orders.total_amount o = Some t /\
                     o' = written ses
                            (Some (t - total_price_sum
                                         (filter (has_id target)
                                            (items_of (order_items db)
                                                      (Orders.id o))))) o /\
                     Orders.total_amount o'
                     = Some (t - total_price_sum
                                   (filter (has_id target)
                                      (items_of (order_items db)
                                                (Orders.id o)))) /\
                     Orders.updated_at o' = Some (CURRENT_TIMESTAMP ses)
                 else o' = o) (orders db) (orders db')).
Proof.
  split.
  - intros ses v db db' Htotals H.
    assert (Hitems := statement_items ses (INSERT_INTO_order_items v) db db' H).
    assert (Hrows := execute_orders ses (INSERT_INTO_order_items v) db db' H).
    cbn [events_of] in Hrows. cbn beta iota in Hitems.
    assert (Hc : OrderItems.constraints (OrderItemsValues.tuple ses v) = Ok tt).
    { unfold insert_order_items in H. apply bind_unit_ok in H. tauto. }
    revert Hitems Hrows Hc. generalize (OrderItemsValues.tuple ses v).
    intros NEW Hitems Hrows Hc.
    destruct (item_total_price_nonneg NEW Hc) as (p & Hp & _).
    exists p. split; [exact Hp |].
    apply (Forall2_with_Forall _ _ _ _ Htotals) in Hrows.
    eapply Forall2_impl; [| exact Hrows]. intros o o'; cbn beta.
    intros [Hmatch Ho']. unfold reached in Ho'. cbn [existsb fst snd] in Ho'.
    rewrite coalesce_null, orb_false_r in Ho'. cbn [field] in Ho'.
    destruct (targets (OrderItems.order_id NEW) o) eqn:Ht; [| exact Ho'].
    exists (items_total db (Orders.id o)). split; [exact Hmatch |].
    assert (Heq : o' = written ses (Some (items_total db (Orders.id o) + p)) o).
    { rewrite Ho'. do 2 f_equal.
      unfold items_total, items_of. rewrite Hitems, filter_app.
      rewrite total_price_sum_app. cbn [filter].
      unfold targets in Ht. rewrite eq_z_sym in Ht. rewrite Ht.
      rewrite total_price_sum_cons, Hp. cbn [total_price_sum fold_right].
      lia. }
    rewrite Heq. split; [reflexivity |].
    split; apply written_columns.
  - intros ses target db db' Htotals H.
    assert (Hitems := statement_items ses (DELETE_FROM_order_items target)
                        db db' H).
    assert (Hrows := execute_orders ses (DELETE_FROM_order_items target)
                       db db' H).
    cbn beta iota in Hitems.
    apply (Forall2_with_Forall _ _ _ _ Htotals) in Hrows.
    eapply Forall2_impl; [| exact Hrows]. intros o o'; cbn beta.
    intros [Hmatch Ho'].
    destruct (reached _ o); [| exact Ho'].
    exists (items_total db (Orders.id o)). split; [exact Hmatch |].
    assert (Heq : o' = written ses
                         (Some (items_total db (Orders.id o)
                                - total_price_sum
                                    (filter (has_id target)
                                       (items_of (order_items db)
                                                 (Orders.id o))))) o).
    { rewrite Ho'. do 2 f_equal.
      unfold items_total. rewrite Hitems, items_of_filter.
      rewrite (total_price_sum_split (has_id target)
                 (items_of (order_items db) (Orders.id o))).
      lia. }
    rewrite Heq. split; [reflexivity |].
    split; apply written_columns.
Qed.

(** ** The order of the rows *)

Lemma total_price_sum_permutation rows rows' :
  Permutation rows rows' -> total_price_sum rows = total_price_sum rows'.
Proof.
  induction 1 as [| r l l' _ IH | a b l | l1 l2 l3 _ IH1 _ IH2].
  - reflexivity.
  - rewrite !total_price_sum_cons, IH. reflexivity.
  - rewrite !total_price_sum_cons.
    destruct (OrderItems.total_price a), (OrderItems.total_price b); lia.
  - congruence.
Qed.

Lemma filter_permutation {A} (p : A -> bool) l l' :
  Permutation l l' -> Permutation (filter p l) (filter p l').
Proof.
  induction 1 as [| a l l' _ IH | a b l | l1 l2 l3 _ IH1 _ IH2];
    cbn [filter].
  - constructor.
  - destruct (p a); [constructor |]; exact IH.
  - destruct (p a), (p b); try reflexivity. constructor.
  - eapply perm_trans; eassumption.
Qed.

(** X10: the total does not depend on the order in which
    [app.order_items] holds its rows: [calculate_order_total] gives the
    same result, value or error, on every arrangement of the same rows,
    and so the trigger function writes the same orders. *)
Theorem total_independent_of_row_order ses NEW OLD db items' order :
  Permutation (order_items db) items' ->
  calculate_order_total (order_items db) order
  = calculate_order_total items' order /\
  (let? d := update_order_total ses NEW OLD db in Ok (orders d))
  = (let? d := update_order_total ses NEW OLD
                 {| orders := orders db; order_items := items' |} in
     Ok (orders d)).
Proof.
  intros Hperm.
  assert (Hcalc : forall o, calculate_order_total (order_items db) o
                            = calculate_order_total items' o).
  { intros o. unfold calculate_order_total. rewrite !sum_total_price.
    unfold items_of.
    rewrite (total_price_sum_permutation _ _
               (filter_permutation _ _ _ Hperm)).
    reflexivity. }
  split; [apply Hcalc |].
  unfold update_order_total. cbn [orders order_items]. rewrite Hcalc.
  destruct (update_orders_total _ _ _ _); reflexivity.
Qed.

(** ** [INSERT INTO app.orders] *)


Lemma distinct_last (keys : list (option Z)) k :
  distinct Z.eqb (keys ++ [Some k]) = true -> ~ In (Some k) keys.
Proof.
  induction keys as [| [k' |] keys IH]; cbn [app distinct]; intros H.
  - intros [].
  - apply andb_prop in H. destruct H as [Hk' Hrest].
    intros [Heq | Hin]; [| exact (IH Hrest Hin)].
    injection Heq as ->. apply negb_true_iff in Hk'.
    rewrite existsb_app in Hk'. cbn [existsb] in Hk'.
    rewrite Z.eqb_refl in Hk'. cbn [orb] in Hk'.
    rewrite orb_true_r in Hk'. discriminate.
  - intros [Heq | Hin]; [discriminate | exact (IH H Hin)].
Qed.

Lemma insert_orders_ok ses v db db' :
  insert_orders ses v db = Some (Ok db') ->
  exists NEW,
    orders db' = orders db ++ [NEW] /\
    order_items db' = order_items db /\
    Orders.constraints NEW = Ok tt /\
    orders_unique (orders db ++ [NEW]) = Ok tt /\
    Orders.total_amount NEW = or_default (OrdersValues.total_amount v) None.
Proof.
  unfold insert_orders.
  destruct (Orders.column_types (given_values ses v)); [| discriminate].
  destruct (order_number_value ses v db) as [number |]; [| discriminate].
  intros [= H]. apply bind_ok in H. destruct H as (n & _ & H).
  apply bind_unit_ok in H. destruct H as [Hc H].
  apply bind_unit_ok in H. destruct H as [Hu H].
  injection H as <-. exists (OrdersValues.tuple ses v n). auto.
Qed.

Lemma order_id_not_null o :
  Orders.constraints o = Ok tt -> exists x, Orders.id o = Some x.
Proof.
  unfold Orders.constraints, Orders.not_nulls. intros H. ok_inv_all.
  match goal with
  | H : not_null "id" _ = Ok tt |- _ => apply not_null_ok in H; exact H
  end.
Qed.

(** X12: an accepted [INSERT] into [app.orders] appends one order and
    touches nothing else.  Under the foreign key no item references the
    new order, so the sum over its items is 0; no trigger sets its
    [total_amount], which is the value of the statement: the totals
    match the sums after the [INSERT] exactly when they did before and
    that value is 0. *)
Theorem new_order_has_no_items ses v db db' :
  references_valid db ->
  insert_orders ses v db = Some (Ok db') ->
  exists NEW,
    orders db' = orders db ++ [NEW] /\
    order_items db' = order_items db /\
    Orders.total_amount NEW = or_default (OrdersValues.total_amount v) None /\
    items_total db' (Orders.id NEW) = 0 /\
    (totals_consistent db' <->
     totals_consistent db /\ Orders.total_amount NEW = Some 0).
Proof.
  intros Href H. apply insert_orders_ok in H.
  destruct H as (NEW & Horders & Hitems & Hc & Hu & Htotal).
  exists NEW. repeat (split; [assumption |]).
  assert (Hzero : items_total db' (Orders.id NEW) = 0).
  { destruct (order_id_not_null NEW Hc) as (x & Hx).
    unfold orders_unique in Hu. apply bind_unit_ok in Hu.
    destruct Hu as [Hu _]. apply unique_ok in Hu.
    rewrite map_app in Hu. cbn [map] in Hu. rewrite Hx in Hu.
    apply distinct_last in Hu.
    unfold items_total. rewrite Hitems, Hx.
    replace (items_of (order_items db) (Some x)) with (@nil OrderItems.row);
      [reflexivity |].
    symmetry. apply filter_none. intros r Hr.
    unfold references_valid in Href. rewrite Forall_forall in Href.
    specialize (Href r Hr).
    destruct (OrderItems.order_id r) as [y |] eqn:Hy; [| reflexivity].
    apply (references_orders_reaches _ _ y Hy) in Href.
    apply existsb_exists in Href. destruct Href as (o & Ho & Ht).
    apply targets_true in Ht. destruct Ht as (z & Hz & Hyz).
    cbn. destruct (Z.eqb_spec y x) as [Hyx |]; [| reflexivity].
    exfalso. apply Hu.
    assert (Hin : In (Orders.id o) (map Orders.id (orders db)))
      by (apply (in_map Orders.id); exact Ho).
    rewrite Hz in Hin. replace z with x in Hin by congruence. exact Hin. }
  split; [exact Hzero |].
  assert (Hsame : forall o, total_matches db' o <-> total_matches db o)
    by (intros o; unfold total_matches, items_total; rewrite Hitems; tauto).
  unfold totals_consistent. rewrite Horders, Forall_app.
  split.
  - intros [Hold Hnew]. split.
    + eapply Forall_impl; [| exact Hold]. intros o. apply Hsame.
    + inversion Hnew as [| ? ? Hm _]; subst. unfold total_matches in Hm.
      rewrite Hzero in Hm. exact Hm.
  - intros [Hold Hnew]. split.
    + eapply Forall_impl; [| exact Hold]. intros o. apply Hsame.
    + constructor; [| constructor]. unfold total_matches.
      rewrite Hzero. exact Hnew.
Qed.

(** ** [get_order_count_by_status] *)

Lemma count_by_status_cons o rows p :
  get_order_count_by_status (o :: rows) p
  = (if Sql.is_true (Sql.lift2 order_status_eqb (Orders.status o) p)
     then 1 else 0) + get_order_count_by_status rows p.
Proof.
  unfold get_order_count_by_status. cbn [filter].
  destruct (Sql.is_true _); cbn [List.length]; lia.
Qed.

(** X13: the counts of [get_order_count_by_status] over the seven
    statuses add up to the number of stored orders, the count for a NULL
    status is 0, and no statement on [app.order_items] changes a count. *)
Theorem order_counts_partition :
  (forall db,
      orders_valid db ->
      fold_right Z.add 0
        (map (fun s => get_order_count_by_status (orders db) (Some s))
             all_statuses)
      = Z.of_nat (List.length (orders db))) /\
  (forall rows, get_order_count_by_status rows None = 0) /\
  (forall ses s db db' p,
      execute ses s db = Ok db' ->
      get_order_count_by_status (orders db') p
      = get_order_count_by_status (orders db) p).
Proof.
  split; [| split].
  - intros db Hvalid. unfold orders_valid in Hvalid.
    induction Hvalid as [| o rows Ho _ IH]; [reflexivity |].
    cbn [all_statuses map fold_right] in *.
    rewrite !count_by_status_cons. cbn [List.length].
    rewrite Nat2Z.inj_succ, <- IH.
    assert (Hs : exists s, Orders.status o = Some s).
    { unfold Orders.constraints, Orders.not_nulls in Ho. ok_inv_all.
      match goal with
      | H : not_null "status" _ = Ok tt |- _ =>
          apply not_null_ok in H; exact H
      end. }
    destruct Hs as (s & ->).
    destruct s; cbn [Sql.is_true Sql.lift2 order_status_eqb]; lia.
  - intros rows. unfold get_order_count_by_status.
    rewrite filter_none; [reflexivity |].
    intros r _. destruct (Orders.status r); reflexivity.
  - intros ses s db db' p H. apply execute_orders in H.
    induction H as [| o o' rows rows' Ho _ IH]; [reflexivity |].
    rewrite !count_by_status_cons, IH.
    destruct (reached _ o); subst o'; reflexivity.
Qed.

(** ** The pattern of [valid_email] *)

Lemma all_chars_impl (p q : ascii -> bool) s :
  (forall a, p a = true -> q a = true) ->
  EmailPattern.all_chars p s = true -> EmailPattern.all_chars q s = true.
Proof.
  intros Hpq. induction s as [| a s IH]; cbn [EmailPattern.all_chars];
    [reflexivity |].
  intros H. apply andb_prop in H. destruct H as [Ha Hs].
  rewrite (Hpq a Ha), (IH Hs). reflexivity.
Qed.

Lemma split_first_spec c s l r :
  EmailPattern.split_first c s = Some (l, r) <->
  s = append l (String c r) /\ EmailPattern.all_chars (is_not c) l = true.
Proof.
  split.
  - revert l. induction s as [| a s IH]; cbn [EmailPattern.split_first];
      intros l H; [discriminate |].
    destruct (Ascii.eqb a c) eqn:Hac.
    + apply Ascii.eqb_eq in Hac. injection H as <- <-. subst a. auto.
    + destruct (EmailPattern.split_first c s) as [[l' r'] |]; [| discriminate].
      injection H as <- <-. destruct (IH l' eq_refl) as [-> Hl'].
      split; [reflexivity |]. cbn [EmailPattern.all_chars].
      unfold is_not at 1. rewrite Hac, Hl'. reflexivity.
  - intros [-> Hl]. induction l as [| a l IH];
      cbn [append EmailPattern.split_first].
    + rewrite Ascii.eqb_refl. reflexivity.
    + cbn [EmailPattern.all_chars] in Hl. apply andb_prop in Hl.
      destruct Hl as [Ha Hl]. unfold is_not in Ha.
      apply negb_true_iff in Ha. rewrite Ha, (IH Hl). reflexivity.
Qed.

Lemma split_last_none c s :
  EmailPattern.split_last c s = None <->
  EmailPattern.all_chars (is_not c) s = true.
Proof.
  induction s as [| a s IH];
    cbn [EmailPattern.split_last EmailPattern.all_chars]; [tauto |].
  unfold is_not at 1.
  destruct (EmailPattern.split_last c s) as [[l r] |].
  - split; [discriminate |]. intros H. apply andb_prop in H.
    destruct H as [_ H]. apply IH in H. discriminate.
  - destruct (Ascii.eqb a c); cbn [negb andb].
    + split; discriminate.
    + split; [intros _; apply IH; reflexivity | reflexivity].
Qed.

Lemma split_last_spec c s l r :
  EmailPattern.split_last c s = Some (l, r) <->
  s = append l (String c r) /\ EmailPattern.all_chars (is_not c) r = true.
Proof.
  split.
  - revert l. induction s as [| a s IH]; cbn [EmailPattern.split_last];
      intros l H; [discriminate |].
    destruct (EmailPattern.split_last c s) as [[l' r'] |] eqn:Hs.
    + injection H as <- <-. destruct (IH l' eq_refl) as [-> Hr].
      auto.
    + destruct (Ascii.eqb a c) eqn:Hac; [| discriminate].
      apply Ascii.eqb_eq in Hac. injection H as <- <-. subst a.
      split; [reflexivity | apply split_last_none; exact Hs].
  - intros [-> Hr]. induction l as [| a l IH];
      cbn [append EmailPattern.split_last].
    + rewrite (proj2 (split_last_none c r) Hr), Ascii.eqb_refl. reflexivity.
    + rewrite IH. reflexivity.
Qed.

Lemma local_char_not_at a :
  EmailPattern.local_char a = true -> is_not "@" a = true.
Proof.
  unfold is_not. destruct (Ascii.eqb_spec a "@"); [subst a | reflexivity].
  discriminate.
Qed.

Lemma alpha_not_dot a :
  EmailPattern.alpha a = true -> is_not "." a = true.
Proof.
  unfold is_not. destruct (Ascii.eqb_spec a "."); [subst a | reflexivity].
  discriminate.
Qed.

(** X14: [valid_email] accepts exactly the addresses
    [local @ domain . tld] whose local part is one or more characters of
    [A-Za-z0-9._%+-], whose domain is one or more characters of
    [A-Za-z0-9.-] and whose last label is two or more letters. *)
Theorem valid_email_language s :
  EmailPattern.matches s = true <->
  exists local domain tld,
    s = append local (String "@" (append domain (String "." tld))) /\
    (1 <= String.length local)%nat /\
    EmailPattern.all_chars EmailPattern.local_char local = true /\
    (1 <= String.length domain)%nat /\
    EmailPattern.all_chars EmailPattern.domain_char domain = true /\
    (2 <= String.length tld)%nat /\
    EmailPattern.all_chars EmailPattern.alpha tld = true.
Proof.
  unfold EmailPattern.matches. split.
  - destruct (EmailPattern.split_first "@" s) as [[local rest] |] eqn:Hfirst;
      [| discriminate].
    apply split_first_spec in Hfirst. destruct Hfirst as [-> _].
    destruct (EmailPattern.split_last "." rest) as [[domain tld] |] eqn:Hlast;
      [| rewrite andb_false_r; discriminate].
    apply split_last_spec in Hlast. destruct Hlast as [-> _].
    intros H.
    repeat match goal with
           | H : _ && _ = true |- _ => apply andb_prop in H; destruct H
           end.
    repeat match goal with
           | H : (_ <=? _)%nat = true |- _ => apply Nat.leb_le in H
           end.
    exists local, domain, tld. repeat split; assumption.
  - intros (local & domain & tld & -> & Hl1 & Hl2 & Hd1 & Hd2 & Ht1 & Ht2).
    rewrite (proj2 (split_first_spec "@" _ local
                      (append domain (String "." tld))))
      by (split; [reflexivity
                 | exact (all_chars_impl _ _ _ local_char_not_at Hl2)]).
    rewrite (proj2 (split_last_spec "." _ domain tld))
      by (split; [reflexivity
                 | exact (all_chars_impl _ _ _ alpha_not_dot Ht2)]).
    apply Nat.leb_le in Hl1, Hd1, Ht1.
    rewrite Hl1, Hl2, Hd1, Hd2, Ht1, Ht2. reflexivity.
Qed.

(** ** [ORDER BY] *)

Lemma order_insert_permutation {A} (before : A -> A -> bool) x l :
  Permutation (order_insert before x l) (x :: l).
Proof.
  induction l as [| y l IH]; cbn [order_insert]; [reflexivity |].
  destruct (before x y); [reflexivity |].
  eapply perm_trans; [apply perm_skip, IH | apply perm_swap].
Qed.

Lemma order_by_permutation {A} (before : A -> A -> bool) l :
  Permutation (order_by before l) l.
Proof.
  induction l as [| x l IH]; cbn [order_by fold_right]; [constructor |].
  eapply perm_trans; [apply order_insert_permutation |].
  apply perm_skip, IH.
Qed.

Lemma order_insert_sorted {A} (before : A -> A -> bool) x l :
  (forall a b, before a b = true \/ before b a = true) ->
  Sorted (fun a b => before a b = true) l ->
  Sorted (fun a b => before a b = true) (order_insert before x l).
Proof.
  intros Htotal. induction l as [| y l IH]; cbn [order_insert]; intros Hs.
  - repeat constructor.
  - destruct (before x y) eqn:Hxy.
    + constructor; [exact Hs | constructor; exact Hxy].
    + inversion Hs as [| ? ? Hl Hhd]; subst.
      constructor; [apply IH, Hl |].
      destruct l as [| z l]; cbn [order_insert].
      * constructor. destruct (Htotal x y); congruence.
      * inversion Hhd; subst.
        destruct (before x z); constructor;
          [destruct (Htotal x y); congruence | assumption].
Qed.

Lemma order_by_sorted {A} (before : A -> A -> bool) l :
  (forall a b, before a b = true \/ before b a = true) ->
  Sorted (fun a b => before a b = true) (order_by before l).
Proof.
  intros Htotal. induction l as [| x l IH]; cbn [order_by fold_right].
  - constructor.
  - apply order_insert_sorted; assumption.
Qed.

Lemma Sorted_map {A B} (R : A -> A -> Prop) (R' : B -> B -> Prop)
  (f : A -> B) l :
  (forall a b, R a b -> R' (f a) (f b)) ->
  Sorted R l -> Sorted R' (map f l).
Proof.
  intros HR. induction 1 as [| a l _ IH Hhd]; cbn [map]; constructor.
  - exact IH.
  - destruct Hhd; cbn [map]; constructor. apply HR. assumption.
Qed.

Lemma desc_total a b : desc a b = true \/ desc b a = true.
Proof.
  destruct a as [x |], b as [y |]; cbn; auto.
  destruct (Z.leb_spec y x); [auto |]. right. apply Z.leb_le. lia.
Qed.

Lemma asc_total a b : asc a b = true \/ asc b a = true.
Proof.
  destruct a as [x |], b as [y |]; cbn; auto.
  destruct (Z.leb_spec x y); [auto |]. right. apply Z.leb_le. lia.
Qed.

(** ** [get_orders_by_date_range] *)

Lemma between_true x lo hi :
  Sql.is_true (between x lo hi) = true <->
  exists t l h, x = Some t /\ lo = Some l /\ hi = Some h /\ l <= t <= h.
Proof.
  unfold between, Sql.ge_z, Sql.lift2.
  destruct x as [t |], lo as [l |], hi as [h |]; cbn;
    try (split; [discriminate
                | intros (? & ? & ? & ? & ? & ? & ?); discriminate]).
  - destruct (Z.geb_spec t l), (Z.leb_spec t h); cbn;
      (split;
       [ try discriminate; intros _; exists t, l, h; repeat split; lia
       | intros (t' & l' & h' & [= <-] & [= <-] & [= <-] & Hr);
         try reflexivity; lia ]).
  - destruct (t >=? l); cbn; split; try discriminate;
      intros (? & ? & ? & ? & ? & ? & ?); discriminate.
  - destruct (t <=? h); cbn; split; try discriminate;
      intros (? & ? & ? & ? & ? & ? & ?); discriminate.
Qed.

(** X15: [get_orders_by_date_range] returns the stored orders whose
    [created_at] lies between the two dates, bounds included, each as
    often as it is stored and no other row, the latest first; it returns
    nothing when a date is NULL or the start is after the end. *)
Theorem orders_by_date_range_complete_and_sorted rows p_start p_end :
  Permutation
    (get_orders_by_date_range rows p_start p_end)
    (map OrdersByDateRange.select
       (filter (fun o => Sql.is_true (between (Orders.created_at o)
                                              p_start p_end)) rows)) /\
  Sorted (fun a b => desc (OrdersByDateRange.created_at a)
                          (OrdersByDateRange.created_at b) = true)
         (get_orders_by_date_range rows p_start p_end) /\
  (forall r,
      In r (get_orders_by_date_range rows p_start p_end) <->
      exists o t l h,
        In o rows /\ r = OrdersByDateRange.select o /\
        Orders.created_at o = Some t /\
        p_start = Some l /\ p_end = Some h /\ l <= t <= h) /\
  ((p_start = None \/ p_end = None \/
    exists l h, p_start = Some l /\ p_end = Some h /\ h < l) ->
   get_orders_by_date_range rows p_start p_end = []).
Proof.
  assert (Hperm : Permutation
            (get_orders_by_date_range rows p_start p_end)
            (map OrdersByDateRange.select
               (filter (fun o => Sql.is_true (between (Orders.created_at o)
                                                      p_start p_end)) rows)))
    by (apply Permutation_map, order_by_permutation).
  assert (Hin : forall r,
      In r (get_orders_by_date_range rows p_start p_end) <->
      exists o t l h,
        In o rows /\ r = OrdersByDateRange.select o /\
        Orders.created_at o = Some t /\
        p_start = Some l /\ p_end = Some h /\ l <= t <= h).
  { intros r. split.
    - intros Hr. apply (Permutation_in _ Hperm) in Hr.
      apply in_map_iff in Hr. destruct Hr as (o & <- & Ho).
      apply filter_In in Ho. destruct Ho as [Ho Hb].
      apply between_true in Hb. destruct Hb as (t & l & h & Ht & Hl & Hh & Hr).
      exists o, t, l, h. auto 10.
    - intros (o & t & l & h & Ho & -> & Ht & Hl & Hh & Hr).
      apply (Permutation_in _ (Permutation_sym Hperm)).
      apply in_map. apply filter_In. split; [exact Ho |].
      apply between_true. exists t, l, h. auto. }
  split; [exact Hperm |]. split; [| split; [exact Hin |]].
  - unfold get_orders_by_date_range.
    eapply Sorted_map;
      [| apply order_by_sorted; intros a b; apply desc_total].
    intros a b H. exact H.
  - intros Hempty.
    destruct (get_orders_by_date_range rows p_start p_end) as [| r l] eqn:Hr;
      [reflexivity |].
    exfalso.
    destruct (proj1 (Hin r) (or_introl eq_refl))
      as (o & t & lo & hi & _ & _ & _ & Hl & Hh & Hrange).
    destruct Hempty as [Hn | [Hn | (l' & h' & Hl' & Hh' & Hlt)]];
      try congruence.
    rewrite Hl in Hl'. rewrite Hh in Hh'.
    injection Hl' as <-. injection Hh' as <-. lia.
Qed.

(** ** The view [app.order_details] *)

Lemma sum_values_cons x xs :
  sum_values (x :: xs)
  = match x with Some v => v + sum_values xs | None => sum_values xs end.
Proof. reflexivity. Qed.

Lemma sum_values_coalesce xs :
  Sql.coalesce (Sql.sum xs) (Some 0) = Some (sum_values xs).
Proof.
  assert (H : match Sql.sum xs with
              | Some s => s = sum_values xs
              | None => sum_values xs = 0
              end).
  { induction xs as [| [x |] xs IH]; cbn [Sql.sum]; rewrite ?sum_values_cons;
      [reflexivity | | exact IH].
    destruct (Sql.sum xs); lia. }
  destruct (Sql.sum xs); cbn; congruence.
Qed.

Lemma sum_values_permutation xs ys :
  Permutation xs ys -> sum_values xs = sum_values ys.
Proof.
  induction 1 as [| x l l' _ IH | a b l | l1 l2 l3 _ IH1 _ IH2].
  - reflexivity.
  - rewrite !sum_values_cons, IH. reflexivity.
  - rewrite !sum_values_cons. destruct a, b; lia.
  - congruence.
Qed.

Lemma sum_values_total_price rows :
  sum_values (map OrderItems.total_price rows) = total_price_sum rows.
Proof.
  induction rows as [| r rows IH]; [reflexivity |].
  cbn [map]. rewrite sum_values_cons, total_price_sum_cons, IH. reflexivity.
Qed.

Lemma sum_values_app xs ys :
  sum_values (xs ++ ys) = sum_values xs + sum_values ys.
Proof.
  induction xs as [| x xs IH]; [reflexivity |].
  cbn [app]. rewrite !sum_values_cons, IH. destruct x; lia.
Qed.

Lemma joined_items items o :
  match OrderDetails.joined items o with
  | [] => False
  | _ => True
  end /\
  map (fun j => OrderDetails.item_total (detail j))
      (OrderDetails.joined items o)
  = match items_of items (Orders.id o) with
    | [] => [None]
    | matched => map OrderItems.total_price matched
    end /\
  Forall (fun j => fst j = o) (OrderDetails.joined items o).
Proof.
  unfold OrderDetails.joined, items_of.
  rewrite (filter_ext_in
             (fun oi => Sql.is_true (Sql.eq_z (Orders.id o)
                                              (OrderItems.order_id oi)))
             (fun r => Sql.is_true (Sql.eq_z (OrderItems.order_id r)
                                             (Orders.id o))))
    by (intros a _; rewrite eq_z_sym; reflexivity).
  destruct (filter _ items) as [| i matched]; cbn [map].
  - repeat split. repeat constructor.
  - split; [exact I |]. split.
    + cbn [detail OrderDetails.select OrderDetails.item_total fst snd field].
      f_equal. rewrite map_map. reflexivity.
    + constructor; [reflexivity |].
      apply Forall_forall. intros j Hj. apply in_map_iff in Hj.
      destruct Hj as (x & <- & _). reflexivity.
Qed.

Lemma joined_total items o order :
  sum_values
    (map OrderDetails.item_total
       (filter (of_order order) (map detail (OrderDetails.joined items o))))
  = if targets order o then total_price_sum (items_of items (Orders.id o))
    else 0.
Proof.
  destruct (joined_items items o) as (_ & Hsum & Hfst).
  assert (Hall : forall j, In j (OrderDetails.joined items o) ->
                           of_order order (detail j) = targets order o).
  { rewrite Forall_forall in Hfst. intros j Hj.
    unfold of_order, targets, detail. rewrite (Hfst j Hj). reflexivity. }
  destruct (targets order o).
  - rewrite filter_all
      by (intros d Hd; apply in_map_iff in Hd;
          destruct Hd as (j & <- & Hj); apply Hall, Hj).
    rewrite map_map, Hsum.
    destruct (items_of items (Orders.id o)) as [| i matched] eqn:Hm;
      [reflexivity |].
    apply sum_values_total_price.
  - rewrite filter_none; [reflexivity |].
    intros d Hd. apply in_map_iff in Hd.
    destruct Hd as (j & <- & Hj). apply Hall, Hj.
Qed.

Lemma join_total items rows order :
  sum_values
    (map OrderDetails.item_total
       (filter (of_order order)
          (map detail (flat_map (OrderDetails.joined items) rows))))
  = fold_right
      (fun o acc =>
         (if targets order o
          then total_price_sum (items_of items (Orders.id o)) else 0) + acc)
      0 rows.
Proof.
  induction rows as [| o rows IH]; [reflexivity |].
  cbn [flat_map fold_right]. rewrite map_app, filter_app, map_app.
  rewrite sum_values_app, joined_total, IH. reflexivity.
Qed.

Lemma no_target (f : Orders.row -> Z) (x : uuid) rows :
  existsb (fun k' => match k' with
                     | Some y => x =? y
                     | None => false
                     end) (map Orders.id rows) = false ->
  fold_right (fun o' acc => (if targets (Some x) o' then f o' else 0) + acc)
             0 rows = 0.
Proof.
  induction rows as [| a rows IH]; cbn [map existsb fold_right];
    [reflexivity |].
  intros H. apply orb_false_elim in H. destruct H as [Ha Hl].
  rewrite (IH Hl).
  destruct (targets (Some x) a) eqn:Ht; [| reflexivity].
  apply targets_true in Ht. destruct Ht as (y & Hy & Hxy).
  injection Hxy as Hxy. subst y.
  rewrite Hy in Ha. rewrite Z.eqb_refl in Ha. discriminate.
Qed.

(** Under the primary key one stored order is the target. *)
Lemma single_target (f : Orders.row -> Z) rows o (x : uuid) :
  distinct Z.eqb (map Orders.id rows) = true ->
  In o rows ->
  Orders.id o = Some x ->
  fold_right (fun o' acc => (if targets (Some x) o' then f o' else 0) + acc)
             0 rows = f o.
Proof.
  intros Hd Ho Hx. induction rows as [| o' rows IH]; [destruct Ho |].
  cbn [map distinct fold_right] in *.
  destruct Ho as [-> | Ho].
  - rewrite Hx in Hd. apply andb_prop in Hd. destruct Hd as [Hd _].
    apply negb_true_iff in Hd. rewrite (no_target f x rows Hd).
    assert (Ht : targets (Some x) o = true) by (apply targets_true; eauto).
    rewrite Ht. lia.
  - destruct (targets (Some x) o') eqn:Ht.
    + exfalso. apply targets_true in Ht. destruct Ht as (y & Hy & Hxy).
      injection Hxy as Hxy. subst y.
      rewrite Hy in Hd. apply andb_prop in Hd. destruct Hd as [Hd _].
      apply negb_true_iff in Hd.
      assert (Hex : existsb (fun k' => match k' with
                                       | Some y => x =? y
                                       | None => false
                                       end) (map Orders.id rows) = true).
      { apply existsb_exists. exists (Orders.id o).
        split; [apply (in_map Orders.id); exact Ho |].
        rewrite Hx. apply Z.eqb_refl. }
      congruence.
    + rewrite IH; [lia | | exact Ho].
      destruct (Orders.id o'); [| exact Hd].
      apply andb_prop in Hd. tauto.
Qed.

Lemma joined_in items o j :
  In j (OrderDetails.joined items o) <->
  fst j = o /\
  match snd j with
  | Some i =>
      In i items /\
      Sql.is_true (Sql.eq_z (Orders.id o) (OrderItems.order_id i)) = true
  | None => items_of items (Orders.id o) = []
  end.
Proof.
  unfold OrderDetails.joined, items_of.
  rewrite (filter_ext_in
             (fun r => Sql.is_true (Sql.eq_z (OrderItems.order_id r)
                                             (Orders.id o)))
             (fun oi => Sql.is_true (Sql.eq_z (Orders.id o)
                                              (OrderItems.order_id oi))))
    by (intros a _; rewrite eq_z_sym; reflexivity).
  destruct (filter _ items) as [| i matched] eqn:Hm.
  - split.
    + intros [<- | []]. cbn. auto.
    + destruct j as [o' [i |]]; cbn [fst snd]; intros [-> H].
      * exfalso.
        apply (proj2 (filter_In
                        (fun oi => Sql.is_true
                                     (Sql.eq_z (Orders.id o)
                                               (OrderItems.order_id oi)))
                        i items)) in H.
        rewrite Hm in H. exact H.
      * left. reflexivity.
  - rewrite <- Hm. split.
    + intros Hj. apply in_map_iff in Hj. destruct Hj as (x & <- & Hx).
      cbn [fst snd]. split; [reflexivity |].
      apply filter_In in Hx. exact Hx.
    + destruct j as [o' [x |]]; cbn [fst snd]; intros [-> H].
      * apply (in_map (fun oi => (o, Some oi))).
        apply (proj2 (filter_In
                        (fun oi => Sql.is_true
                                     (Sql.eq_z (Orders.id o)
                                               (OrderItems.order_id oi)))
                        x items)). exact H.
      * rewrite Hm in H. discriminate.
Qed.

Lemma before_total a b :
  OrderDetails.before a b = true \/ OrderDetails.before b a = true.
Proof.
  unfold OrderDetails.before.
  destruct (desc_total (Orders.created_at (fst a)) (Orders.created_at (fst b)))
    as [Hab | Hba];
    destruct (desc (Orders.created_at (fst a)) (Orders.created_at (fst b)))
      eqn:H1;
    destruct (desc (Orders.created_at (fst b)) (Orders.created_at (fst a)))
      eqn:H2; try discriminate; cbn; auto.
  - destruct (asc_total (field OrderItems.item_number (snd a))
                        (field OrderItems.item_number (snd b))); auto.
  - destruct (asc_total (field OrderItems.item_number (snd a))
                        (field OrderItems.item_number (snd b))); auto.
Qed.

Lemma joined_rows items o order :
  filter (of_order order) (map detail (OrderDetails.joined items o))
  = if targets order o then map detail (OrderDetails.joined items o) else [].
Proof.
  destruct (joined_items items o) as (_ & _ & Hfst).
  assert (Hall : forall j, In j (OrderDetails.joined items o) ->
                           of_order order (detail j) = targets order o).
  { rewrite Forall_forall in Hfst. intros j Hj.
    unfold of_order, targets, detail. rewrite (Hfst j Hj). reflexivity. }
  destruct (targets order o).
  - apply filter_all. intros d Hd. apply in_map_iff in Hd.
    destruct Hd as (j & <- & Hj). apply Hall, Hj.
  - apply filter_none. intros d Hd. apply in_map_iff in Hd.
    destruct Hd as (j & <- & Hj). apply Hall, Hj.
Qed.

Lemma join_rows items rows order :
  filter (of_order order)
         (map detail (flat_map (OrderDetails.joined items) rows))
  = flat_map (fun o => if targets order o
                       then map detail (OrderDetails.joined items o)
                       else []) rows.
Proof.
  induction rows as [| o rows IH]; [reflexivity |].
  cbn [flat_map]. rewrite map_app, filter_app, joined_rows, IH. reflexivity.
Qed.

Lemma no_target_rows {A} (g : Orders.row -> list A) (x : uuid) rows :
  existsb (fun k' => match k' with
                     | Some y => x =? y
                     | None => false
                     end) (map Orders.id rows) = false ->
  flat_map (fun o' => if targets (Some x) o' then g o' else []) rows = [].
Proof.
  induction rows as [| a rows IH]; cbn [map existsb flat_map];
    [reflexivity |].
  intros H. apply orb_false_elim in H. destruct H as [Ha Hl].
  rewrite (IH Hl).
  destruct (targets (Some x) a) eqn:Ht; [| reflexivity].
  apply targets_true in Ht. destruct Ht as (y & Hy & Hxy).
  injection Hxy as Hxy. subst y.
  rewrite Hy in Ha. rewrite Z.eqb_refl in Ha. discriminate.
Qed.

(** Under the primary key the rows of one stored order are selected. *)
Lemma single_target_rows {A} (g : Orders.row -> list A) rows o (x : uuid) :
  distinct Z.eqb (map Orders.id rows) = true ->
  In o rows ->
  Orders.id o = Some x ->
  flat_map (fun o' => if targets (Some x) o' then g o' else []) rows = g o.
Proof.
  intros Hd Ho Hx. induction rows as [| o' rows IH]; [destruct Ho |].
  cbn [map distinct flat_map] in *.
  destruct Ho as [-> | Ho].
  - rewrite Hx in Hd. apply andb_prop in Hd. destruct Hd as [Hd _].
    apply negb_true_iff in Hd. rewrite (no_target_rows g x rows Hd).
    assert (Ht : targets (Some x) o = true) by (apply targets_true; eauto).
    rewrite Ht. apply app_nil_r.
  - destruct (targets (Some x) o') eqn:Ht.
    + exfalso. apply targets_true in Ht. destruct Ht as (y & Hy & Hxy).
      injection Hxy as Hxy. subst y.
      rewrite Hy in Hd. apply andb_prop in Hd. destruct Hd as [Hd _].
      apply negb_true_iff in Hd.
      assert (Hex : existsb (fun k' => match k' with
                                       | Some y => x =? y
                                       | None => false
                                       end) (map Orders.id rows) = true).
      { apply existsb_exists. exists (Orders.id o).
        split; [apply (in_map Orders.id); exact Ho |].
        rewrite Hx. apply Z.eqb_refl. }
      congruence.
    + rewrite IH; [reflexivity | | exact Ho].
      destruct (Orders.id o'); [| exact Hd].
      apply andb_prop in Hd. tauto.
Qed.

Lemma joined_details items o (x : uuid) :
  Orders.id o = Some x ->
  map detail (OrderDetails.joined items o)
  = match filter (fun i => option_z_eqb (OrderItems.order_id i) (Some x))
                 items with
    | [] => [OrderDetails.select o None]
    | matched => map (fun i => OrderDetails.select o (Some i)) matched
    end.
Proof.
  intros Hx. unfold OrderDetails.joined.
  rewrite (filter_ext_in
             (fun oi => Sql.is_true (Sql.eq_z (Orders.id o)
                                              (OrderItems.order_id oi)))
             (fun i => option_z_eqb (OrderItems.order_id i) (Some x))).
  - destruct (filter _ items) as [| i matched]; [reflexivity |].
    rewrite map_map. reflexivity.
  - intros i _. rewrite Hx.
    destruct (OrderItems.order_id i) as [y |]; [| reflexivity].
    cbn. rewrite (Z.eqb_sym x y). destruct (y =? x); reflexivity.
Qed.

Lemma joined_length items o :
  List.length (OrderDetails.joined items o)
  = Nat.max 1 (List.length
                 (filter (fun i => Sql.is_true
                                     (Sql.eq_z (Orders.id o)
                                               (OrderItems.order_id i)))
                         items)).
Proof.
  unfold OrderDetails.joined.
  destruct (filter _ items) as [| i matched]; [reflexivity |].
  rewrite length_map. cbn [List.length]. lia.
Qed.

(** X16: the view [app.order_details] has, for every stored order, one
    row for each item that references it and, when no item does, one row
    whose item columns are NULL; it has no other rows, and they come by
    [created_at] of the order, latest first, then by [item_number].  The
    view has as many rows as the orders have items, an order without
    items counting once; under the primary key of [app.orders] the rows
    of an order are exactly the rows of its items, each once. *)
Theorem order_details_rows db :
  (forall d,
      In d (order_details db) <->
      exists o oi,
        In o (orders db) /\ d = OrderDetails.select o oi /\
        match oi with
        | Some i =>
            In i (order_items db) /\
            Sql.is_true (Sql.eq_z (Orders.id o) (OrderItems.order_id i))
            = true
        | None => items_of (order_items db) (Orders.id o) = []
        end) /\
  (forall o, In o (orders db) ->
             exists oi, In (OrderDetails.select o oi) (order_details db)) /\
  Sorted (fun a b => details_ordered a b = true) (order_details db) /\
  List.length (order_details db)
  = fold_right
      (fun o n =>
         (Nat.max 1 (List.length
                       (filter (fun i => Sql.is_true
                                           (Sql.eq_z (Orders.id o)
                                                     (OrderItems.order_id i)))
                               (order_items db))) + n)%nat)
      0%nat (orders db) /\
  (forall o x,
      distinct Z.eqb (map Orders.id (orders db)) = true ->
      In o (orders db) ->
      Orders.id o = Some x ->
      Permutation
        (details_of db (Some x))
        (match filter (fun i => option_z_eqb (OrderItems.order_id i) (Some x))
                      (order_items db) with
         | [] => [OrderDetails.select o None]
         | matched => map (fun i => OrderDetails.select o (Some i)) matched
         end)).
Proof.
  assert (Hin : forall d,
      In d (order_details db) <->
      exists o oi,
        In o (orders db) /\ d = OrderDetails.select o oi /\
        match oi with
        | Some i =>
            In i (order_items db) /\
            Sql.is_true (Sql.eq_z (Orders.id o) (OrderItems.order_id i))
            = true
        | None => items_of (order_items db) (Orders.id o) = []
        end).
  { intros d. unfold order_details. rewrite in_map_iff. split.
    - intros (j & <- & Hj).
      apply (Permutation_in _ (order_by_permutation _ _)) in Hj.
      apply in_flat_map in Hj. destruct Hj as (o & Ho & Hj).
      apply joined_in in Hj. destruct Hj as [Hfst Hsnd].
      exists o, (snd j). unfold detail. rewrite Hfst. auto.
    - intros (o & oi & Ho & -> & Hoi). exists (o, oi).
      split; [reflexivity |].
      apply (Permutation_in _ (Permutation_sym (order_by_permutation _ _))).
      apply in_flat_map. exists o. split; [exact Ho |].
      apply joined_in. auto. }
  split; [exact Hin |]. split; [| split; [| split]].
  - intros o Ho.
    destruct (items_of (order_items db) (Orders.id o)) as [| i matched] eqn:Hm.
    + exists None. apply Hin. exists o, None. auto.
    + exists (Some i). apply Hin. exists o, (Some i).
      split; [exact Ho |]. split; [reflexivity |].
      assert (Hi : In i (items_of (order_items db) (Orders.id o)))
        by (rewrite Hm; left; reflexivity).
      apply filter_In in Hi. rewrite eq_z_sym. exact Hi.
  - unfold order_details.
    eapply Sorted_map; [| apply order_by_sorted, before_total].
    intros a b H. exact H.
  - unfold order_details. rewrite length_map.
    rewrite (Permutation_length (order_by_permutation _ _)).
    clear Hin. induction (orders db) as [| o rows IH]; [reflexivity |].
    cbn [flat_map fold_right]. rewrite length_app, joined_length, IH.
    reflexivity.
  - intros o x Hkey Ho Hx. unfold details_of, order_details.
    rewrite <- (joined_details (order_items db) o x Hx).
    rewrite <- (single_target_rows
                  (fun o' => map detail
                               (OrderDetails.joined (order_items db) o'))
                  (orders db) o x Hkey Ho Hx).
    rewrite <- join_rows.
    apply filter_permutation, Permutation_map, order_by_permutation.
Qed.

Lemma primary_key_order rows o o' (x : uuid) :
  distinct Z.eqb (map Orders.id rows) = true ->
  In o rows -> In o' rows ->
  Orders.id o = Some x -> Orders.id o' = Some x ->
  o = o'.
Proof.
  intros Hd Ho Ho' Hx Hx'.
  assert (Hother : forall l a,
             negb (existsb (fun k' => match k' with
                                      | Some y => x =? y
                                      | None => false
                                      end) (map Orders.id l)) = true ->
             In a l -> Orders.id a = Some x -> False).
  { intros l a Hn Ha Hax. apply negb_true_iff in Hn.
    assert (Hex : existsb (fun k' => match k' with
                                     | Some y => x =? y
                                     | None => false
                                     end) (map Orders.id l) = true).
    { apply existsb_exists. exists (Orders.id a).
      split; [apply (in_map Orders.id); exact Ha |].
      rewrite Hax. apply Z.eqb_refl. }
    congruence. }
  induction rows as [| a rows IH]; [destruct Ho |].
  cbn [map distinct] in Hd.
  destruct Ho as [-> | Ho], Ho' as [-> | Ho']; [reflexivity | | |].
  - exfalso. rewrite Hx in Hd. apply andb_prop in Hd. destruct Hd as [Hd _].
    exact (Hother rows o' Hd Ho' Hx').
  - exfalso. rewrite Hx' in Hd. apply andb_prop in Hd. destruct Hd as [Hd _].
    exact (Hother rows o Hd Ho Hx).
  - apply IH; [| exact Ho | exact Ho'].
    destruct (Orders.id a); [| exact Hd]. apply andb_prop in Hd. tauto.
Qed.

(** X17: with valid orders under their primary key and totals that match
    the sums, the view [app.order_details] agrees with itself: for every
    stored order the [item_total] of its rows add up to their
    [order_total], 0 for the order without items. *)
Theorem order_details_totals db o :
  orders_valid db ->
  distinct Z.eqb (map Orders.id (orders db)) = true ->
  totals_consistent db ->
  In o (orders db) ->
  Sql.coalesce
    (Sql.sum (map OrderDetails.item_total (details_of db (Orders.id o))))
    (Some 0)
  = Orders.total_amount o /\
  Forall (fun d => OrderDetails.order_total d = Orders.total_amount o)
         (details_of db (Orders.id o)).
Proof.
  intros Hvalid Hkey Htotals Ho.
  assert (Hid : exists x, Orders.id o = Some x).
  { unfold orders_valid in Hvalid. rewrite Forall_forall in Hvalid.
    apply order_id_not_null. auto. }
  destruct Hid as (x & Hx).
  assert (Hmatch : Orders.total_amount o = Some (items_total db (Orders.id o))).
  { unfold totals_consistent in Htotals. rewrite Forall_forall in Htotals.
    apply Htotals. exact Ho. }
  split.
  - rewrite sum_values_coalesce, Hmatch. f_equal.
    unfold details_of, order_details.
    rewrite (sum_values_permutation _
               (map OrderDetails.item_total
                  (filter (of_order (Orders.id o))
                     (map detail
                        (flat_map (OrderDetails.joined (order_items db))
                                  (orders db))))))
      by (apply Permutation_map, filter_permutation, Permutation_map,
            order_by_permutation).
    rewrite join_total, Hx.
    rewrite (single_target
               (fun o' => total_price_sum
                            (items_of (order_items db) (Orders.id o')))
               (orders db) o x Hkey Ho Hx).
    rewrite Hx. reflexivity.
  - apply Forall_forall. intros d Hd. unfold details_of in Hd.
    apply filter_In in Hd. destruct Hd as [Hd Hof].
    unfold order_details in Hd. apply in_map_iff in Hd.
    destruct Hd as (j & <- & Hj).
    apply (Permutation_in _ (order_by_permutation _ _)) in Hj.
    apply in_flat_map in Hj. destruct Hj as (o' & Ho' & Hj).
    apply joined_in in Hj. destruct Hj as [Hfst _].
    unfold of_order, detail in *. rewrite Hfst in *.
    cbn [OrderDetails.select OrderDetails.order_id OrderDetails.order_total]
      in *.
    rewrite Hx in Hof.
    assert (Ht : targets (Some x) o' = true) by exact Hof.
    apply targets_true in Ht. destruct Ht as (y & Hy & Hxy).
    injection Hxy as Hxy. subst y.
    rewrite (primary_key_order (orders db) o' o x Hkey Ho' Ho Hy Hx).
    reflexivity.
Qed.

(** ** Transactions and the totals *)

(** X18: a transaction on [app.order_items] none of whose [UPDATE]s
    assigns another [order_id] to a row keeps the totals equal to the
    sums, whether it commits or is rolled back. *)
Theorem transactions_keep_totals ss db :
  totals_consistent db ->
  Forall (fun p => forall d, keeps_order_id (snd p) d) ss ->
  totals_consistent (fst (transaction ss db)).
Proof.
  intros Htotals Hkeep. unfold transaction.
  destruct (execute_all ss db) as [db' | e] eqn:Hall; cbn [fst];
    [| exact Htotals].
  revert db Htotals Hall.
  induction Hkeep as [| [ses s] ss Hs _ IH]; cbn [execute_all];
    intros db Htotals Hall.
  - injection Hall as <-. exact Htotals.
  - apply bind_ok in Hall. destruct Hall as (db1 & H1 & Hall).
    apply (IH db1); [| exact Hall].
    apply (totals_preserved ses s db db1 Htotals (Hs db) H1).
Qed.

(** ** The length of an order number *)

Lemma string_length_append a b :
  String.length (append a b) = (String.length a + String.length b)%nat.
Proof.
  induction a as [| c a IH]; cbn [append String.length]; [reflexivity |].
  rewrite IH. reflexivity.
Qed.

Lemma padding_length n fill cur :
  fill <> EmptyString -> String.length (Text.padding n fill cur) = n.
Proof.
  intros Hfill. revert cur.
  induction n as [| n IH]; intros cur; cbn [Text.padding]; [reflexivity |].
  destruct cur as [| c cur]; cbn [String.length].
  - destruct fill as [| c fill]; [congruence |].
    cbn [String.length]. rewrite IH. reflexivity.
  - rewrite IH. reflexivity.
Qed.

Lemma prefix_length n s :
  (n <= String.length s)%nat -> String.length (substring 0 n s) = n.
Proof.
  revert s. induction n as [| n IH]; intros s Hn.
  - destruct s; reflexivity.
  - destruct s as [| c s]; cbn [String.length] in Hn; [lia |].
    cbn [substring String.length]. rewrite IH by lia. reflexivity.
Qed.

Lemma lpad_length s n fill :
  fill <> EmptyString -> String.length (Text.lpad s n fill) = n.
Proof.
  intros Hfill. unfold Text.lpad.
  destruct (Nat.leb_spec n (String.length s)).
  - apply prefix_length. assumption.
  - rewrite string_length_append, padding_length by exact Hfill. lia.
Qed.

Lemma below_forallb (p : N -> bool) (k : N) :
  forallb p (map N.of_nat (seq 0 (N.to_nat k))) = true ->
  forall n, (n < k)%N -> p n = true.
Proof.
  intros H n Hn. rewrite forallb_forall in H. apply H.
  apply in_map_iff. exists (N.to_nat n). split; [apply N2Nat.id |].
  apply in_seq. lia.
Qed.

Lemma digits_length_4 n :
  (n < 10000)%N -> String.length (Text.digits 4 n) = 4%nat.
Proof.
  intros Hn. apply Nat.eqb_eq.
  apply (below_forallb
           (fun n => (String.length (Text.digits 4 n) =? 4)%nat) 10000%N);
    [vm_compute; reflexivity | exact Hn].
Qed.

Lemma digits_length_2 n :
  (n < 100)%N -> String.length (Text.digits 2 n) = 2%nat.
Proof.
  intros Hn. apply Nat.eqb_eq.
  apply (below_forallb
           (fun n => (String.length (Text.digits 2 n) =? 2)%nat) 100%N);
    [vm_compute; reflexivity | exact Hn].
Qed.

Lemma char_length_le s : (Sql.char_length s <= String.length s)%nat.
Proof.
  induction s as [| c s IH]; cbn [Sql.char_length String.length];
    [| destruct (Sql.continuation c)]; lia.
Qed.

(** X19: for a date whose year has at most four digits every candidate
    of [generate_order_number] has 19 characters, whatever the random
    number, since [LPAD] gives six characters on every input; the
    candidate fits [order_number VARCHAR(50)]. *)
Theorem order_number_candidate_length today x :
  (year today < 10000)%N ->
  (month today < 100)%N ->
  (day today < 100)%N ->
  String.length (order_number_candidate today x) = 19%nat /\
  varchar 50 "order_number" (Some (order_number_candidate today x)) = Ok tt.
Proof.
  intros Hy Hm Hd.
  assert (Hlen : String.length (order_number_candidate today x) = 19%nat).
  { unfold order_number_candidate, Text.to_char_YYYYMMDD.
    rewrite !string_length_append.
    rewrite digits_length_4, !digits_length_2 by assumption.
    rewrite lpad_length by discriminate. reflexivity. }
  split; [exact Hlen |]. unfold varchar.
  pose proof (char_length_le (order_number_candidate today x)) as Hle.
  replace (Sql.char_length (order_number_candidate today x) <=? 50)%nat
    with true; [reflexivity |].
  symmetry. apply Nat.leb_le. lia.
Qed.

(** ** [DELETE FROM app.orders] and the cascade *)

Lemma update_orders_total_untouched ses target total rows :
  (forall o, In o rows -> targets target o = false) ->
  update_orders_total ses target total rows = Ok rows.
Proof.
  induction rows as [| o rows IH]; cbn [update_orders_total]; intros H;
    [reflexivity |].
  assert (Ho := H o (or_introl eq_refl)). unfold targets in Ho.
  rewrite Ho. cbn [bind].
  rewrite IH by (intros x Hx; apply H; right; exact Hx). reflexivity.
Qed.

Lemma after_each_row_untouched ses events db :
  (forall ev o, In ev events -> In o (orders db) ->
                targets (trigger_target (fst ev) (snd ev)) o = false) ->
  after_each_row ses events db = Ok db.
Proof.
  induction events as [| [NEW OLD] events IH]; cbn [after_each_row];
    intros H; [reflexivity |].
  unfold update_order_total. fold (trigger_target NEW OLD).
  rewrite update_orders_total_untouched
    by (intros o Ho; apply (H (NEW, OLD) o); [left; reflexivity | exact Ho]).
  cbn [bind].
  replace {| orders := orders db; order_items := order_items db |} with db
    by (destruct db; reflexivity).
  apply IH. intros ev o Hev Ho. apply H; [right; exact Hev | exact Ho].
Qed.

Lemma delete_orders_result ses target db :
  distinct Z.eqb (map Orders.id (orders db)) = true ->
  references_valid db ->
  delete_orders ses target db
  = Ok {| orders := filter (fun o => negb (targets target o)) (orders db);
          order_items := filter (fun r => negb (belongs target r))
                                (order_items db) |}.
Proof.
  intros Hkey Href. unfold delete_orders.
  assert (Hlen := primary_key_single target (orders db) Hkey).
  destruct (filter (targets target) (orders db)) as [| o [| o' rest]] eqn:Hdel;
    cbn [List.length] in Hlen; [| | lia]; cbn [cascade_all].
  - f_equal. f_equal. symmetry. apply filter_all. intros r Hr.
    unfold belongs. destruct (Sql.is_true _) eqn:Hb; [| reflexivity].
    exfalso. unfold references_valid in Href. rewrite Forall_forall in Href.
    specialize (Href r Hr).
    destruct (OrderItems.order_id r) as [y |] eqn:Hy; [| discriminate].
    apply (references_orders_reaches _ _ y Hy) in Href.
    apply existsb_exists in Href. destruct Href as (o & Ho & Ht).
    assert (Hin : In o (filter (targets target) (orders db))).
    { apply filter_In. split; [exact Ho |].
      apply targets_true in Ht. destruct Ht as (z & Hz & Hyz).
      apply targets_true. exists z. split; [exact Hz |].
      destruct target as [t |]; [| discriminate].
      cbn in Hb. destruct (Z.eqb_spec y t); [congruence | discriminate]. }
    rewrite Hdel in Hin. exact Hin.
  - assert (Ho : In o (filter (targets target) (orders db)))
      by (rewrite Hdel; left; reflexivity).
    apply filter_In in Ho. destruct Ho as [Ho Ht].
    apply targets_true in Ht. destruct Ht as (x & Hx & ->).
    unfold cascade. cbn [orders order_items]. rewrite Hx.
    rewrite after_each_row_untouched; [reflexivity |].
    cbn [orders]. intros ev o' Hev Ho'.
    apply in_map_iff in Hev. destruct Hev as (OLD & <- & HOLD).
    apply filter_In in HOLD. destruct HOLD as [_ HOLD].
    apply filter_In in Ho'. destruct Ho' as [_ Ho'].
    apply negb_true_iff in Ho'.
    unfold trigger_target. cbn [fst snd field Sql.coalesce].
    destruct (OrderItems.order_id OLD) as [y |]; [| discriminate].
    cbn in HOLD. destruct (Z.eqb_spec y x); [subst y | discriminate].
    exact Ho'.
Qed.

(** X20: under the primary key and the foreign key a [DELETE] on
    [app.orders] never fails; it removes the order and, by the cascade,
    the items that reference it.  The triggers of these items find their
    order gone and write nothing: every other order, [updated_at]
    included, and every other item is as before, the foreign key still
    holds, and totals that matched the sums still do. *)
Theorem delete_order_cascades ses target db :
  distinct Z.eqb (map Orders.id (orders db)) = true ->
  references_valid db ->
  exists db',
    delete_orders ses target db = Ok db' /\
    orders db' = filter (fun o => negb (targets target o)) (orders db) /\
    order_items db'
    = filter (fun r => negb (belongs target r)) (order_items db) /\
    references_valid db' /\
    (totals_consistent db -> totals_consistent db').
Proof.
  intros Hkey Href. eexists.
  split; [apply delete_orders_result; assumption |].
  cbn [orders order_items]. split; [reflexivity |]. split; [reflexivity |].
  split.
  - unfold references_valid in *. cbn [orders order_items].
    rewrite Forall_forall in *. intros r Hr.
    apply filter_In in Hr. destruct Hr as [Hr Hb].
    specialize (Href r Hr). apply negb_true_iff in Hb.
    destruct (OrderItems.order_id r) as [y |] eqn:Hy;
      [| unfold references_orders; rewrite Hy; reflexivity].
    apply (references_orders_reaches _ _ y Hy).
    apply (references_orders_reaches _ _ y Hy) in Href.
    apply existsb_exists in Href. destruct Href as (o & Ho & Ht).
    apply existsb_exists. exists o. split; [| exact Ht].
    apply filter_In. split; [exact Ho |]. apply negb_true_iff.
    destruct (targets target o) eqn:Hto; [| reflexivity].
    apply targets_true in Ht. destruct Ht as (z & Hz & Hyz).
    injection Hyz as Hyz. subst z.
    apply targets_true in Hto. destruct Hto as (z & Hz' & ->).
    unfold belongs in Hb. rewrite Hy in Hb. cbn in Hb.
    assert (y = z) by congruence. subst z.
    rewrite Z.eqb_refl in Hb. discriminate.
  - unfold totals_consistent. cbn [orders]. intros Htotals.
    apply Forall_filter with (p := fun o => negb (targets target o)) in Htotals.
    rewrite Forall_forall in *. intros o Ho. specialize (Htotals o Ho).
    apply filter_In in Ho. destruct Ho as [_ Hto].
    apply negb_true_iff in Hto.
    unfold total_matches, items_total in *. cbn [order_items].
    rewrite Htotals, items_of_filter. do 2 f_equal.
    symmetry. apply filter_all.
    intros r Hr. apply filter_In in Hr. destruct Hr as [_ Hr].
    apply negb_true_iff. unfold belongs.
    destruct (Sql.is_true (Sql.eq_z (OrderItems.order_id r) target)) eqn:Hb;
      [| reflexivity].
    exfalso.
    destruct (OrderItems.order_id r) as [y |]; [| discriminate].
    destruct target as [t |]; [| discriminate].
    destruct (Orders.id o) as [i |] eqn:Hi; [| discriminate].
    cbn in Hr, Hb.
    destruct (Z.eqb_spec y i); [| discriminate].
    destruct (Z.eqb_spec y t); [| discriminate].
    unfold targets in Hto. rewrite Hi in Hto. cbn in Hto.
    subst. rewrite Z.eqb_refl in Hto. discriminate.
Qed.

(** ** Instances of the further properties *)

Lemma sample_items_valid : items_valid Sample.two_orders.
Proof. repeat constructor. Defined.

Lemma sample_references_valid : references_valid Sample.two_orders.
Proof. repeat constructor. Defined.

Lemma sample_totals_consistent : totals_consistent Sample.two_orders.
Proof. repeat constructor. Defined.

Lemma update_stamps_matched_rows_witness :
  exists db',
    update_order_items Sample.later (Some 10) (fun r => r) Sample.two_orders
    = Ok db' /\
    Forall2 (fun r r' =>
               if has_id (Some 10) r
               then r' = set_updated_at r (Some 2000) /\
                    OrderItems.updated_at r' = Some 2000 /\
                    OrderItems.constraints r' = Ok tt
               else r' = r)
            (order_items Sample.two_orders) (order_items db').
Proof.
  eexists. split; [vm_compute; reflexivity |].
  apply (update_stamps_matched_rows Sample.later (Some 10) (fun r => r)
           Sample.two_orders).
  vm_compute; reflexivity.
Defined.

Lemma missing_id_changes_nothing_witness :
  update_order_items Sample.later (Some 99) (Sample.set_order_id (Some 2))
                     Sample.two_orders = Ok Sample.two_orders /\
  delete_order_items Sample.later (Some 99) Sample.two_orders
  = Ok Sample.two_orders.
Proof.
  destruct (missing_id_changes_nothing Sample.later (Some 99)
              Sample.two_orders) as [Hupdate Hdelete].
  - intros r [<- | []]. reflexivity.
  - reflexivity.
  - split; [apply Hupdate | exact Hdelete].
Defined.

Lemma trigger_raises_on_overflow_only_witness :
  update_order_total Sample.later (Some (Sample.item 11 1 2 1 1 1)) None
                     Samples.full_order
  = Raise (numeric_value_out_of_range "v_total").
Proof.
  apply (proj2 (trigger_raises_on_overflow_only Sample.later
                  (Some (Sample.item 11 1 2 1 1 1)) None Samples.full_order
                  (numeric_value_out_of_range "v_total")
                  ltac:(repeat constructor) ltac:(repeat constructor))).
  split; [reflexivity |]. split; [vm_compute; discriminate | reflexivity].
Defined.

Lemma delete_never_fails_witness :
  exists db', delete_order_items Sample.later (Some 10) Sample.two_orders
              = Ok db'.
Proof.
  apply (delete_never_fails Sample.later (Some 10) Sample.two_orders).
  - exact sample_orders_valid.
  - exact sample_items_valid.
  - exact sample_totals_consistent.
Defined.

Lemma statements_move_total_by_price_witness :
  exists db' p,
    insert_order_items Sample.later Samples.second_item Sample.two_orders
    = Ok db' /\
    OrderItems.total_price
      (OrderItemsValues.tuple Sample.later Samples.second_item) = Some p /\
    Forall2 (fun o o' =>
               if targets (OrderItems.order_id
                             (OrderItemsValues.tuple Sample.later
                                                     Samples.second_item)) o
               then exists t,
                   Orders.total_amount o = Some t /\
                   o' = written Sample.later (Some (t + p)) o /\
                   Orders.total_amount o' = Some (t + p) /\
                   Orders.updated_at o' = Some (CURRENT_TIMESTAMP Sample.later)
               else o' = o)
            (orders Sample.two_orders) (orders db') /\
    p = 500 /\
    map Orders.total_amount (orders Sample.two_orders) = [Some 2000; Some 0] /\
    map Orders.total_amount (orders db') = [Some 2500; Some 0].
Proof.
  eexists.
  destruct (proj1 statements_move_total_by_price Sample.later
              Samples.second_item Sample.two_orders _
              sample_totals_consistent ltac:(vm_compute; reflexivity))
    as (p & Hp & Hrows).
  exists p. split; [reflexivity |]. split; [exact Hp |].
  split; [exact Hrows |].
  split; [vm_compute in Hp; congruence |].
  split; vm_compute; reflexivity.
Defined.

Lemma total_independent_of_row_order_witness :
  calculate_order_total (order_items Samples.full_order) (Some 1)
  = calculate_order_total
      [Sample.item 11 1 2 1 1 1;
       Sample.item 10 1 1 1 999999999999 999999999999] (Some 1).
Proof.
  apply (total_independent_of_row_order Sample.later None None
           Samples.full_order
           [Sample.item 11 1 2 1 1 1;
            Sample.item 10 1 1 1 999999999999 999999999999] (Some 1)).
  apply perm_swap.
Defined.


Lemma new_order_has_no_items_witness :
  exists db' NEW,
    insert_orders Sample.ses
      (Sample.order_values 3 "ORD-20261102-000003" DEFAULT 0)
      Sample.two_orders = Some (Ok db') /\
    orders db' = orders Sample.two_orders ++ [NEW] /\
    items_total db' (Orders.id NEW) = 0 /\
    totals_consistent db'.
Proof.
  eexists.
  destruct (new_order_has_no_items Sample.ses
              (Sample.order_values 3 "ORD-20261102-000003" DEFAULT 0)
              Sample.two_orders _ sample_references_valid
              ltac:(vm_compute; reflexivity))
    as (NEW & Horders & _ & Htotal & Hzero & Hiff).
  exists NEW. split; [reflexivity |]. split; [exact Horders |].
  split; [exact Hzero |]. apply Hiff.
  split; [exact sample_totals_consistent | exact Htotal].
Defined.

Lemma order_counts_partition_witness :
  get_order_count_by_status (orders Sample.two_orders) (Some pending)
  + (get_order_count_by_status (orders Sample.two_orders) (Some processing)
  + (get_order_count_by_status (orders Sample.two_orders) (Some confirmed)
  + (get_order_count_by_status (orders Sample.two_orders) (Some shipped)
  + (get_order_count_by_status (orders Sample.two_orders) (Some delivered)
  + (get_order_count_by_status (orders Sample.two_orders) (Some cancelled)
  + (get_order_count_by_status (orders Sample.two_orders) (Some failed)
  + 0)))))) = 2.
Proof.
  apply (proj1 order_counts_partition Sample.two_orders sample_orders_valid).
Defined.

Lemma valid_email_language_witness :
  EmailPattern.matches "ann@example.com" = true.
Proof.
  apply (proj2 (valid_email_language "ann@example.com")).
  exists "ann"%string, "example"%string, "com"%string.
  repeat split; cbn; lia.
Defined.

Lemma orders_by_date_range_witness :
  get_orders_by_date_range (orders Sample.two_orders) None (Some 5000) = [].
Proof.
  apply (proj2 (proj2 (proj2 (orders_by_date_range_complete_and_sorted
                                (orders Sample.two_orders) None (Some 5000))))).
  left. reflexivity.
Defined.

Lemma order_details_rows_witness :
  (exists oi,
      In (OrderDetails.select (Sample.order 2 "ORD-20261102-000002" pending 0)
                              oi)
         (order_details Sample.two_orders)) /\
  Permutation
    (details_of Sample.two_orders (Some 1))
    [OrderDetails.select (Sample.order 1 "ORD-20261102-000001" pending 2000)
                         (Some (Sample.item 10 1 1 2 1000 2000))] /\
  List.length (order_details Sample.two_orders) = 2%nat.
Proof.
  split; [| split].
  - apply (proj1 (proj2 (order_details_rows Sample.two_orders))).
    right. left. reflexivity.
  - apply (proj2 (proj2 (proj2 (proj2 (order_details_rows Sample.two_orders))))
             (Sample.order 1 "ORD-20261102-000001" pending 2000) 1).
    + reflexivity.
    + left. reflexivity.
    + reflexivity.
  - rewrite (proj1 (proj2 (proj2 (proj2
               (order_details_rows Sample.two_orders))))).
    reflexivity.
Defined.

Lemma order_details_totals_witness :
  Sql.coalesce
    (Sql.sum (map OrderDetails.item_total
                  (details_of Sample.two_orders (Some 1))))
    (Some 0) = Some 2000.
Proof.
  apply (order_details_totals Sample.two_orders
           (Sample.order 1 "ORD-20261102-000001" pending 2000)).
  - exact sample_orders_valid.
  - reflexivity.
  - exact sample_totals_consistent.
  - left. reflexivity.
Defined.

Lemma transactions_keep_totals_witness :
  totals_consistent
    (fst (transaction
            [(Sample.later, INSERT_INTO_order_items Samples.second_item);
             (Sample.later, DELETE_FROM_order_items (Some 10))]
            Sample.two_orders)).
Proof.
  apply (transactions_keep_totals
           [(Sample.later, INSERT_INTO_order_items Samples.second_item);
            (Sample.later, DELETE_FROM_order_items (Some 10))]
           Sample.two_orders).
  - exact sample_totals_consistent.
  - repeat constructor.
Defined.

Lemma order_number_candidate_length_witness :
  String.length (order_number_candidate (CURRENT_DATE Sample.ses) 123) = 19%nat
  /\ varchar 50 "order_number"
       (Some (order_number_candidate (CURRENT_DATE Sample.ses) 123)) = Ok tt.
Proof.
  apply (order_number_candidate_length (CURRENT_DATE Sample.ses) 123);
    reflexivity.
Defined.

Lemma delete_order_cascades_witness :
  exists db',
    delete_orders Sample.later (Some 1) Sample.two_orders = Ok db' /\
    orders db' = filter (fun o => negb (targets (Some 1) o))
                        (orders Sample.two_orders) /\
    order_items db' = filter (fun r => negb (belongs (Some 1) r))
                             (order_items Sample.two_orders) /\
    references_valid db' /\
    (totals_consistent Sample.two_orders -> totals_consistent db').
Proof.
  apply (delete_order_cascades Sample.later (Some 1) Sample.two_orders).
  - reflexivity.
  - exact sample_references_valid.
Defined.

(** ** Errors of a statement and its transaction *)

Lemma transaction_rollback before ses s after db db1 e :
  execute_all before db = Ok db1 ->
  execute ses s db1 = Raise e ->
  transaction (before ++ (ses, s) :: after) db = (db, ROLLBACK e).
Proof.
  intros Hbefore Hs. unfold transaction.
  rewrite execute_all_app, Hbefore. cbn [bind execute_all].
  rewrite Hs. reflexivity.
Qed.

Lemma price_equation_raises r q p d t total :
  OrderItems.quantity r = Some q ->
  OrderItems.unit_price r = Some p ->
  OrderItems.discount_amount r = Some d ->
  OrderItems.tax_amount r = Some t ->
  OrderItems.total_price r = Some total ->
  total <> q * p - d + t ->
  exists e, OrderItems.constraints r = Raise e.
Proof.
  intros Hq Hp Hd Ht Htot Hne.
  apply raises_or_ok. intros [] Hc.
  destruct (order_items_constraints_price r Hc d t Hd Ht)
    as (q' & p' & Hq' & Hp' & Htot').
  congruence.
Qed.

(** An [UPDATE] raises when the tuple it forms for a matched row does. *)
Lemma update_order_items_rows_raise ses target set rows OLD :
  In OLD rows ->
  has_id target OLD = true ->
  (exists e, OrderItems.constraints (stamped ses set OLD) = Raise e) ->
  exists e, update_order_items_rows ses target set rows = Raise e.
Proof.
  intros Hin Hid (e & He).
  induction rows as [| r rows IH]; [destruct Hin |].
  cbn [update_order_items_rows].
  destruct Hin as [-> | Hin].
  - rewrite Hid. unfold stamped in He. rewrite He. cbn [bind]. eauto.
  - destruct (IH Hin) as (e' & He').
    destruct (has_id target r).
    + destruct (OrderItems.constraints (update_updated_at_column ses (set r)))
        as [[] | e'']; cbn [bind]; [| eauto].
      rewrite He'. cbn [bind]. eauto.
    + rewrite He'. cbn [bind]. eauto.
Qed.

(** An [UPDATE] whose tuples pass the constraints writes them. *)
Lemma update_order_items_rows_ok ses target set rows :
  (forall r, In r rows -> has_id target r = true ->
             OrderItems.constraints (stamped ses set r) = Ok tt) ->
  update_order_items_rows ses target set rows
  = Ok (map (fun r => if has_id target r then stamped ses set r else r) rows,
        map (fun OLD => (stamped ses set OLD, OLD))
            (filter (has_id target) rows)).
Proof.
  induction rows as [| r rows IH]; intros Hall; [reflexivity |].
  cbn [update_order_items_rows map filter].
  rewrite IH by (intros x Hx; apply Hall; right; exact Hx).
  destruct (has_id target r) eqn:Hid; [| reflexivity].
  pose proof (Hall r (or_introl eq_refl) Hid) as Hc. unfold stamped in Hc.
  rewrite Hc. reflexivity.
Qed.

Lemma distinct_duplicate keys (k : Z) :
  In (Some k) keys -> distinct Z.eqb (keys ++ [Some k]) = false.
Proof.
  induction keys as [| [k' |] keys IH]; cbn [app distinct]; intros Hin.
  - destruct Hin.
  - destruct Hin as [Heq | Hin].
    + injection Heq as ->. rewrite existsb_app. cbn [existsb].
      rewrite Z.eqb_refl. cbn [orb]. rewrite orb_true_r. reflexivity.
    + rewrite (IH Hin). apply andb_false_r.
  - destruct Hin as [Heq | Hin]; [discriminate | exact (IH Hin)].
Qed.

Lemma items_of_order rows (x : uuid) :
  items_of rows (Some x)
  = filter (fun r => option_z_eqb (OrderItems.order_id r) (Some x)) rows.
Proof.
  unfold items_of. apply filter_ext. intros r.
  destruct (OrderItems.order_id r) as [y |]; [| reflexivity].
  cbn. destruct (y =? x); reflexivity.
Qed.

(** The trigger function raises when the sum over the items of a stored
    order does not fit [v_total]. *)
Lemma update_order_total_overflow ses NEW OLD db o (x : uuid) :
  trigger_target NEW OLD = Some x ->
  In o (orders db) ->
  Orders.id o = Some x ->
  10 ^ 12 <= total_price_sum
               (filter (fun r => option_z_eqb (OrderItems.order_id r) (Some x))
                       (order_items db)) ->
  update_order_total ses NEW OLD db
  = Raise (numeric_value_out_of_range "v_total").
Proof.
  intros Ht Ho Hx Hsum. unfold update_order_total.
  change (Sql.coalesce (field OrderItems.order_id NEW)
                       (field OrderItems.order_id OLD))
    with (trigger_target NEW OLD).
  rewrite Ht. rewrite <- items_of_order in Hsum.
  rewrite (calculate_order_total_overflow _ _ Hsum).
  rewrite update_orders_total_raises.
  replace (existsb (targets (Some x)) (orders db)) with true; [reflexivity |].
  symmetry. apply existsb_exists. exists o. split; [exact Ho |].
  apply targets_true. eauto.
Qed.

Lemma references_orders_stored rows r o (x : uuid) :
  In o rows -> Orders.id o = Some x -> OrderItems.order_id r = Some x ->
  references_orders rows r = Ok tt.
Proof.
  intros Ho Hx Hr. apply (references_orders_reaches rows r x Hr).
  apply existsb_exists. exists o. split; [exact Ho |].
  apply targets_true. eauto.
Qed.

(** The write of the trigger function raises when the tuple it forms for
    an order it reaches does. *)
Lemma update_orders_total_row_raises ses target v rows o :
  In o rows ->
  targets target o = true ->
  (exists e, Orders.constraints (written ses v o) = Raise e) ->
  exists e, update_orders_total ses target (Ok v) rows = Raise e.
Proof.
  intros Hin Ht (e & He).
  induction rows as [| r rows IH]; [destruct Hin |].
  cbn [update_orders_total].
  destruct Hin as [-> | Hin].
  - unfold targets in Ht. rewrite Ht. cbn [bind].
    unfold written in He. rewrite He. cbn [bind]. eauto.
  - destruct (IH Hin) as (e' & He').
    destruct (Sql.is_true (Sql.eq_z (Orders.id r) target)); cbn [bind].
    + match goal with
      | |- context [bind (Orders.constraints ?t) _] =>
          destruct (Orders.constraints t) as [[] | e'']
      end; cbn [bind]; [| eauto].
      rewrite He'. cbn [bind]. eauto.
    + rewrite He'. cbn [bind]. eauto.
Qed.

Lemma update_order_total_status ses NEW OLD db o (x : uuid) :
  trigger_target NEW OLD = Some x ->
  In o (orders db) ->
  Orders.id o = Some x ->
  Orders.valid_status_transitions o = Some false ->
  exists e, update_order_total ses NEW OLD db = Raise e.
Proof.
  intros Ht Ho Hx Hstatus. unfold update_order_total.
  change (Sql.coalesce (field OrderItems.order_id NEW)
                       (field OrderItems.order_id OLD))
    with (trigger_target NEW OLD).
  rewrite Ht.
  assert (Htarget : targets (Some x) o = true)
    by (apply targets_true; eauto).
  destruct (calculate_order_total (order_items db) (Some x)) as [v | e].
  - destruct (update_orders_total_row_raises ses (Some x) v (orders db) o
                Ho Htarget) as (e & He).
    + apply raises_or_ok. intros [] Hc.
      apply orders_constraints_status in Hc. apply Hc. exact Hstatus.
    + exists e. rewrite He. reflexivity.
  - exists e. rewrite update_orders_total_raises.
    replace (existsb (targets (Some x)) (orders db)) with true;
      [reflexivity |].
    symmetry. apply existsb_exists. eauto.
Qed.

(** C5: when a statement on [app.order_items] raises, in the table's
    constraints or in the trigger function, its transaction ends with that
    error, the statements after it are not run, and the database is the
    one before the transaction: neither the rows written by the
    statements before nor the writes of the failing one remain.  A
    transaction is rolled back in no other way: its error is the one of
    the first statement that raises.  No error is dropped on its way: an
    [INSERT] or [UPDATE] whose tuple breaks the equation of
    [valid_total_price], an [INSERT] of a stored [id], and an [INSERT],
    [UPDATE] or [DELETE] whose rows are accepted and written and whose
    trigger function then finds a sum that does not fit [v_total], each
    roll the transaction back with the error raised; so does an [INSERT]
    whose trigger function writes an order on which the condition of
    [valid_status_transitions] is false. *)
Theorem violation_aborts_transaction :
  (forall ss db before ses s after db1 e,
      ss = before ++ (ses, s) :: after ->
      execute_all before db = Ok db1 ->
      execute ses s db1 = Raise e ->
      transaction ss db = (db, ROLLBACK e)) /\
  (forall ss db db' e,
      transaction ss db = (db', ROLLBACK e) ->
      db' = db /\
      exists before ses s after db1,
        ss = before ++ (ses, s) :: after /\
        execute_all before db = Ok db1 /\
        execute ses s db1 = Raise e) /\
  (forall before ses v after db db1 q p d t total,
      execute_all before db = Ok db1 ->
      OrderItems.quantity (OrderItemsValues.tuple ses v) = Some q ->
      OrderItems.unit_price (OrderItemsValues.tuple ses v) = Some p ->
      OrderItems.discount_amount (OrderItemsValues.tuple ses v) = Some d ->
      OrderItems.tax_amount (OrderItemsValues.tuple ses v) = Some t ->
      OrderItems.total_price (OrderItemsValues.tuple ses v) = Some total ->
      total <> q * p - d + t ->
      exists e,
        transaction (before ++ (ses, INSERT_INTO_order_items v) :: after) db
        = (db, ROLLBACK e)) /\
  (forall before ses target set after db db1 OLD q p d t total,
      execute_all before db = Ok db1 ->
      In OLD (order_items db1) ->
      has_id target OLD = true ->
      OrderItems.quantity (set OLD) = Some q ->
      OrderItems.unit_price (set OLD) = Some p ->
      OrderItems.discount_amount (set OLD) = Some d ->
      OrderItems.tax_amount (set OLD) = Some t ->
      OrderItems.total_price (set OLD) = Some total ->
      total <> q * p - d + t ->
      exists e,
        transaction (before ++ (ses, UPDATE_order_items target set) :: after)
                    db
        = (db, ROLLBACK e)) /\
  (forall before ses v after db db1 r,
      execute_all before db = Ok db1 ->
      OrderItems.constraints (OrderItemsValues.tuple ses v) = Ok tt ->
      In r (order_items db1) ->
      OrderItems.id r = OrderItems.id (OrderItemsValues.tuple ses v) ->
      transaction (before ++ (ses, INSERT_INTO_order_items v) :: after) db
      = (db, ROLLBACK (unique_violation "order_items_pkey"))) /\
  (forall before ses v after db db1 o x,
      execute_all before db = Ok db1 ->
      OrderItems.constraints (OrderItemsValues.tuple ses v) = Ok tt ->
      order_items_unique (order_items db1 ++ [OrderItemsValues.tuple ses v])
      = Ok tt ->
      In o (orders db1) ->
      Orders.id o = Some x ->
      OrderItems.order_id (OrderItemsValues.tuple ses v) = Some x ->
      10 ^ 12 <= total_price_sum
                   (filter (fun r => option_z_eqb (OrderItems.order_id r)
                                                  (Some x))
                           (order_items db1 ++ [OrderItemsValues.tuple ses v])) ->
      transaction (before ++ (ses, INSERT_INTO_order_items v) :: after) db
      = (db, ROLLBACK (numeric_value_out_of_range "v_total"))) /\
  (forall before ses target set after db db1 OLD o x,
      execute_all before db = Ok db1 ->
      filter (has_id target) (order_items db1) = [OLD] ->
      OrderItems.constraints (stamped ses set OLD) = Ok tt ->
      order_items_unique
        (map (fun r => if has_id target r then stamped ses set r else r)
             (order_items db1)) = Ok tt ->
      In o (orders db1) ->
      Orders.id o = Some x ->
      OrderItems.order_id (set OLD) = Some x ->
      10 ^ 12 <= total_price_sum
                   (filter (fun r => option_z_eqb (OrderItems.order_id r)
                                                  (Some x))
                           (map (fun r => if has_id target r
                                          then stamped ses set r else r)
                                (order_items db1))) ->
      transaction (before ++ (ses, UPDATE_order_items target set) :: after) db
      = (db, ROLLBACK (numeric_value_out_of_range "v_total"))) /\
  (forall before ses target after db db1 OLD o x,
      execute_all before db = Ok db1 ->
      filter (has_id target) (order_items db1) = [OLD] ->
      In o (orders db1) ->
      Orders.id o = Some x ->
      OrderItems.order_id OLD = Some x ->
      10 ^ 12 <= total_price_sum
                   (filter (fun r => option_z_eqb (OrderItems.order_id r)
                                                  (Some x))
                           (filter (fun r => negb (has_id target r))
                                   (order_items db1))) ->
      transaction (before ++ (ses, DELETE_FROM_order_items target) :: after) db
      = (db, ROLLBACK (numeric_value_out_of_range "v_total"))) /\
  (forall before ses v after db db1 o x,
      execute_all before db = Ok db1 ->
      OrderItems.constraints (OrderItemsValues.tuple ses v) = Ok tt ->
      order_items_unique (order_items db1 ++ [OrderItemsValues.tuple ses v])
      = Ok tt ->
      In o (orders db1) ->
      Orders.id o = Some x ->
      OrderItems.order_id (OrderItemsValues.tuple ses v) = Some x ->
      Orders.valid_status_transitions o = Some false ->
      exists e,
        transaction (before ++ (ses, INSERT_INTO_order_items v) :: after) db
        = (db, ROLLBACK e)).
Proof.
  split; [| split; [| split; [| split; [| split; [| split; [| split;
    [| split]]]]]]].
  - intros ss db before ses s after db1 e -> Hbefore Hs.
    exact (transaction_rollback before ses s after db db1 e Hbefore Hs).
  - unfold transaction. intros ss db db' e H.
    destruct (execute_all ss db) as [db2 | e2] eqn:Hall; [discriminate |].
    injection H as <- <-. split; [reflexivity |].
    apply execute_all_raises. exact Hall.
  - intros before ses v after db db1 q p d t total Hbefore Hq Hp Hd Ht Htot Hne.
    destruct (price_equation_raises _ q p d t total Hq Hp Hd Ht Htot Hne)
      as (e & He).
    exists e. apply (transaction_rollback _ _ _ _ _ db1); [exact Hbefore |].
    cbn [execute]. unfold insert_order_items. rewrite He. reflexivity.
  - intros before ses target set after db db1 OLD q p d t total
           Hbefore Hin Hid Hq Hp Hd Ht Htot Hne.
    destruct (update_order_items_rows_raise ses target set (order_items db1)
                OLD Hin Hid) as (e & He).
    { apply (price_equation_raises (stamped ses set OLD) q p d t total);
        assumption. }
    exists e. apply (transaction_rollback _ _ _ _ _ db1); [exact Hbefore |].
    cbn [execute]. unfold update_order_items. rewrite He. reflexivity.
  - intros before ses v after db db1 r Hbefore Hc Hr Hid.
    apply (transaction_rollback _ _ _ _ _ db1); [exact Hbefore |].
    cbn [execute]. unfold insert_order_items. rewrite Hc. cbn [bind].
    unfold OrderItems.constraints, OrderItems.not_nulls in Hc. ok_inv_all.
    match goal with
    | H : not_null "id" _ = Ok tt |- _ =>
        apply not_null_ok in H; destruct H as [k Hk]
    end.
    unfold order_items_unique, unique. rewrite map_app. cbn [map].
    assert (Hin : In (OrderItems.id r) (map OrderItems.id (order_items db1)))
      by (apply (in_map OrderItems.id); exact Hr).
    rewrite Hid, Hk in Hin.
    rewrite Hk.
    match goal with
    | |- context [distinct Z.eqb ?l] =>
        assert (Hd : distinct Z.eqb l = false)
          by (apply distinct_duplicate; exact Hin);
        rewrite Hd
    end.
    reflexivity.
  - intros before ses v after db db1 o x Hbefore Hc Hu Ho Hx Horder Hsum.
    apply (transaction_rollback _ _ _ _ _ db1); [exact Hbefore |].
    cbn [execute]. unfold insert_order_items.
    rewrite Hc, Hu, (references_orders_stored _ _ o x Ho Hx Horder).
    cbn [bind after_each_row].
    rewrite (update_order_total_overflow ses _ _ _ o x); try assumption;
      [reflexivity |].
    unfold trigger_target. cbn [field]. rewrite Horder. reflexivity.
  - intros before ses target set after db db1 OLD o x
           Hbefore Hmatch Hc Hu Ho Hx Horder Hsum.
    apply (transaction_rollback _ _ _ _ _ db1); [exact Hbefore |].
    cbn [execute]. unfold update_order_items.
    rewrite update_order_items_rows_ok.
    + cbn [bind fst snd]. rewrite Hu, Hmatch.
      cbn [bind map references_orders_changed fst snd].
      assert (Hnew : OrderItems.order_id (stamped ses set OLD) = Some x)
        by exact Horder.
      rewrite (references_orders_stored _ _ o x Ho Hx Hnew).
      destruct (option_z_eqb _ _); cbn [bind after_each_row];
        (rewrite (update_order_total_overflow ses _ _ _ o x); try assumption;
         [reflexivity |]);
        unfold trigger_target; cbn [field]; rewrite Hnew; reflexivity.
    + intros r Hr Hid.
      assert (Hin : In r (filter (has_id target) (order_items db1)))
        by (apply filter_In; auto).
      rewrite Hmatch in Hin. destruct Hin as [<- | []]. exact Hc.
  - intros before ses target after db db1 OLD o x
           Hbefore Hmatch Ho Hx Horder Hsum.
    apply (transaction_rollback _ _ _ _ _ db1); [exact Hbefore |].
    cbn [execute]. unfold delete_order_items. rewrite Hmatch.
    cbn [map after_each_row].
    rewrite (update_order_total_overflow ses None (Some OLD)
               {| orders := orders db1;
                  order_items := filter (fun r => negb (has_id target r))
                                        (order_items db1) |}
               o x Horder Ho Hx Hsum).
    reflexivity.
  - intros before ses v after db db1 o x Hbefore Hc Hu Ho Hx Horder Hstatus.
    destruct (update_order_total_status ses
                (Some (OrderItemsValues.tuple ses v)) None
                {| orders := orders db1;
                   order_items :=
                     order_items db1 ++ [OrderItemsValues.tuple ses v] |}
                o x) as (e & He); try assumption.
    { unfold trigger_target. cbn [field]. rewrite Horder. reflexivity. }
    exists e. apply (transaction_rollback _ _ _ _ _ db1); [exact Hbefore |].
    cbn [execute]. unfold insert_order_items.
    rewrite Hc, Hu, (references_orders_stored _ _ o x Ho Hx Horder).
    cbn [bind after_each_row]. rewrite He. reflexivity.
Qed.

(** A transaction whose second [INSERT] passes the constraints of
    [app.order_items] and raises in the trigger function: the sum
    10000000000.00 over both items does not fit [NUMERIC(12, 2)].  An
    [INSERT] with [total_price] 15.00 for two units at 10.00, and an
    [INSERT] of the stored [id] 10. *)
Lemma violation_aborts_transaction_witness :
  transaction
    [(Sample.ses,
      INSERT_INTO_order_items
        (Sample.item_values 10 1 1 (VALUE (Some 1))
           (VALUE (Some 999999999999)) DEFAULT DEFAULT 999999999999));
     (Sample.later,
      INSERT_INTO_order_items
        (Sample.item_values 11 1 2 (VALUE (Some 1)) (VALUE (Some 1))
           DEFAULT DEFAULT 1));
     (Sample.later, DELETE_FROM_order_items (Some 10))]
    Sample.one_order
  = (Sample.one_order, ROLLBACK (numeric_value_out_of_range "v_total")) /\
  (exists e,
      transaction
        [(Sample.later,
          INSERT_INTO_order_items
            (Sample.item_values 11 1 2 (VALUE (Some 2)) (VALUE (Some 1000))
               DEFAULT DEFAULT 1500))]
        Sample.two_orders
      = (Sample.two_orders, ROLLBACK e)) /\
  transaction
    [(Sample.later,
      INSERT_INTO_order_items
        (Sample.item_values 10 1 2 (VALUE (Some 1)) (VALUE (Some 500))
           DEFAULT DEFAULT 500))]
    Sample.two_orders
  = (Sample.two_orders, ROLLBACK (unique_violation "order_items_pkey")).
Proof.
  split; [| split].
  - apply (proj1 (proj2 (proj2 (proj2 (proj2 (proj2
             violation_aborts_transaction)))))
             [(Sample.ses,
               INSERT_INTO_order_items
                 (Sample.item_values 10 1 1 (VALUE (Some 1))
                    (VALUE (Some 999999999999)) DEFAULT DEFAULT
                    999999999999))]
             Sample.later
             (Sample.item_values 11 1 2 (VALUE (Some 1)) (VALUE (Some 1))
                DEFAULT DEFAULT 1)
             [(Sample.later, DELETE_FROM_order_items (Some 10))]
             Sample.one_order
             {| orders :=
                  [written Sample.ses (Some 999999999999)
                     (Sample.order 1 "ORD-20261102-000001" pending 0)];
                order_items :=
                  [Sample.item 10 1 1 1 999999999999 999999999999] |}
             (written Sample.ses (Some 999999999999)
                (Sample.order 1 "ORD-20261102-000001" pending 0))
             1).
    + vm_compute; reflexivity.
    + vm_compute; reflexivity.
    + vm_compute; reflexivity.
    + left; reflexivity.
    + reflexivity.
    + reflexivity.
    + vm_compute; discriminate.
  - apply (proj1 (proj2 (proj2 violation_aborts_transaction))
             [] Sample.later
             (Sample.item_values 11 1 2 (VALUE (Some 2)) (VALUE (Some 1000))
                DEFAULT DEFAULT 1500)
             [] Sample.two_orders Sample.two_orders 2 1000 0 0 1500);
      try reflexivity.
    lia.
  - apply (proj1 (proj2 (proj2 (proj2 (proj2 violation_aborts_transaction))))
             [] Sample.later
             (Sample.item_values 10 1 2 (VALUE (Some 1)) (VALUE (Some 500))
                DEFAULT DEFAULT 500)
             [] Sample.two_orders Sample.two_orders
             (Sample.item 10 1 1 2 1000 2000)).
    + reflexivity.
    + vm_compute; reflexivity.
    + left; reflexivity.
    + reflexivity.
Defined.
